(** * A shallow embedding of the realtime hub of [server/server.py]

    The server keeps three registries of live connections (chat sockets by
    user, signaling sockets by room, push queues by user), a per-user
    message log, and fans payloads out to them.  The embedding threads one
    [World] value through every operation: it holds the module-level
    globals [hub] and [MESSAGES] together with the part of the environment
    the code talks to (the sockets, the queue objects).

    Python objects compared by identity ([WebSocket], [asyncio.Queue]) are
    natural numbers; [dict] and [defaultdict] keyed by strings are [gmap];
    [set] is [gset]; JSON objects keep their insertion order and are
    association lists with unique keys. *)

From Stdlib Require Import ZArith Ascii String.
From stdpp Require Import gmap strings list fin_maps pretty.

Open Scope string_scope.
Open Scope list_scope.
Set Warnings "-register-all,-clear-no-such-hyp".

(** ** Values exchanged on the wire *)

(** What [json.loads] can return.  A float is carried by its IEEE-754 bit
    pattern; nothing in the server computes with it. *)
Inductive json : Type :=
| JNull
| JBool (b : bool)
| JInt (z : Z)
| JFloat (bits : Z)
| JStr (s : string)
| JArr (items : list json)
| JObj (fields : list (string * json)).

Abbreviation dict := (list (string * json)).

(** [d.get(k)]: the value bound to [k], if any. *)
Fixpoint dict_get (k : string) (d : dict) : option json :=
  match d with
  | [] => None
  | (k', v) :: d' => if decide (k' = k) then Some v else dict_get k d'
  end.

(** [d[k] = v]: an existing key keeps its position, a new key goes last. *)
Fixpoint dict_set (k : string) (v : json) (d : dict) : dict :=
  match d with
  | [] => [(k, v)]
  | (k', v') :: d' =>
      if decide (k' = k) then (k', v) :: d' else (k', v') :: dict_set k v d'
  end.

(** [d.setdefault(k, v)]: binds [k] only when it is not bound yet. *)
Definition dict_setdefault (k : string) (v : json) (d : dict) : dict :=
  match dict_get k d with
  | Some _ => d
  | None => d ++ [(k, v)]
  end.

(** [d.get(k)] as Python sees it: [None] when the key is missing. *)
Definition py_get (k : string) (d : dict) : json :=
  default JNull (dict_get k d).

(** [d.get(k, dflt)]. *)
Definition py_get_default (k : string) (dflt : json) (d : dict) : json :=
  default dflt (dict_get k d).

(** Truth value of an object, as [or] and [not] test it. *)
Definition py_truthy (v : json) : bool :=
  match v with
  | JNull => false
  | JBool b => b
  | JInt z => negb (z =? 0)%Z
  | JFloat bits => negb ((bits =? 0)%Z || (bits =? 2 ^ 63)%Z)
  | JStr s => negb (bool_decide (s = EmptyString))
  | JArr items => negb (bool_decide (items = []))
  | JObj fields => match fields with [] => false | _ => true end
  end.

(** [v == s] for a string literal [s]. *)
Definition py_eq_str (v : json) (s : string) : bool :=
  match v with
  | JStr t => bool_decide (t = s)
  | _ => false
  end.

(** ** [str.strip] *)

(** [str.isspace] on one character; a character of a Rocq string stands
    for the code point of the same number. *)
Definition is_space (c : ascii) : bool :=
  let n := nat_of_ascii c in
  (((9 <=? n) && (n <=? 13)) || ((28 <=? n) && (n <=? 32))
   || (n =? 133) || (n =? 160))%nat.

Fixpoint lstrip (s : string) : string :=
  match s with
  | EmptyString => EmptyString
  | String c s' => if is_space c then lstrip s' else s
  end.

Definition rstrip (s : string) : string := String.rev (lstrip (String.rev s)).

Definition strip (s : string) : string := rstrip (lstrip s).

(** ** The [json] module and [str] *)

(** The standard-library functions the server calls.  [json_loads] is
    [None] when [json.loads] raises [json.JSONDecodeError];
    [json_dumps ensure_ascii v] is [json.dumps(v, ensure_ascii=...)];
    [py_repr v] is [str(v)] for a value that is not a string. *)
Class JsonLib : Type := {
  json_loads : string -> option json;
  json_dumps : bool -> json -> string;
  py_repr : json -> string
}.

(** [str(v)]. *)
Definition py_str {codec : JsonLib} (v : json) : string :=
  match v with
  | JStr s => s
  | _ => py_repr v
  end.

(** ** The world *)

Definition handle := nat.
Definition qid := nat.

(** An [asyncio.Queue]: [maxsize <= 0] means unbounded. *)
Record Queue : Type := mkQueue {
  q_maxsize : nat;
  q_items : list json
}.

(** [asyncio.Queue()]. *)
Definition new_queue : Queue := mkQueue 0 [].

(** [Queue.full]. *)
Definition q_full (q : Queue) : bool :=
  ((0 <? q_maxsize q) && (q_maxsize q <=? length (q_items q)))%nat.

Inductive registry : Type := WsByUser | WsRooms | SseQueues.

(** What the trace records: a write to one of the hub's mappings, or a
    frame written to a socket, each with the state of [hub._lock] at that
    moment. *)
Inductive event : Type :=
| Mutate (r : registry) (locked : bool)
| Send (ws : handle) (locked : bool).

Record World : Type := mkWorld {
  (* class Hub *)
  ws_by_user : gmap string (gset handle);
  ws_rooms : gmap string (gset handle);
  sse_queues : gmap string (list qid);
  lock_held : bool;
  (* module-level store *)
  MESSAGES : gmap string (list json);
  (* environment: queue objects, sockets *)
  queues : gmap qid Queue;
  next_queue : qid;
  ws_closed : gset handle;
  ws_sent : gmap handle (list string);
  trace : list event
}.

(** The state after the module is loaded: [MESSAGES] and [hub] are empty. *)
Definition init : World :=
  mkWorld ∅ ∅ ∅ false ∅ ∅ 0 ∅ ∅ [].

Definition log (e : event) (w : World) : World :=
  mkWorld (ws_by_user w) (ws_rooms w) (sse_queues w) (lock_held w)
          (MESSAGES w) (queues w) (next_queue w) (ws_closed w) (ws_sent w)
          (trace w ++ [e]).

Definition set_ws_by_user (m : gmap string (gset handle)) (w : World) : World :=
  log (Mutate WsByUser (lock_held w))
      (mkWorld m (ws_rooms w) (sse_queues w) (lock_held w)
               (MESSAGES w) (queues w) (next_queue w) (ws_closed w) (ws_sent w)
               (trace w)).

Definition set_ws_rooms (m : gmap string (gset handle)) (w : World) : World :=
  log (Mutate WsRooms (lock_held w))
      (mkWorld (ws_by_user w) m (sse_queues w) (lock_held w)
               (MESSAGES w) (queues w) (next_queue w) (ws_closed w) (ws_sent w)
               (trace w)).

Definition set_sse_queues (m : gmap string (list qid)) (w : World) : World :=
  log (Mutate SseQueues (lock_held w))
      (mkWorld (ws_by_user w) (ws_rooms w) m (lock_held w)
               (MESSAGES w) (queues w) (next_queue w) (ws_closed w) (ws_sent w)
               (trace w)).

Definition set_lock (b : bool) (w : World) : World :=
  mkWorld (ws_by_user w) (ws_rooms w) (sse_queues w) b
          (MESSAGES w) (queues w) (next_queue w) (ws_closed w) (ws_sent w)
          (trace w).

Definition set_MESSAGES (m : gmap string (list json)) (w : World) : World :=
  mkWorld (ws_by_user w) (ws_rooms w) (sse_queues w) (lock_held w)
          m (queues w) (next_queue w) (ws_closed w) (ws_sent w) (trace w).

Definition set_queues (m : gmap qid Queue) (w : World) : World :=
  mkWorld (ws_by_user w) (ws_rooms w) (sse_queues w) (lock_held w)
          (MESSAGES w) m (next_queue w) (ws_closed w) (ws_sent w) (trace w).

Definition set_next_queue (n : qid) (w : World) : World :=
  mkWorld (ws_by_user w) (ws_rooms w) (sse_queues w) (lock_held w)
          (MESSAGES w) (queues w) n (ws_closed w) (ws_sent w) (trace w).

Definition set_ws_sent (m : gmap handle (list string)) (w : World) : World :=
  mkWorld (ws_by_user w) (ws_rooms w) (sse_queues w) (lock_held w)
          (MESSAGES w) (queues w) (next_queue w) (ws_closed w) m (trace w).

(** The peer of [ws] goes away: every later send on [ws] raises. *)
Definition ws_drop (ws : handle) (w : World) : World :=
  mkWorld (ws_by_user w) (ws_rooms w) (sse_queues w) (lock_held w)
          (MESSAGES w) (queues w) (next_queue w) ({[ws]} ∪ ws_closed w)
          (ws_sent w) (trace w).

(** ** Sockets and queues *)

(** The frames written to [ws] so far, oldest first. *)
Definition sent_to (w : World) (ws : handle) : list string :=
  default [] (ws_sent w !! ws).

(** The queue object behind a reference. *)
Definition queue_of (w : World) (q : qid) : Queue :=
  default new_queue (queues w !! q).

(** [await ws.send_text(text)]: [None] when the call raises. *)
Definition ws_send_text (ws : handle) (text : string) (w : World) : option World :=
  let w := log (Send ws (lock_held w)) w in
  if decide (ws ∈ ws_closed w) then None
  else Some (set_ws_sent (<[ws := sent_to w ws ++ [text]]> (ws_sent w)) w).

(** [q.put_nowait(item)]: [None] when it raises [QueueFull]. *)
Definition put_nowait (q : qid) (item : json) (w : World) : option World :=
  let Q := queue_of w q in
  if q_full Q then None
  else Some (set_queues (<[q := mkQueue (q_maxsize Q) (q_items Q ++ [item])]> (queues w)) w).

(** ** Reading a [defaultdict] *)

(** [m[k]] on a [defaultdict]: a missing key is first bound to the default. *)
Definition dd_getitem {V : Type} (dflt : V) (k : string) (m : gmap string V)
  : V * gmap string V :=
  match m !! k with
  | Some v => (v, m)
  | None => (dflt, <[k := dflt]> m)
  end.

(** ** class Hub *)

(** [async with self._lock: body]. *)
Definition with_lock (body : World -> World) (w : World) : World :=
  set_lock false (body (set_lock true w)).

(** [self.ws_by_user[user_id].add(ws)] under the lock. *)
Definition add_ws_user (user_id : string) (ws : handle) (w : World) : World :=
  with_lock (fun w =>
    let '(s, m) := dd_getitem ∅ user_id (ws_by_user w) in
    set_ws_by_user (<[user_id := {[ws]} ∪ s]> m) w) w.

(** [discard] the socket, then [pop] the key when its set is empty. *)
Definition remove_ws_user (user_id : string) (ws : handle) (w : World) : World :=
  with_lock (fun w =>
    let '(s, m) := dd_getitem ∅ user_id (ws_by_user w) in
    let m := <[user_id := s ∖ {[ws]}]> m in
    let '(s, m) := dd_getitem ∅ user_id m in
    set_ws_by_user (if decide (s = ∅) then delete user_id m else m) w) w.

Definition add_ws_room (room_id : string) (ws : handle) (w : World) : World :=
  with_lock (fun w =>
    let '(s, m) := dd_getitem ∅ room_id (ws_rooms w) in
    set_ws_rooms (<[room_id := {[ws]} ∪ s]> m) w) w.

Definition remove_ws_room (room_id : string) (ws : handle) (w : World) : World :=
  with_lock (fun w =>
    let '(s, m) := dd_getitem ∅ room_id (ws_rooms w) in
    let m := <[room_id := s ∖ {[ws]}]> m in
    let '(s, m) := dd_getitem ∅ room_id m in
    set_ws_rooms (if decide (s = ∅) then delete room_id m else m) w) w.

(** The sockets of a user, [self.ws_by_user.get(user_id, [])]. *)
Definition chat_handles (w : World) (user_id : string) : gset handle :=
  default ∅ (ws_by_user w !! user_id).

(** The sockets of a room, [self.ws_rooms.get(room_id, [])]. *)
Definition room_handles (w : World) (room_id : string) : gset handle :=
  default ∅ (ws_rooms w !! room_id).

(** The queues of a user, [self.sse_queues.get(user_id, [])]. *)
Definition push_queues (w : World) (user_id : string) : list qid :=
  default [] (sse_queues w !! user_id).

Section Hub.
Context {codec : JsonLib}.

(** Body of the first loop of [broadcast_to_user]: a send that raises
    unregisters the socket and the loop goes on. *)
Definition send_or_drop_user (user_id : string) (payload : json)
           (w : World) (ws : handle) : World :=
  match ws_send_text ws (json_dumps false payload) w with
  | Some w' => w'
  | None => remove_ws_user user_id ws w
  end.

(** Body of the second loop: an enqueue that raises is passed over. *)
Definition put_or_pass (payload : json) (w : World) (q : qid) : World :=
  match put_nowait q payload w with
  | Some w' => w'
  | None => w
  end.

(** [Hub.broadcast_to_user].  Both loops run over a copy of the
    collection taken when the loop starts; the order in which a set is
    listed is the one [elements] gives. *)
Definition broadcast_to_user (user_id : string) (payload : json) (w : World)
  : World :=
  let w1 := foldl (send_or_drop_user user_id payload) w
                  (elements (chat_handles w user_id)) in
  foldl (put_or_pass payload) w1 (push_queues w1 user_id).

(** Body of the loop of [broadcast_room]. *)
Definition send_or_drop_room (room_id : string) (payload : json)
           (sender : handle) (w : World) (ws : handle) : World :=
  if decide (ws = sender) then w
  else match ws_send_text ws (json_dumps false payload) w with
       | Some w' => w'
       | None => remove_ws_room room_id ws w
       end.

(** [Hub.broadcast_room]. *)
Definition broadcast_room (room_id : string) (payload : json)
           (sender : handle) (w : World) : World :=
  foldl (send_or_drop_room room_id payload sender) w
        (elements (room_handles w room_id)).

End Hub.

(** ** The message store and the REST endpoints *)

(** [l[-n:]] for a positive [n]. *)
Definition last_n {A : Type} (n : nat) (l : list A) : list A :=
  drop (length l - n) l.

(** The [messages] field of [get_history]:
    [MESSAGES.get(user_id, [])[-200:]]. *)
Definition history (w : World) (user_id : string) : list json :=
  last_n 200 (default [] (MESSAGES w !! user_id)).

(** [get_history]; it reads the store and changes nothing. *)
Definition get_history (user_id : string) (w : World) : json :=
  JObj [("user_id", JStr user_id); ("messages", JArr (history w user_id))].

(** [MESSAGES[user_id].append(msg)]. *)
Definition messages_append (user_id : string) (msg : json) (w : World) : World :=
  let '(l, m) := dd_getitem [] user_id (MESSAGES w) in
  set_MESSAGES (<[user_id := l ++ [msg]]> m) w.

(** [dev_reset]: [MESSAGES.clear()]. *)
Definition dev_reset (w : World) : World := set_MESSAGES ∅ w.

(** How a handler ends. *)
Inductive outcome : Type :=
| Return (body : json)
| HTTPException (status_code : nat) (detail : string)
| AttributeError.

(** [(payload.get("role") or "user").strip()]; [None] when the value is
    true and has no [strip]. *)
Definition role_of (payload : dict) : option string :=
  let r := py_get "role" payload in
  if py_truthy r then
    match r with
    | JStr s => Some (strip s)
    | _ => None
    end
  else Some (strip "user").

Section Rest.
Context {codec : JsonLib}.

(** [post_message]; [new_id] is what [uuid.uuid4()] gives and [now]
    what [utc_iso()] gives in this call. *)
Definition post_message (payload : dict) (new_id now : string) (w : World)
  : outcome * World :=
  let user_id := strip (py_str (py_get_default "user_id" (JStr EmptyString) payload)) in
  let text := strip (py_str (py_get_default "text" (JStr EmptyString) payload)) in
  match role_of payload with
  | None => (AttributeError, w)
  | Some role =>
      if bool_decide (user_id = EmptyString) || bool_decide (text = EmptyString) then
        (HTTPException 400 "user_id and text are required", w)
      else
        let msg := JObj [("id", JStr new_id); ("ts", JStr now);
                         ("user_id", JStr user_id); ("role", JStr role);
                         ("text", JStr text)] in
        let w := messages_append user_id msg w in
        let w := broadcast_to_user user_id
                   (JObj [("type", JStr "message"); ("data", msg)]) w in
        (Return (JObj [("ok", JBool true); ("message", msg)]), w)
  end.

End Rest.

(** ** The push stream *)

(** [l.remove(x)]: the first occurrence goes; [None] is [ValueError]. *)
Fixpoint list_remove_first (x : qid) (l : list qid) : option (list qid) :=
  match l with
  | [] => None
  | y :: l' =>
      if decide (y = x) then Some l'
      else option_map (cons y) (list_remove_first x l')
  end.

(** The first two statements of [sse]: a new queue object is made and
    appended to [hub.sse_queues[user_id]]; no lock is taken. *)
Definition sse (user_id : string) (w : World) : qid * World :=
  let q := next_queue w in
  let w := set_next_queue (S q) (set_queues (<[q := new_queue]> (queues w)) w) in
  let '(l, m) := dd_getitem [] user_id (sse_queues w) in
  (q, set_sse_queues (<[user_id := l ++ [q]]> m) w).

(** The [finally] block of [event_gen]:
    [hub.sse_queues[user_id].remove(q)], a [ValueError] being passed
    over.  Reading the [defaultdict] binds a missing key to [[]]. *)
Definition event_gen_finally (user_id : string) (q : qid) (w : World) : World :=
  match sse_queues w !! user_id with
  | None => set_sse_queues (<[user_id := []]> (sse_queues w)) w
  | Some l =>
      match list_remove_first q l with
      | Some l' => set_sse_queues (<[user_id := l']> (sse_queues w)) w
      | None => w
      end
  end.

(** The first statement of [event_gen]: the greeting is put on the queue.
    [None] stands for a [put] that has to wait because the queue is full. *)
Definition event_gen_hello (q : qid) (now : string) (w : World) : option World :=
  put_nowait q (JObj [("type", JStr "sse_hello");
                      ("data", JObj [("ts", JStr now); ("note", JStr "connected")])]) w.

(** [q.get()] when an item is there: the generator takes the oldest one. *)
Definition event_gen_next (q : qid) (w : World) : option (json * World) :=
  let Q := queue_of w q in
  match q_items Q with
  | [] => None
  | item :: rest =>
      Some (item, set_queues (<[q := mkQueue (q_maxsize Q) rest]> (queues w)) w)
  end.

(** ** The two socket endpoints *)

(** How one turn of a receive loop ends: the loop goes on, or an exception
    left it and the handler has run its [except] clause. *)
Inductive loop_outcome : Type :=
| Continue (w : World)
| Exit (w : World).

Definition world_of (o : loop_outcome) : World :=
  match o with Continue w | Exit w => w end.

Section Sockets.
Context {codec : JsonLib}.

(** [ws_chat] up to the loop: register, then greet.  The greeting is
    sent outside the [try]. *)
Definition ws_chat_accept (user_id : string) (ws : handle) (now : string)
           (w : World) : loop_outcome :=
  let w := add_ws_user user_id ws w in
  let hello := JObj [("type", JStr "ws_hello");
                     ("data", JObj [("ts", JStr now); ("user_id", JStr user_id)])] in
  match ws_send_text ws (json_dumps true hello) w with
  | Some w' => Continue w'
  | None => Exit w
  end.

(** A reply on the connection's own socket; a send that raises leaves
    the loop through the [except] clauses, which unregister. *)
Definition reply_chat (user_id : string) (ws : handle) (text : string)
           (w : World) : loop_outcome :=
  match ws_send_text ws text w with
  | Some w' => Continue w'
  | None => Exit (remove_ws_user user_id ws w)
  end.

(** One turn of the loop of [ws_chat] on the text frame [raw].  Two uses
    of the decoded value can raise: [msg.get] when [msg] is not a [dict]
    ([AttributeError]) and the unpacking of [msg.get("data") or {}] into
    the broadcast payload when that value is not a mapping ([TypeError]).
    Both leave the loop through [except Exception], which unregisters. *)
Definition ws_chat_frame (user_id : string) (ws : handle) (raw now : string)
           (w : World) : loop_outcome :=
  let msg := match json_loads raw with
             | Some v => v
             | None => JObj [("type", JStr "text");
                             ("data", JObj [("text", JStr raw)])]
             end in
  match msg with
  | JObj d =>
      let mtype := py_get "type" d in
      if py_eq_str mtype "ping" then
        reply_chat user_id ws
          (json_dumps true (JObj [("type", JStr "pong"); ("ts", JStr now)])) w
      else if py_eq_str mtype "message" then
        match reply_chat user_id ws
                (json_dumps false (JObj [("type", JStr "echo");
                                         ("data", py_get "data" d)])) w with
        | Exit w' => Exit w'
        | Continue w1 =>
            let data := py_get "data" d in
            match (if py_truthy data then data else JObj []) with
            | JObj fields =>
                Continue (broadcast_to_user user_id
                  (JObj [("type", JStr "message");
                         ("data", JObj (dict_set "ts" (JStr now)
                                   (dict_set "echoed" (JBool true) fields)))])
                  w1)
            | _ => Exit (remove_ws_user user_id ws w1)
            end
        end
      else
        reply_chat user_id ws
          (json_dumps false (JObj [("type", JStr "ack"); ("data", msg);
                                   ("ts", JStr now)])) w
  | _ => Exit (remove_ws_user user_id ws w)
  end.

(** [receive_text] raises [WebSocketDisconnect]. *)
Definition ws_chat_disconnect (user_id : string) (ws : handle) (w : World)
  : World :=
  remove_ws_user user_id ws w.

(** [ws_signal] up to the loop. *)
Definition ws_signal_accept (room_id : string) (ws : handle) (now : string)
           (w : World) : loop_outcome :=
  let w := add_ws_room room_id ws w in
  let hello := JObj [("type", JStr "signal_hello"); ("room", JStr room_id);
                     ("ts", JStr now)] in
  match ws_send_text ws (json_dumps true hello) w with
  | Some w' => Continue w'
  | None => Exit w
  end.

(** What the relay makes of a frame before it stamps it. *)
Definition signal_payload (raw : string) : json :=
  match json_loads raw with
  | Some v => v
  | None => JObj [("type", JStr "raw"); ("data", JStr raw)]
  end.

(** One turn of the loop of [ws_signal] on the text frame [raw];
    [payload.setdefault] raises [AttributeError] when [payload] is not a
    [dict], and [except Exception] unregisters. *)
Definition ws_signal_frame (room_id : string) (ws : handle) (raw now : string)
           (w : World) : loop_outcome :=
  match signal_payload raw with
  | JObj d =>
      Continue (broadcast_room room_id
                  (JObj (dict_setdefault "ts" (JStr now) d)) ws w)
  | _ => Exit (remove_ws_room room_id ws w)
  end.

Definition ws_signal_disconnect (room_id : string) (ws : handle) (w : World)
  : World :=
  remove_ws_room room_id ws w.

End Sockets.

(** ** A small codec for the worked examples

    An instance of [JsonLib] for a fragment of JSON: the literals,
    integers, strings without escapes, arrays and objects.  On a document
    of the fragment [lite_loads] gives what [json.loads] gives, and
    [lite_dumps] writes a value of the fragment as [json.dumps] does, with
    its [", "] and [": "] separators.  Outside the fragment [lite_loads]
    gives [None]; the examples stay inside. *)

Definition is_digit (c : ascii) : bool :=
  let n := nat_of_ascii c in ((48 <=? n) && (n <=? 57))%nat.

Definition is_json_ws (c : ascii) : bool :=
  let n := nat_of_ascii c in
  ((n =? 32) || (n =? 9) || (n =? 10) || (n =? 13))%nat.

Fixpoint skip_ws (s : string) : string :=
  match s with
  | String c s' => if is_json_ws c then skip_ws s' else s
  | EmptyString => s
  end.

Fixpoint strip_prefix (p s : string) : option string :=
  match p, s with
  | EmptyString, _ => Some s
  | String a p', String b s' => if decide (a = b) then strip_prefix p' s' else None
  | String _ _, EmptyString => None
  end.

Fixpoint read_digits (acc : Z) (s : string) : Z * string :=
  match s with
  | String c s' =>
      if is_digit c
      then read_digits (10 * acc + Z.of_nat (nat_of_ascii c - 48)) s'
      else (acc, s)
  | EmptyString => (acc, s)
  end.

(** An integer literal: no leading zero, no fraction, no exponent. *)
Definition read_int (s : string) : option (Z * string) :=
  match s with
  | String c s' =>
      if is_digit c then
        let '(z, r) := if decide (c = "0"%char) then (0%Z, s') else read_digits 0 s in
        match r with
        | String d _ =>
            if is_digit d || bool_decide (d = "."%char)
               || bool_decide (d = "e"%char) || bool_decide (d = "E"%char)
            then None else Some (z, r)
        | EmptyString => Some (z, r)
        end
      else None
  | EmptyString => None
  end.

(** The rest of a string literal after its opening quote. *)
Fixpoint read_string (s : string) : option (string * string) :=
  match s with
  | EmptyString => None
  | String c s' =>
      if decide (c = "034"%char) then Some (EmptyString, s')
      else if bool_decide (c = "092"%char) || (nat_of_ascii c <? 32)%nat then None
      else '(t, r) ← read_string s'; Some (String c t, r)
  end.

Fixpoint parse_value (fuel : nat) (s : string) : option (json * string) :=
  match fuel with
  | O => None
  | S fuel =>
      match skip_ws s with
      | String "n" _ as s => r ← strip_prefix "null" s; Some (JNull, r)
      | String "t" _ as s => r ← strip_prefix "true" s; Some (JBool true, r)
      | String "f" _ as s => r ← strip_prefix "false" s; Some (JBool false, r)
      | String "034" s' => '(t, r) ← read_string s'; Some (JStr t, r)
      | String "-" s' => '(z, r) ← read_int s'; Some (JInt (- z), r)
      | String "[" s' =>
          match skip_ws s' with
          | String "]" r => Some (JArr [], r)
          | s' => parse_items fuel [] s'
          end
      | String "{" s' =>
          match skip_ws s' with
          | String "}" r => Some (JObj [], r)
          | s' => parse_members fuel [] s'
          end
      | s => '(z, r) ← read_int s; Some (JInt z, r)
      end
  end
with parse_items (fuel : nat) (acc : list json) (s : string)
  : option (json * string) :=
  match fuel with
  | O => None
  | S fuel =>
      '(v, r) ← parse_value fuel s;
      match skip_ws r with
      | String "," r' => parse_items fuel (acc ++ [v]) r'
      | String "]" r' => Some (JArr (acc ++ [v]), r')
      | _ => None
      end
  end
with parse_members (fuel : nat) (acc : dict) (s : string)
  : option (json * string) :=
  match fuel with
  | O => None
  | S fuel =>
      match skip_ws s with
      | String "034" s' =>
          '(k, r) ← read_string s';
          match skip_ws r with
          | String ":" r' =>
              '(v, r) ← parse_value fuel r';
              match skip_ws r with
              | String "," r' => parse_members fuel (dict_set k v acc) r'
              | String "}" r' => Some (JObj (dict_set k v acc), r')
              | _ => None
              end
          | _ => None
          end
      | _ => None
      end
  end.

Definition lite_loads (s : string) : option json :=
  '(v, r) ← parse_value (2 * String.length s + 2) s;
  match skip_ws r with
  | EmptyString => Some v
  | _ => None
  end.

Fixpoint escape (s : string) : string :=
  match s with
  | EmptyString => EmptyString
  | String c s' =>
      if bool_decide (c = "034"%char) || bool_decide (c = "092"%char)
      then String "092" (String c (escape s'))
      else String c (escape s')
  end.

Definition quote (s : string) : string :=
  String "034" (escape s +:+ String "034" EmptyString).

Fixpoint join (sep : string) (l : list string) : string :=
  match l with
  | [] => EmptyString
  | [x] => x
  | x :: l' => x +:+ sep +:+ join sep l'
  end.

Fixpoint lite_dumps (v : json) : string :=
  match v with
  | JNull => "null"
  | JBool true => "true"
  | JBool false => "false"
  | JInt z => pretty z
  | JFloat _ => "NaN"
  | JStr s => quote s
  | JArr items => "[" +:+ join ", " (List.map lite_dumps items) +:+ "]"
  | JObj fields =>
      "{" +:+ join ", " (List.map (fun kv => quote kv.1 +:+ ": " +:+ lite_dumps kv.2)
                                 fields) +:+ "}"
  end.

(** [str] of [None], of a boolean and of an integer. *)
Definition lite_repr (v : json) : string :=
  match v with
  | JNull => "None"
  | JBool true => "True"
  | JBool false => "False"
  | v => lite_dumps v
  end.

Definition lite_json : JsonLib :=
  {| json_loads := lite_loads;
     json_dumps := fun _ => lite_dumps;
     py_repr := lite_repr |}.

(** ** Runs of the server *)

Section Runs.
Context {codec : JsonLib}.

(** One thing that happens to the server: an endpoint runs one of its
    stretches of code, a generator takes an item, or a peer goes away. *)
Inductive step : World -> World -> Prop :=
| step_chat_accept user_id ws now w :
    step w (world_of (ws_chat_accept user_id ws now w))
| step_chat_frame user_id ws raw now w :
    step w (world_of (ws_chat_frame user_id ws raw now w))
| step_chat_disconnect user_id ws w :
    step w (ws_chat_disconnect user_id ws w)
| step_signal_accept room_id ws now w :
    step w (world_of (ws_signal_accept room_id ws now w))
| step_signal_frame room_id ws raw now w :
    step w (world_of (ws_signal_frame room_id ws raw now w))
| step_signal_disconnect room_id ws w :
    step w (ws_signal_disconnect room_id ws w)
| step_sse user_id w :
    step w (sse user_id w).2
| step_event_gen_hello q now w w'
    (Hhello : event_gen_hello q now w = Some w') : step w w'
| step_event_gen_next q item w w'
    (Hnext : event_gen_next q w = Some (item, w')) : step w w'
| step_event_gen_finally user_id q w :
    step w (event_gen_finally user_id q w)
| step_post_message payload new_id now w :
    step w (post_message payload new_id now w).2
| step_dev_reset w :
    step w (dev_reset w)
| step_ws_drop ws w :
    step w (ws_drop ws w).

(** The states the server can be in. *)
Definition reachable (w : World) : Prop := rtc step init w.

End Runs.

(** Every queue object is listed once under a user and came from [sse]. *)
Definition queues_listed_once (w : World) : Prop :=
  forall user_id l, sse_queues w !! user_id = Some l ->
    NoDup l /\ forall q, q ∈ l -> q < next_queue w.

(** No key of a socket registry is bound to the empty set. *)
Definition no_empty_set (m : gmap string (gset handle)) : Prop :=
  forall k s, m !! k = Some s -> s <> ∅.

(** No key of the queue registry is bound to the empty list. *)
Definition no_empty_list (m : gmap string (list qid)) : Prop :=
  forall k l, m !! k = Some l -> l <> [].

(** Every write to a registry in the trace was made with the lock held. *)
Definition mutations_locked (t : list event) : Prop :=
  forall r locked, Mutate r locked ∈ t -> locked = true.

(** Every send in the trace was made with the lock free. *)
Definition sends_unlocked (t : list event) : Prop :=
  forall ws locked, Send ws locked ∈ t -> locked = false.

(** What is shown of every state the server reaches. *)
Definition hub_inv (w : World) : Prop :=
  queues_listed_once w /\ no_empty_set (ws_by_user w) /\ no_empty_set (ws_rooms w).

(** The lock is respected along a trace. *)
Definition lock_respected (t : list event) : Prop :=
  mutations_locked t /\ sends_unlocked t.

(** What a call adds to the trace when it starts with the lock free:
    the lock is free again at the end, every write was made under the
    lock and every send without it. *)
Definition extends_respecting (w w' : World) : Prop :=
  lock_held w' = false /\
  exists t, trace w' = trace w ++ t /\ lock_respected t.

(** ** The lock discipline and the owners of the queues *)

(** What the lock asks of one event: a write to a socket registry is made
    under the lock, a frame is written with the lock free.  The writes to
    the queue registry are those of the push stream, which takes no lock. *)
Definition keeps_lock_discipline (e : event) : Prop :=
  match e with
  | Mutate r locked => r <> SseQueues -> locked = true
  | Send _ locked => locked = false
  end.

(** No queue is listed under two users. *)
Definition queues_one_owner (w : World) : Prop :=
  forall u u' l l' q,
    sse_queues w !! u = Some l -> sse_queues w !! u' = Some l' ->
    q ∈ l -> q ∈ l' -> u = u'.

(** The lock is free and every event logged so far kept to the
    discipline. *)
Definition lock_inv (w : World) : Prop :=
  lock_held w = false /\ Forall keeps_lock_discipline (trace w).

(** ** The greeting of a push stream *)

(** The greeting [event_gen] puts on its queue. *)
Definition sse_hello (now : string) : json :=
  JObj [("type", JStr "sse_hello");
        ("data", JObj [("ts", JStr now); ("note", JStr "connected")])].

(** ** White space *)

(** Every character of the string is white space for [str.strip]; the
    empty string is such a string. *)
Definition all_space (s : string) : Prop :=
  Forall (fun c => is_space c = true) (list_ascii_of_string s).

(** ** The event stream as text *)

Definition newline : ascii := "010"%char.

Section EventText.
Context {codec : JsonLib}.

(** What [event_gen] yields for an item of the queue. *)
Definition sse_data_event (item : json) : string :=
  "data: " +:+ json_dumps false item +:+ String newline (String newline EmptyString).

(** What [event_gen] yields when the wait for an item times out. *)
Definition sse_keepalive (now : string) : string :=
  ": keepalive " +:+ now +:+ String newline (String newline EmptyString).

(** One turn of the loop of [event_gen]: the oldest item of the queue as
    a data event, or a keep-alive comment when the queue stays empty for
    the 25 seconds of the wait. *)
Definition event_gen_turn (q : qid) (now : string) (w : World) : string * World :=
  match event_gen_next q w with
  | Some (item, w') => (sse_data_event item, w')
  | None => (sse_keepalive now, w)
  end.

End EventText.

(** ** The test client of [e2e_test.py] *)

(** The lines of a response body as the client iterates over it: each
    line ends with its newline, the last one may lack it. *)
Fixpoint lines_of (s : string) : list string :=
  match s with
  | EmptyString => []
  | String c s' =>
      if decide (c = newline) then String c EmptyString :: lines_of s'
      else match lines_of s' with
           | [] => [String c EmptyString]
           | l :: ls => String c l :: ls
           end
  end.

(** [s.rstrip("\n")]. *)
Fixpoint rstrip_newline (s : string) : string :=
  match s with
  | EmptyString => EmptyString
  | String c s' =>
      match rstrip_newline s' with
      | EmptyString => if decide (c = newline) then EmptyString
                       else String c EmptyString
      | r => String c r
      end
  end.

(** [s[n:]]. *)
Fixpoint string_drop (n : nat) (s : string) : string :=
  match n, s with
  | S n', String _ s' => string_drop n' s'
  | _, _ => s
  end.

(** What the listener holds between two lines: the lines of the event
    being read, and the items it has put on its queue. *)
Record listener : Type := mkListener {
  buffer_lines : list string;
  received : list (string * json)
}.

Section TestClient.
Context {codec : JsonLib}.

(** The items one event gives: every [data:] line is decoded, and kept as
    text under the tag [raw] when [json.loads] raises. *)
Definition dispatch (buffer : list string) : list (string * json) :=
  List.map (fun dl => match json_loads dl with
                      | Some obj => ("event", obj)
                      | None => ("raw", JStr dl)
                      end)
           (List.map (fun l => lstrip (string_drop 5 l))
                     (List.filter (String.prefix "data:") buffer)).

(** The body of the loop of [sse_listener] on one line of the response. *)
Definition sse_listener_line (st : listener) (raw : string) : listener :=
  let line := rstrip_newline raw in
  if decide (line = EmptyString) then
    match buffer_lines st with
    | [] => st
    | buffer => mkListener [] (received st ++ dispatch buffer)
    end
  else if String.prefix ":" line then st
  else mkListener (buffer_lines st ++ [line]) (received st).

(** The item [ws_reader] puts on its queue for a text frame. *)
Definition ws_reader (frame : string) : string * json :=
  ("msg", match json_loads frame with
          | Some data => data
          | None => JObj [("raw", JStr frame)]
          end).

End TestClient.

(** [is_message_with_text]; a [get] on a value that is not a [dict]
    raises, and the [except] clause answers [False]. *)
Definition is_message_with_text (item : string * json) (text : string) : bool :=
  let '(tag, obj) := item in
  if bool_decide (tag = "event") || bool_decide (tag = "msg") then
    match obj with
    | JObj d =>
        if py_eq_str (py_get "type" d) "message" then
          match py_get_default "data" (JObj []) d with
          | JObj data => py_eq_str (py_get "text" data) text
          | _ => false
          end
        else false
    | _ => false
    end
  else false.

(** [is_echo_with_text]. *)
Definition is_echo_with_text (item : string * json) (text : string) : bool :=
  let '(tag, obj) := item in
  if bool_decide (tag = "msg") then
    match obj with
    | JObj d =>
        if py_eq_str (py_get "type" d) "echo" then
          match py_get_default "data" (JObj []) d with
          | JObj data => py_eq_str (py_get "text" data) text
          | _ => false
          end
        else false
    | _ => false
    end
  else false.

(** The string holds no newline. *)
Definition no_newline (s : string) : Prop :=
  Forall (fun c => c <> newline) (list_ascii_of_string s).

(** [wait_for_queue_match] on the items that reach the client's queue
    with less than [timeout] seconds between two of them: the items that
    do not match are taken off the queue and dropped, the first one that
    matches is returned and the later ones stay queued; [None] stands for
    the [asyncio.TimeoutError] raised when the items run out. *)
Fixpoint wait_for_queue_match (predicate : string * json -> bool)
    (arrivals : list (string * json)) :
    option ((string * json) * list (string * json)) :=
  match arrivals with
  | [] => None
  | item :: rest =>
      if predicate item then Some (item, rest)
      else wait_for_queue_match predicate rest
  end.

(** The predicates of the third check of [main]: the item is a decoded
    frame, an object whose [type] is [kind] and whose [nonce] is
    [nonce]. *)
Definition is_signal_with_nonce (kind nonce : string) (item : string * json) : bool :=
  let '(tag, obj) := item in
  bool_decide (tag = "msg") &&
  match obj with
  | JObj d => py_eq_str (py_get "type" d) kind && py_eq_str (py_get "nonce" d) nonce
  | _ => false
  end.

(** ** Scenes for the worked examples *)

Definition hi : json :=
  JObj [("type", JStr "message"); ("data", JObj [("text", JStr "hi")])].

Definition offer : json :=
  JObj [("type", JStr "offer"); ("sdp", JStr "x"); ("nonce", JStr "n1")].

Definition alice_world : World :=
  let w := world_of (ws_chat_accept (codec := lite_json) "alice" 1 "t0" init) in
  let w := world_of (ws_chat_accept (codec := lite_json) "alice" 2 "t0" w) in
  let w := (sse "alice" w).2 in
  world_of (ws_chat_accept (codec := lite_json) "bob" 3 "t0" w).

Definition alice_world_2_gone : World := ws_drop 2 alice_world.

Definition alice_world_full : World :=
  let w := (sse "alice" alice_world).2 in
  set_queues (<[0 := mkQueue 1 [JNull]]> (queues w)) w.

Definition room_world : World :=
  let w := world_of (ws_signal_accept (codec := lite_json) "r1" 1 "t0" init) in
  let w := world_of (ws_signal_accept (codec := lite_json) "r1" 2 "t0" w) in
  world_of (ws_signal_accept (codec := lite_json) "r2" 3 "t0" w).

Definition numbered (n : nat) : list json :=
  List.map (fun i => JInt (Z.of_nat i)) (seq 1 n).

Definition store_of (user_id : string) (msgs : list json) : World :=
  foldl (fun w msg => messages_append user_id msg w) init msgs.

(** Scenes for the push stream, the socket frames and the test client. *)

Definition two_users_world : World := (sse "bob" alice_world).2.

Definition ping_frame : string := lite_dumps (JObj [("type", JStr "ping")]).

Definition yo_frame : string :=
  lite_dumps (JObj [("type", JStr "message"); ("data", JObj [("text", JStr "yo")])]).

Definition bad_data_frame : string :=
  lite_dumps (JObj [("type", JStr "message"); ("data", JStr "yo")]).

Definition hi_body : dict :=
  [("user_id", JStr "alice"); ("text", JStr " hi "); ("role", JStr "user")].

Definition blank_body : dict :=
  [("user_id", JStr "alice"); ("text", JStr "  ")].

Definition alice_after_hi : World :=
  broadcast_to_user (codec := lite_json) "alice" hi alice_world.

Definition alice_after_next : World :=
  match event_gen_next 0 alice_after_hi with
  | Some (_, w') => w'
  | None => alice_after_hi
  end.

Definition lone_room_world : World :=
  world_of (ws_signal_accept (codec := lite_json) "r1" 1 "t0" init).

Definition hi_event : json :=
  JObj [("type", JStr "message");
        ("data", JObj [("id", JStr "id1"); ("ts", JStr "t1"); ("user_id", JStr "alice");
                       ("role", JStr "user"); ("text", JStr "hi")])].

Definition yo_event : json :=
  JObj [("type", JStr "message");
        ("data", JObj [("text", JStr "yo"); ("echoed", JBool true); ("ts", JStr "t1")])].

(** * Properties *)

Lemma foldl_frame {A B C : Type} (f : A -> B -> A) (proj : A -> C) :
  (forall a b, proj (f a b) = proj a) ->
  forall l a, proj (foldl f a l) = proj a.
Proof.
  intros Hf l. induction l as [|b l IH]; intros a; simpl; [done|].
  by rewrite IH.
Qed.

Ltac unfold_hub :=
  unfold remove_ws_user, add_ws_user, remove_ws_room, add_ws_room, with_lock,
    set_ws_by_user, set_ws_rooms, set_sse_queues, set_lock, set_MESSAGES,
    set_queues, set_next_queue, set_ws_sent, log, dd_getitem.

Ltac frame_hub :=
  unfold sent_to, queue_of, push_queues, chat_handles, room_handles;
  unfold_hub; simpl; repeat (case_match; simpl); done.

(** *** What the registry methods leave alone *)

Lemma ws_sent_remove_ws_user u ws w : ws_sent (remove_ws_user u ws w) = ws_sent w.
Proof. frame_hub. Qed.
Lemma ws_closed_remove_ws_user u ws w : ws_closed (remove_ws_user u ws w) = ws_closed w.
Proof. frame_hub. Qed.
Lemma queues_remove_ws_user u ws w : queues (remove_ws_user u ws w) = queues w.
Proof. frame_hub. Qed.
Lemma sse_queues_remove_ws_user u ws w : sse_queues (remove_ws_user u ws w) = sse_queues w.
Proof. frame_hub. Qed.
Lemma next_queue_remove_ws_user u ws w : next_queue (remove_ws_user u ws w) = next_queue w.
Proof. frame_hub. Qed.
Lemma MESSAGES_remove_ws_user u ws w : MESSAGES (remove_ws_user u ws w) = MESSAGES w.
Proof. frame_hub. Qed.
Lemma ws_rooms_remove_ws_user u ws w : ws_rooms (remove_ws_user u ws w) = ws_rooms w.
Proof. frame_hub. Qed.
Lemma lock_held_remove_ws_user u ws w : lock_held (remove_ws_user u ws w) = false.
Proof. frame_hub. Qed.

Lemma ws_sent_remove_ws_room r ws w : ws_sent (remove_ws_room r ws w) = ws_sent w.
Proof. frame_hub. Qed.
Lemma ws_closed_remove_ws_room r ws w : ws_closed (remove_ws_room r ws w) = ws_closed w.
Proof. frame_hub. Qed.
Lemma queues_remove_ws_room r ws w : queues (remove_ws_room r ws w) = queues w.
Proof. frame_hub. Qed.
Lemma sse_queues_remove_ws_room r ws w : sse_queues (remove_ws_room r ws w) = sse_queues w.
Proof. frame_hub. Qed.
Lemma next_queue_remove_ws_room r ws w : next_queue (remove_ws_room r ws w) = next_queue w.
Proof. frame_hub. Qed.
Lemma MESSAGES_remove_ws_room r ws w : MESSAGES (remove_ws_room r ws w) = MESSAGES w.
Proof. frame_hub. Qed.
Lemma ws_by_user_remove_ws_room r ws w : ws_by_user (remove_ws_room r ws w) = ws_by_user w.
Proof. frame_hub. Qed.
Lemma lock_held_remove_ws_room r ws w : lock_held (remove_ws_room r ws w) = false.
Proof. frame_hub. Qed.

Lemma ws_sent_add_ws_user u ws w : ws_sent (add_ws_user u ws w) = ws_sent w.
Proof. frame_hub. Qed.
Lemma ws_closed_add_ws_user u ws w : ws_closed (add_ws_user u ws w) = ws_closed w.
Proof. frame_hub. Qed.
Lemma queues_add_ws_user u ws w : queues (add_ws_user u ws w) = queues w.
Proof. frame_hub. Qed.
Lemma sse_queues_add_ws_user u ws w : sse_queues (add_ws_user u ws w) = sse_queues w.
Proof. frame_hub. Qed.
Lemma next_queue_add_ws_user u ws w : next_queue (add_ws_user u ws w) = next_queue w.
Proof. frame_hub. Qed.
Lemma MESSAGES_add_ws_user u ws w : MESSAGES (add_ws_user u ws w) = MESSAGES w.
Proof. frame_hub. Qed.
Lemma ws_rooms_add_ws_user u ws w : ws_rooms (add_ws_user u ws w) = ws_rooms w.
Proof. frame_hub. Qed.
Lemma lock_held_add_ws_user u ws w : lock_held (add_ws_user u ws w) = false.
Proof. frame_hub. Qed.

Lemma ws_sent_add_ws_room r ws w : ws_sent (add_ws_room r ws w) = ws_sent w.
Proof. frame_hub. Qed.
Lemma ws_closed_add_ws_room r ws w : ws_closed (add_ws_room r ws w) = ws_closed w.
Proof. frame_hub. Qed.
Lemma queues_add_ws_room r ws w : queues (add_ws_room r ws w) = queues w.
Proof. frame_hub. Qed.
Lemma sse_queues_add_ws_room r ws w : sse_queues (add_ws_room r ws w) = sse_queues w.
Proof. frame_hub. Qed.
Lemma next_queue_add_ws_room r ws w : next_queue (add_ws_room r ws w) = next_queue w.
Proof. frame_hub. Qed.
Lemma MESSAGES_add_ws_room r ws w : MESSAGES (add_ws_room r ws w) = MESSAGES w.
Proof. frame_hub. Qed.
Lemma ws_by_user_add_ws_room r ws w : ws_by_user (add_ws_room r ws w) = ws_by_user w.
Proof. frame_hub. Qed.
Lemma lock_held_add_ws_room r ws w : lock_held (add_ws_room r ws w) = false.
Proof. frame_hub. Qed.

Ltac hub_frame :=
  rewrite
    ?ws_sent_remove_ws_user, ?ws_closed_remove_ws_user, ?queues_remove_ws_user,
    ?sse_queues_remove_ws_user, ?next_queue_remove_ws_user,
    ?MESSAGES_remove_ws_user, ?ws_rooms_remove_ws_user, ?lock_held_remove_ws_user,
    ?ws_sent_remove_ws_room, ?ws_closed_remove_ws_room, ?queues_remove_ws_room,
    ?sse_queues_remove_ws_room, ?next_queue_remove_ws_room,
    ?MESSAGES_remove_ws_room, ?ws_by_user_remove_ws_room, ?lock_held_remove_ws_room,
    ?ws_sent_add_ws_user, ?ws_closed_add_ws_user, ?queues_add_ws_user,
    ?sse_queues_add_ws_user, ?next_queue_add_ws_user, ?MESSAGES_add_ws_user,
    ?ws_rooms_add_ws_user, ?lock_held_add_ws_user,
    ?ws_sent_add_ws_room, ?ws_closed_add_ws_room, ?queues_add_ws_room,
    ?sse_queues_add_ws_room, ?next_queue_add_ws_room, ?MESSAGES_add_ws_room,
    ?ws_by_user_add_ws_room, ?lock_held_add_ws_room.

(** *** What unregistering does to the registry *)

Lemma ws_by_user_remove user_id ws w :
  ws_by_user (remove_ws_user user_id ws w) =
  let s := chat_handles w user_id ∖ {[ws]} in
  if decide (s = ∅) then delete user_id (ws_by_user w)
  else <[user_id := s]> (ws_by_user w).
Proof.
  unfold chat_handles. unfold_hub. simpl.
  destruct (ws_by_user w !! user_id) as [s|] eqn:Hs; simpl.
  - rewrite lookup_insert_eq. simpl.
    destruct (decide (s ∖ {[ws]} = ∅)); simpl; [|done].
    by rewrite delete_insert_eq.
  - rewrite insert_insert_eq, lookup_insert_eq. simpl.
    destruct (decide ((∅ : gset handle) ∖ {[ws]} = ∅)); [|set_solver].
    by rewrite delete_insert_eq.
Qed.

Lemma ws_rooms_remove room_id ws w :
  ws_rooms (remove_ws_room room_id ws w) =
  let s := room_handles w room_id ∖ {[ws]} in
  if decide (s = ∅) then delete room_id (ws_rooms w)
  else <[room_id := s]> (ws_rooms w).
Proof.
  unfold room_handles. unfold_hub. simpl.
  destruct (ws_rooms w !! room_id) as [s|] eqn:Hs; simpl.
  - rewrite lookup_insert_eq. simpl.
    destruct (decide (s ∖ {[ws]} = ∅)); simpl; [|done].
    by rewrite delete_insert_eq.
  - rewrite insert_insert_eq, lookup_insert_eq. simpl.
    destruct (decide ((∅ : gset handle) ∖ {[ws]} = ∅)); [|set_solver].
    by rewrite delete_insert_eq.
Qed.

Lemma ws_by_user_add user_id ws w :
  ws_by_user (add_ws_user user_id ws w) =
  <[user_id := {[ws]} ∪ chat_handles w user_id]> (ws_by_user w).
Proof.
  unfold chat_handles. unfold_hub. simpl.
  destruct (ws_by_user w !! user_id) as [s|] eqn:Hs; simpl; [done|].
  by rewrite insert_insert_eq.
Qed.

Lemma ws_rooms_add room_id ws w :
  ws_rooms (add_ws_room room_id ws w) =
  <[room_id := {[ws]} ∪ room_handles w room_id]> (ws_rooms w).
Proof.
  unfold room_handles. unfold_hub. simpl.
  destruct (ws_rooms w !! room_id) as [s|] eqn:Hs; simpl; [done|].
  by rewrite insert_insert_eq.
Qed.

Lemma chat_handles_remove user_id ws w u :
  chat_handles (remove_ws_user user_id ws w) u =
  if decide (u = user_id) then chat_handles w user_id ∖ {[ws]}
  else chat_handles w u.
Proof.
  unfold chat_handles at 1. rewrite ws_by_user_remove. simpl.
  destruct (decide (_ ∖ _ = ∅)) as [He|He]; destruct (decide (u = user_id)) as [->|Hu].
  - by rewrite lookup_delete_eq.
  - by rewrite lookup_delete_ne.
  - by rewrite lookup_insert_eq.
  - by rewrite lookup_insert_ne.
Qed.

Lemma room_handles_remove room_id ws w r :
  room_handles (remove_ws_room room_id ws w) r =
  if decide (r = room_id) then room_handles w room_id ∖ {[ws]}
  else room_handles w r.
Proof.
  unfold room_handles at 1. rewrite ws_rooms_remove. simpl.
  destruct (decide (_ ∖ _ = ∅)) as [He|He]; destruct (decide (r = room_id)) as [->|Hr].
  - by rewrite lookup_delete_eq.
  - by rewrite lookup_delete_ne.
  - by rewrite lookup_insert_eq.
  - by rewrite lookup_insert_ne.
Qed.

(** *** Sends and enqueues *)

Lemma ws_send_text_Some ws text w w' :
  ws_send_text ws text w = Some w' ->
  (ws ∉ ws_closed w) /\
  (w' = set_ws_sent (<[ws := sent_to w ws ++ [text]]> (ws_sent w))
          (log (Send ws (lock_held w)) w)).
Proof.
  unfold ws_send_text. simpl.
  destruct (decide (ws ∈ ws_closed w)); [done|]. by intros [= <-].
Qed.

Lemma ws_send_text_None ws text w :
  ws_send_text ws text w = None <-> ws ∈ ws_closed w.
Proof.
  unfold ws_send_text. simpl.
  destruct (decide (ws ∈ ws_closed w)); naive_solver.
Qed.

Lemma sent_to_send ws text w w' h :
  ws_send_text ws text w = Some w' ->
  sent_to w' h = if decide (h = ws) then sent_to w ws ++ [text] else sent_to w h.
Proof.
  intros [_ ->]%ws_send_text_Some. unfold sent_to at 1. simpl.
  destruct (decide (h = ws)) as [->|Hne].
  - by rewrite lookup_insert_eq.
  - by rewrite lookup_insert_ne.
Qed.

Lemma sent_to_remove_ws_user u ws w h : sent_to (remove_ws_user u ws w) h = sent_to w h.
Proof. unfold sent_to. by rewrite ws_sent_remove_ws_user. Qed.

Lemma sent_to_remove_ws_room r ws w h : sent_to (remove_ws_room r ws w) h = sent_to w h.
Proof. unfold sent_to. by rewrite ws_sent_remove_ws_room. Qed.

Section HubFacts.
Context {codec : JsonLib}.

Lemma sent_to_send_or_drop_user user_id payload w ws h :
  sent_to (send_or_drop_user user_id payload w ws) h =
  if decide (h = ws /\ ws ∉ ws_closed w)
  then sent_to w h ++ [json_dumps false payload] else sent_to w h.
Proof.
  unfold send_or_drop_user.
  destruct (ws_send_text _ _ _) as [w'|] eqn:Hs.
  - rewrite (sent_to_send _ _ _ _ h Hs).
    apply ws_send_text_Some in Hs as [Hc _].
    destruct (decide (h = ws)) as [->|Hne];
      destruct (decide (_ /\ _)); naive_solver.
  - apply ws_send_text_None in Hs. rewrite sent_to_remove_ws_user.
    destruct (decide (_ /\ _)); naive_solver.
Qed.

Lemma ws_closed_send_or_drop_user user_id payload w ws :
  ws_closed (send_or_drop_user user_id payload w ws) = ws_closed w.
Proof.
  unfold send_or_drop_user.
  destruct (ws_send_text _ _ _) as [w'|] eqn:Hs.
  - by apply ws_send_text_Some in Hs as [_ ->].
  - apply ws_closed_remove_ws_user.
Qed.

Lemma chat_loop_sent user_id payload l w h :
  NoDup l ->
  sent_to (foldl (send_or_drop_user user_id payload) w l) h =
  if decide (h ∈ l /\ h ∉ ws_closed w)
  then sent_to w h ++ [json_dumps false payload] else sent_to w h.
Proof.
  revert w. induction l as [|a l IH]; intros w Hnd; cbn [foldl].
  - case_decide; [set_solver|done].
  - apply NoDup_cons in Hnd as [Ha Hnd].
    rewrite IH, ws_closed_send_or_drop_user, sent_to_send_or_drop_user by done.
    repeat case_decide; try done; set_solver.
Qed.

Lemma send_or_drop_user_cases user_id payload w ws :
  ((ws ∉ ws_closed w) /\
   send_or_drop_user user_id payload w ws =
     set_ws_sent (<[ws := sent_to w ws ++ [json_dumps false payload]]> (ws_sent w))
                 (log (Send ws (lock_held w)) w))
  \/ ((ws ∈ ws_closed w) /\
      send_or_drop_user user_id payload w ws = remove_ws_user user_id ws w).
Proof.
  unfold send_or_drop_user.
  destruct (ws_send_text _ _ _) as [w'|] eqn:Hs.
  - left. by apply ws_send_text_Some in Hs.
  - right. by apply ws_send_text_None in Hs.
Qed.

Lemma send_or_drop_user_frame user_id payload w ws :
  let w' := send_or_drop_user user_id payload w ws in
  queues w' = queues w /\ sse_queues w' = sse_queues w /\
  next_queue w' = next_queue w /\ MESSAGES w' = MESSAGES w /\
  ws_rooms w' = ws_rooms w.
Proof.
  simpl. destruct (send_or_drop_user_cases user_id payload w ws)
    as [[_ ->]|[_ ->]]; [done|]. by hub_frame.
Qed.

Lemma chat_handles_send_or_drop_user user_id payload w ws u :
  chat_handles (send_or_drop_user user_id payload w ws) u =
  if decide (u = user_id /\ ws ∈ ws_closed w)
  then chat_handles w user_id ∖ {[ws]} else chat_handles w u.
Proof.
  destruct (send_or_drop_user_cases user_id payload w ws)
    as [[Hc ->]|[Hc ->]].
  - case_decide; [naive_solver|done].
  - rewrite chat_handles_remove. repeat case_decide; naive_solver.
Qed.

Lemma chat_loop_frame user_id payload l w :
  let w' := foldl (send_or_drop_user user_id payload) w l in
  ws_closed w' = ws_closed w /\ queues w' = queues w /\
  sse_queues w' = sse_queues w /\ next_queue w' = next_queue w /\
  MESSAGES w' = MESSAGES w /\ ws_rooms w' = ws_rooms w.
Proof.
  simpl. repeat split; apply foldl_frame; intros a b;
    solve [apply ws_closed_send_or_drop_user
          | apply (send_or_drop_user_frame user_id payload a b)].
Qed.

Lemma chat_loop_handles user_id payload l w u :
  chat_handles (foldl (send_or_drop_user user_id payload) w l) u =
  if decide (u = user_id)
  then chat_handles w user_id ∖ (list_to_set l ∩ ws_closed w)
  else chat_handles w u.
Proof.
  revert w. induction l as [|a l IH]; intros w; cbn [foldl].
  - case_decide; [subst; set_solver|done].
  - rewrite IH, ws_closed_send_or_drop_user.
    rewrite !chat_handles_send_or_drop_user.
    repeat case_decide; try naive_solver; set_solver.
Qed.

(** *** The loop over the queues *)

Lemma put_or_pass_cases payload w q :
  (q_full (queue_of w q) = false /\
   put_or_pass payload w q =
     set_queues (<[q := mkQueue (q_maxsize (queue_of w q))
                                (q_items (queue_of w q) ++ [payload])]> (queues w)) w)
  \/ (q_full (queue_of w q) = true /\ put_or_pass payload w q = w).
Proof.
  unfold put_or_pass, put_nowait. destruct (q_full (queue_of w q)); auto.
Qed.

Lemma put_or_pass_frame payload w q :
  let w' := put_or_pass payload w q in
  ws_by_user w' = ws_by_user w /\ ws_rooms w' = ws_rooms w /\
  sse_queues w' = sse_queues w /\ lock_held w' = lock_held w /\
  MESSAGES w' = MESSAGES w /\ next_queue w' = next_queue w /\
  ws_closed w' = ws_closed w /\ ws_sent w' = ws_sent w /\
  trace w' = trace w.
Proof.
  simpl. by destruct (put_or_pass_cases payload w q) as [[_ ->]|[_ ->]].
Qed.

Lemma push_loop_frame payload l w :
  let w' := foldl (put_or_pass payload) w l in
  ws_by_user w' = ws_by_user w /\ ws_rooms w' = ws_rooms w /\
  sse_queues w' = sse_queues w /\ lock_held w' = lock_held w /\
  MESSAGES w' = MESSAGES w /\ next_queue w' = next_queue w /\
  ws_closed w' = ws_closed w /\ ws_sent w' = ws_sent w /\
  trace w' = trace w.
Proof.
  simpl. repeat split; apply foldl_frame; intros a b;
    apply (put_or_pass_frame payload a b).
Qed.

Lemma queue_of_put_or_pass payload w q q' :
  queue_of (put_or_pass payload w q) q' =
  if decide (q' = q /\ q_full (queue_of w q) = false)
  then mkQueue (q_maxsize (queue_of w q)) (q_items (queue_of w q) ++ [payload])
  else queue_of w q'.
Proof.
  destruct (put_or_pass_cases payload w q) as [[Hf ->]|[Hf ->]].
  - unfold queue_of at 1. simpl.
    destruct (decide (q' = q)) as [->|Hne].
    + rewrite lookup_insert_eq. case_decide; naive_solver.
    + rewrite lookup_insert_ne by done. case_decide; naive_solver.
  - case_decide as Hd; [destruct Hd; congruence|done].
Qed.

Lemma push_loop_queue payload l w q :
  NoDup l ->
  queue_of (foldl (put_or_pass payload) w l) q =
  if decide (q ∈ l /\ q_full (queue_of w q) = false)
  then mkQueue (q_maxsize (queue_of w q)) (q_items (queue_of w q) ++ [payload])
  else queue_of w q.
Proof.
  revert w. induction l as [|a l IH]; intros w Hnd; cbn [foldl].
  - case_decide; [set_solver|done].
  - apply NoDup_cons in Hnd as [Ha Hnd].
    rewrite IH by done. destruct (decide (q = a)) as [->|Hne].
    + rewrite (decide_False (P := a ∈ l /\ _)) by naive_solver.
      rewrite queue_of_put_or_pass.
      repeat case_decide; try done; set_solver.
    + assert (queue_of (put_or_pass payload w a) q = queue_of w q) as ->.
      { rewrite queue_of_put_or_pass. by rewrite decide_False by naive_solver. }
      repeat case_decide; try done; set_solver.
Qed.

(** *** [broadcast_to_user] as a whole *)

Lemma broadcast_to_user_frame user_id payload w :
  let w' := broadcast_to_user user_id payload w in
  ws_closed w' = ws_closed w /\ sse_queues w' = sse_queues w /\
  next_queue w' = next_queue w /\ MESSAGES w' = MESSAGES w /\
  ws_rooms w' = ws_rooms w.
Proof.
  simpl. unfold broadcast_to_user.
  set (w1 := foldl (send_or_drop_user _ _) _ _).
  destruct (push_loop_frame payload (push_queues w1 user_id) w1)
    as (_ & -> & -> & _ & -> & -> & -> & _).
  subst w1.
  destruct (chat_loop_frame user_id payload
              (elements (chat_handles w user_id)) w)
    as (-> & _ & -> & -> & -> & ->).
  done.
Qed.

Lemma sent_to_broadcast_to_user user_id payload w h :
  sent_to (broadcast_to_user user_id payload w) h =
  if decide (h ∈ chat_handles w user_id /\ h ∉ ws_closed w)
  then sent_to w h ++ [json_dumps false payload] else sent_to w h.
Proof.
  unfold broadcast_to_user.
  set (w1 := foldl (send_or_drop_user _ _) _ _).
  unfold sent_to at 1.
  destruct (push_loop_frame payload (push_queues w1 user_id) w1)
    as (_ & _ & _ & _ & _ & _ & _ & -> & _).
  fold (sent_to w1 h). subst w1.
  rewrite chat_loop_sent by apply NoDup_elements.
  repeat case_decide; try done; set_solver.
Qed.

Lemma chat_handles_broadcast_to_user user_id payload w u :
  chat_handles (broadcast_to_user user_id payload w) u =
  if decide (u = user_id) then chat_handles w user_id ∖ ws_closed w
  else chat_handles w u.
Proof.
  unfold broadcast_to_user.
  set (w1 := foldl (send_or_drop_user _ _) _ _).
  unfold chat_handles at 1.
  destruct (push_loop_frame payload (push_queues w1 user_id) w1) as (-> & _).
  fold (chat_handles w1 u). subst w1.
  rewrite chat_loop_handles. case_decide; [|done]. set_solver.
Qed.

Lemma queue_of_broadcast_to_user user_id payload w q :
  NoDup (push_queues w user_id) ->
  queue_of (broadcast_to_user user_id payload w) q =
  if decide (q ∈ push_queues w user_id /\ q_full (queue_of w q) = false)
  then mkQueue (q_maxsize (queue_of w q)) (q_items (queue_of w q) ++ [payload])
  else queue_of w q.
Proof.
  intros Hnd. unfold broadcast_to_user.
  set (w1 := foldl (send_or_drop_user _ _) _ _).
  destruct (chat_loop_frame user_id payload
              (elements (chat_handles w user_id)) w)
    as (_ & Hq & Hs & _).
  fold w1 in Hq, Hs.
  assert (push_queues w1 user_id = push_queues w user_id) as ->
    by (unfold push_queues; by rewrite Hs).
  rewrite push_loop_queue by done.
  unfold queue_of. by rewrite Hq.
Qed.

Lemma ws_by_user_send_or_drop_other user_id payload w ws u :
  u <> user_id ->
  ws_by_user (send_or_drop_user user_id payload w ws) !! u = ws_by_user w !! u.
Proof.
  intros Hu.
  destruct (send_or_drop_user_cases user_id payload w ws)
    as [[_ ->]|[_ ->]]; [done|].
  rewrite ws_by_user_remove. simpl. case_decide.
  - by rewrite lookup_delete_ne.
  - by rewrite lookup_insert_ne.
Qed.

Lemma ws_by_user_broadcast_other user_id payload w u :
  u <> user_id ->
  ws_by_user (broadcast_to_user user_id payload w) !! u = ws_by_user w !! u.
Proof.
  intros Hu. unfold broadcast_to_user.
  set (w1 := foldl (send_or_drop_user _ _) _ _).
  destruct (push_loop_frame payload (push_queues w1 user_id) w1) as (-> & _).
  subst w1.
  apply (foldl_frame _ (fun w => ws_by_user w !! u)).
  intros a b. by apply ws_by_user_send_or_drop_other.
Qed.

(** *** [broadcast_room] *)

Lemma send_or_drop_room_cases room_id payload sender w ws :
  (ws = sender /\ send_or_drop_room room_id payload sender w ws = w)
  \/ (ws <> sender /\ (ws ∉ ws_closed w) /\
      send_or_drop_room room_id payload sender w ws =
        set_ws_sent (<[ws := sent_to w ws ++ [json_dumps false payload]]> (ws_sent w))
                    (log (Send ws (lock_held w)) w))
  \/ (ws <> sender /\ (ws ∈ ws_closed w) /\
      send_or_drop_room room_id payload sender w ws = remove_ws_room room_id ws w).
Proof.
  unfold send_or_drop_room. destruct (decide (ws = sender)); [by left|right].
  destruct (ws_send_text _ _ _) as [w'|] eqn:Hs.
  - left. by apply ws_send_text_Some in Hs as [? ->].
  - right. by apply ws_send_text_None in Hs.
Qed.

Lemma ws_closed_send_or_drop_room room_id payload sender w ws :
  ws_closed (send_or_drop_room room_id payload sender w ws) = ws_closed w.
Proof.
  destruct (send_or_drop_room_cases room_id payload sender w ws)
    as [[_ ->]|[(_ & _ & ->)|(_ & _ & ->)]]; try done. by hub_frame.
Qed.

Lemma send_or_drop_room_frame room_id payload sender w ws :
  let w' := send_or_drop_room room_id payload sender w ws in
  queues w' = queues w /\ sse_queues w' = sse_queues w /\
  next_queue w' = next_queue w /\ MESSAGES w' = MESSAGES w /\
  ws_by_user w' = ws_by_user w.
Proof.
  simpl. destruct (send_or_drop_room_cases room_id payload sender w ws)
    as [[_ ->]|[(_ & _ & ->)|(_ & _ & ->)]]; try done. by hub_frame.
Qed.

Lemma sent_to_send_or_drop_room room_id payload sender w ws h :
  sent_to (send_or_drop_room room_id payload sender w ws) h =
  if decide (h = ws /\ ws <> sender /\ ws ∉ ws_closed w)
  then sent_to w h ++ [json_dumps false payload] else sent_to w h.
Proof.
  destruct (send_or_drop_room_cases room_id payload sender w ws)
    as [[Hs ->]|[(Hs & Hc & ->)|(Hs & Hc & ->)]].
  - case_decide; [naive_solver|done].
  - unfold sent_to at 1. simpl. destruct (decide (h = ws)) as [->|Hne].
    + rewrite lookup_insert_eq. case_decide; [done|naive_solver].
    + rewrite lookup_insert_ne by done. case_decide; [naive_solver|done].
  - rewrite sent_to_remove_ws_room. case_decide; [naive_solver|done].
Qed.

Lemma room_loop_sent room_id payload sender l w h :
  NoDup l ->
  sent_to (foldl (send_or_drop_room room_id payload sender) w l) h =
  if decide (h ∈ l /\ h <> sender /\ h ∉ ws_closed w)
  then sent_to w h ++ [json_dumps false payload] else sent_to w h.
Proof.
  revert w. induction l as [|a l IH]; intros w Hnd; cbn [foldl].
  - case_decide; [set_solver|done].
  - apply NoDup_cons in Hnd as [Ha Hnd].
    rewrite IH, ws_closed_send_or_drop_room, sent_to_send_or_drop_room by done.
    repeat case_decide; try done; set_solver.
Qed.

Lemma room_handles_send_or_drop_room room_id payload sender w ws r :
  room_handles (send_or_drop_room room_id payload sender w ws) r =
  if decide (r = room_id /\ ws <> sender /\ ws ∈ ws_closed w)
  then room_handles w room_id ∖ {[ws]} else room_handles w r.
Proof.
  destruct (send_or_drop_room_cases room_id payload sender w ws)
    as [[Hs ->]|[(Hs & Hc & ->)|(Hs & Hc & ->)]].
  - case_decide; [naive_solver|done].
  - case_decide; [naive_solver|done].
  - rewrite room_handles_remove. repeat case_decide; naive_solver.
Qed.

Lemma room_loop_handles room_id payload sender l w r :
  room_handles (foldl (send_or_drop_room room_id payload sender) w l) r =
  if decide (r = room_id)
  then room_handles w room_id ∖ ((list_to_set l ∖ {[sender]}) ∩ ws_closed w)
  else room_handles w r.
Proof.
  revert w. induction l as [|a l IH]; intros w; cbn [foldl].
  - case_decide; [subst; set_solver|done].
  - rewrite IH, ws_closed_send_or_drop_room.
    rewrite !room_handles_send_or_drop_room.
    repeat case_decide; try naive_solver; set_solver.
Qed.

(** The same policy in a room: a member other than the sender whose send
    raises is unregistered, the members whose send goes through stay and
    get the payload. *)
Lemma broadcast_room_send_failure room_id payload sender w ws :
  ws ∈ room_handles w room_id -> ws <> sender -> ws ∈ ws_closed w ->
  let w' := broadcast_room room_id payload sender w in
  (ws ∉ room_handles w' room_id) /\
  (forall ws', ws' ∈ room_handles w room_id -> ws' ∉ ws_closed w ->
     ws' ∈ room_handles w' room_id).
Proof.
  intros Hin Hs Hc w'. subst w'. unfold broadcast_room.
  rewrite room_loop_handles, decide_True by done. split.
  - set_solver.
  - intros ws' Hin' Hc'. set_solver.
Qed.

Lemma room_loop_frame room_id payload sender l w :
  let w' := foldl (send_or_drop_room room_id payload sender) w l in
  ws_closed w' = ws_closed w /\ queues w' = queues w /\
  sse_queues w' = sse_queues w /\ next_queue w' = next_queue w /\
  MESSAGES w' = MESSAGES w /\ ws_by_user w' = ws_by_user w.
Proof.
  simpl. repeat split; apply foldl_frame; intros a b;
    solve [apply ws_closed_send_or_drop_room
          | apply (send_or_drop_room_frame room_id payload sender a b)].
Qed.

End HubFacts.

(** C1. One call of [broadcast_to_user] writes the payload exactly once to
    every socket registered for the user whose send goes through, and
    enqueues it exactly once on every queue listed for the user that takes
    it; all of them get the same payload.  Sockets and queues that are not
    registered for that user get nothing.  The queue list of the user holds
    each queue once, as in every state the server reaches. *)
Theorem broadcast_to_user_fanout {codec : JsonLib} user_id payload w :
  NoDup (push_queues w user_id) ->
  let w' := broadcast_to_user user_id payload w in
  (forall ws, ws ∈ chat_handles w user_id -> ws ∉ ws_closed w ->
     sent_to w' ws = sent_to w ws ++ [json_dumps false payload]) /\
  (forall q, q ∈ push_queues w user_id -> q_full (queue_of w q) = false ->
     q_maxsize (queue_of w' q) = q_maxsize (queue_of w q) /\
     q_items (queue_of w' q) = q_items (queue_of w q) ++ [payload]) /\
  (forall ws, ws ∉ chat_handles w user_id -> sent_to w' ws = sent_to w ws) /\
  (forall q, q ∉ push_queues w user_id -> queue_of w' q = queue_of w q).
Proof.
  intros Hnd w'. subst w'. repeat split.
  - intros ws Hin Hc. rewrite sent_to_broadcast_to_user.
    by rewrite decide_True by done.
  - rewrite queue_of_broadcast_to_user by done. by rewrite decide_True by done.
  - rewrite queue_of_broadcast_to_user by done. by rewrite decide_True by done.
  - intros ws Hin. rewrite sent_to_broadcast_to_user.
    by rewrite decide_False by naive_solver.
  - intros q Hin. rewrite queue_of_broadcast_to_user by done.
    by rewrite decide_False by naive_solver.
Qed.

(** C2. [broadcast_room] writes the payload once to every socket of the
    room other than the sender whose send goes through; the sender gets
    nothing, and neither does a socket that is not in that room. *)
Theorem broadcast_room_excludes_sender {codec : JsonLib} room_id payload sender w :
  let w' := broadcast_room room_id payload sender w in
  (forall ws, ws ∈ room_handles w room_id -> ws <> sender -> ws ∉ ws_closed w ->
     sent_to w' ws = sent_to w ws ++ [json_dumps false payload]) /\
  sent_to w' sender = sent_to w sender /\
  (forall ws, ws ∉ room_handles w room_id -> sent_to w' ws = sent_to w ws).
Proof.
  intros w'. subst w'. unfold broadcast_room. repeat split.
  - intros ws Hin Hs Hc. rewrite room_loop_sent by apply NoDup_elements.
    rewrite decide_True; [done|]. set_solver.
  - rewrite room_loop_sent by apply NoDup_elements.
    by rewrite decide_False by naive_solver.
  - intros ws Hin. rewrite room_loop_sent by apply NoDup_elements.
    rewrite decide_False; [done|]. set_solver.
Qed.

(** C3. When the send to a socket of the user raises, [broadcast_to_user]
    unregisters that socket; every socket of the user whose send goes
    through stays registered and gets the payload, the sets of other users
    are untouched, every queue of the user that takes the payload gets it,
    and the call ends with a state: nothing is raised to the caller. *)
Theorem broadcast_to_user_send_failure {codec : JsonLib} user_id payload w ws :
  ws ∈ chat_handles w user_id -> ws ∈ ws_closed w ->
  NoDup (push_queues w user_id) ->
  let w' := broadcast_to_user user_id payload w in
  (ws ∉ chat_handles w' user_id) /\
  (forall ws', ws' ∈ chat_handles w user_id -> ws' ∉ ws_closed w ->
     ws' ∈ chat_handles w' user_id /\
     sent_to w' ws' = sent_to w ws' ++ [json_dumps false payload]) /\
  (forall u, u <> user_id -> ws_by_user w' !! u = ws_by_user w !! u) /\
  (forall q, q ∈ push_queues w user_id -> q_full (queue_of w q) = false ->
     q_items (queue_of w' q) = q_items (queue_of w q) ++ [payload]).
Proof.
  intros Hin Hc Hnd w'. subst w'. repeat split.
  - rewrite chat_handles_broadcast_to_user, decide_True by done. set_solver.
  - rewrite chat_handles_broadcast_to_user, decide_True by done. set_solver.
  - rewrite sent_to_broadcast_to_user. by rewrite decide_True by done.
  - intros u Hu. by apply ws_by_user_broadcast_other.
  - intros q Hq Hf. rewrite queue_of_broadcast_to_user by done.
    by rewrite decide_True by done.
Qed.

(** C10. When a queue of the user refuses the payload, [broadcast_to_user]
    passes over it: the registry of queues is as before, that queue is as
    before, every other queue of the user that takes the payload gets it,
    every socket of the user whose send goes through gets it, and the call
    ends with a state. *)
Theorem broadcast_to_user_queue_full {codec : JsonLib} user_id payload w q :
  NoDup (push_queues w user_id) ->
  q ∈ push_queues w user_id -> q_full (queue_of w q) = true ->
  let w' := broadcast_to_user user_id payload w in
  sse_queues w' = sse_queues w /\
  queue_of w' q = queue_of w q /\
  (forall q', q' ∈ push_queues w user_id -> q_full (queue_of w q') = false ->
     q_items (queue_of w' q') = q_items (queue_of w q') ++ [payload]) /\
  (forall ws, ws ∈ chat_handles w user_id -> ws ∉ ws_closed w ->
     sent_to w' ws = sent_to w ws ++ [json_dumps false payload]).
Proof.
  intros Hnd Hin Hf w'. subst w'. repeat split.
  - apply broadcast_to_user_frame.
  - rewrite queue_of_broadcast_to_user by done.
    rewrite decide_False; [done|]. intros [_ ?]. congruence.
  - intros q' Hq' Hf'. rewrite queue_of_broadcast_to_user by done.
    by rewrite decide_True by done.
  - intros ws Hws Hc. rewrite sent_to_broadcast_to_user.
    by rewrite decide_True by done.
Qed.

(** *** The message store *)

Lemma last_n_suffix {A : Type} (n : nat) (l : list A) :
  take (length l - n) l ++ last_n n l = l.
Proof. apply take_drop. Qed.

Lemma last_n_length {A : Type} (n : nat) (l : list A) :
  length (last_n n l) = min n (length l).
Proof. unfold last_n. rewrite length_drop. lia. Qed.

Lemma messages_append_log user_id msg w :
  default [] (MESSAGES (messages_append user_id msg w) !! user_id) =
  default [] (MESSAGES w !! user_id) ++ [msg].
Proof.
  unfold messages_append, dd_getitem.
  destruct (MESSAGES w !! user_id) as [l|] eqn:Hl; simpl.
  - by rewrite lookup_insert_eq.
  - by rewrite insert_insert_eq, lookup_insert_eq.
Qed.

Lemma messages_append_other user_id msg w u :
  u <> user_id ->
  MESSAGES (messages_append user_id msg w) !! u = MESSAGES w !! u.
Proof.
  intros Hu. unfold messages_append, dd_getitem.
  destruct (MESSAGES w !! user_id) as [l|] eqn:Hl; simpl.
  - by rewrite lookup_insert_ne.
  - by rewrite insert_insert_eq, lookup_insert_ne.
Qed.

(** C6. [get_history] answers with the last 200 messages of the user's
    log, or with the whole log when it is shorter, in the order of the
    log; [messages_append] puts a message at the end of the log, so this is
    the order of arrival.  A user without a log gets the empty list.  The
    handler is a function of the store: it raises nothing. *)
Theorem get_history_last_200 user_id w :
  let stored := default [] (MESSAGES w !! user_id) in
  let h := history w user_id in
  get_history user_id w =
    JObj [("user_id", JStr user_id); ("messages", JArr h)] /\
  (exists older, stored = older ++ h /\ length older = length stored - 200) /\
  length h = min 200 (length stored) /\
  (200 < length stored -> length h = 200) /\
  (MESSAGES w !! user_id = None -> h = []) /\
  (forall msg,
     default [] (MESSAGES (messages_append user_id msg w) !! user_id) =
     stored ++ [msg]).
Proof.
  cbv zeta. unfold history, get_history. repeat split.
  - exists (take (length (default [] (MESSAGES w !! user_id)) - 200)
                 (default [] (MESSAGES w !! user_id))).
    split; [by rewrite last_n_suffix|]. rewrite length_take. lia.
  - apply last_n_length.
  - intros Hlen. rewrite last_n_length. lia.
  - by intros ->.
  - intros msg. apply messages_append_log.
Qed.

(** *** [post_message] *)

Lemma role_of_absent payload :
  dict_get "role" payload = None -> role_of payload = Some "user".
Proof. unfold role_of, py_get. by intros ->. Qed.

Lemma role_of_string payload s :
  dict_get "role" payload = Some (JStr s) -> s <> EmptyString ->
  role_of payload = Some (strip s).
Proof.
  unfold role_of, py_get. intros -> Hs. simpl.
  by rewrite bool_decide_eq_false_2.
Qed.

Section RestFacts.
Context {codec : JsonLib}.

(** With a role that is missing, false or a string, a body whose
    [user_id] or [text] is empty once stripped is refused with status
    400 and the state is the one before the call. *)
Lemma post_message_rejects payload new_id now w role :
  role_of payload = Some role ->
  strip (py_str (py_get_default "user_id" (JStr EmptyString) payload)) = EmptyString
  \/ strip (py_str (py_get_default "text" (JStr EmptyString) payload)) = EmptyString ->
  post_message payload new_id now w =
    (HTTPException 400 "user_id and text are required", w).
Proof.
  intros Hr He. unfold post_message. rewrite Hr.
  destruct He as [-> | ->]; simpl; [done|].
  by rewrite orb_true_r.
Qed.

(** With such a role and both fields non-empty once stripped, the
    message is appended to the user's log, broadcast once, and returned. *)
Lemma post_message_accepts payload new_id now w role :
  role_of payload = Some role ->
  let user_id := strip (py_str (py_get_default "user_id" (JStr EmptyString) payload)) in
  let text := strip (py_str (py_get_default "text" (JStr EmptyString) payload)) in
  let msg := JObj [("id", JStr new_id); ("ts", JStr now);
                   ("user_id", JStr user_id); ("role", JStr role);
                   ("text", JStr text)] in
  user_id <> EmptyString -> text <> EmptyString ->
  post_message payload new_id now w =
    (Return (JObj [("ok", JBool true); ("message", msg)]),
     broadcast_to_user user_id (JObj [("type", JStr "message"); ("data", msg)])
       (messages_append user_id msg w)).
Proof.
  intros Hr user_id text msg Hu Ht. unfold post_message. rewrite Hr.
  fold user_id text.
  by rewrite !bool_decide_eq_false_2 by done.
Qed.

(** A call that does not return leaves the state as it was. *)
Lemma post_message_failure_pure payload new_id now w :
  (forall body, (post_message payload new_id now w).1 <> Return body) ->
  (post_message payload new_id now w).2 = w.
Proof.
  unfold post_message. destruct (role_of payload); [|done].
  destruct (_ || _); [done|]. simpl. intros Hb. by edestruct Hb.
Qed.

(** C7. A body whose [role] is the number 5 makes [post_message] raise
    [AttributeError] before it looks at [user_id] and [text]: whatever
    these are, the caller gets neither the 400 answer nor the created
    message, and nothing is stored or broadcast. *)
Theorem post_message_role_not_string user_id text new_id now w :
  post_message [("user_id", JStr user_id); ("text", JStr text); ("role", JInt 5)]
               new_id now w
  = (AttributeError, w).
Proof. reflexivity. Qed.

End RestFacts.

(** *** The receive loops *)

Lemma dict_setdefault_present k v d x :
  dict_get k d = Some x -> dict_setdefault k v d = d.
Proof. unfold dict_setdefault. by intros ->. Qed.

Lemma dict_setdefault_absent k v d :
  dict_get k d = None -> dict_setdefault k v d = d ++ [(k, v)].
Proof. unfold dict_setdefault. by intros ->. Qed.

Lemma dict_get_app k d d' :
  dict_get k (d ++ d') =
  match dict_get k d with Some x => Some x | None => dict_get k d' end.
Proof.
  induction d as [|[k' x] d IH]; simpl; [done|].
  by destruct (decide (k' = k)).
Qed.

Lemma dict_get_setdefault k v d k' :
  dict_get k' (dict_setdefault k v d) =
  match dict_get k' d with
  | Some x => Some x
  | None => if decide (k = k') then Some v else None
  end.
Proof.
  unfold dict_setdefault. destruct (dict_get k d) as [x|] eqn:Hk.
  - destruct (dict_get k' d) eqn:Hk'; [done|].
    destruct (decide (k = k')) as [->|]; [congruence|done].
  - rewrite dict_get_app. by destruct (dict_get k' d).
Qed.

Section SocketFacts.
Context {codec : JsonLib}.

(** A frame that [json.loads] refuses is wrapped and handled like any
    other frame: the chat loop acknowledges it, the relay stamps the
    wrapper and passes it on. *)
Lemma undecodable_frame_wrapped user_id room_id ws raw now w :
  json_loads raw = None ->
  ws_chat_frame user_id ws raw now w =
    reply_chat user_id ws
      (json_dumps false
         (JObj [("type", JStr "ack");
                ("data", JObj [("type", JStr "text");
                               ("data", JObj [("text", JStr raw)])]);
                ("ts", JStr now)])) w
  /\ ws_signal_frame room_id ws raw now w =
     Continue (broadcast_room room_id
                 (JObj [("type", JStr "raw"); ("data", JStr raw);
                        ("ts", JStr now)]) ws w).
Proof.
  intros Hl. unfold ws_chat_frame, ws_signal_frame, signal_payload.
  by rewrite Hl.
Qed.

(** A frame that is an object, or a wrapped one, is relayed with
    [setdefault("ts", now)] applied and nothing else changed. *)
Lemma signal_frame_stamped room_id ws raw now w d :
  signal_payload raw = JObj d ->
  ws_signal_frame room_id ws raw now w =
    Continue (broadcast_room room_id
                (JObj (dict_setdefault "ts" (JStr now) d)) ws w).
Proof. unfold ws_signal_frame. by intros ->. Qed.

(** C5. A frame that [json.loads] accepts and that is not an object
    makes either receive loop raise on its first use of the value; the
    [except] clause unregisters the socket and the loop is over. *)
Theorem non_object_frame_ends_loop user_id room_id ws raw now w v :
  json_loads raw = Some v -> (forall d, v <> JObj d) ->
  ws_chat_frame user_id ws raw now w = Exit (remove_ws_user user_id ws w)
  /\ ws_signal_frame room_id ws raw now w = Exit (remove_ws_room room_id ws w).
Proof.
  intros Hl Hv. unfold ws_chat_frame, ws_signal_frame, signal_payload.
  rewrite Hl. destruct v; try done. by destruct (Hv fields).
Qed.

(** C8. A signaling frame that [json.loads] accepts and that is not an
    object is not relayed: no socket gets a frame, and the sender is no
    longer in the room. *)
Theorem signal_frame_non_object_dropped room_id ws raw now w v :
  json_loads raw = Some v -> (forall d, v <> JObj d) ->
  let w' := world_of (ws_signal_frame room_id ws raw now w) in
  (forall h, sent_to w' h = sent_to w h) /\ (ws ∉ room_handles w' room_id).
Proof.
  intros Hl Hv. unfold ws_signal_frame, signal_payload.
  rewrite Hl. destruct v; try (by destruct (Hv fields)); simpl; split;
    try (intros h; apply sent_to_remove_ws_room);
    rewrite room_handles_remove, decide_True by done; set_solver.
Qed.

End SocketFacts.

(** *** What holds in every state the server reaches *)

Lemma hub_inv_frame w w' :
  ws_by_user w' = ws_by_user w -> ws_rooms w' = ws_rooms w ->
  sse_queues w' = sse_queues w -> next_queue w' = next_queue w ->
  hub_inv w -> hub_inv w'.
Proof.
  unfold hub_inv, queues_listed_once. by intros -> -> -> ->.
Qed.

Lemma no_empty_set_delete k m : no_empty_set m -> no_empty_set (delete k m).
Proof.
  intros Hm k' s Hs. apply lookup_delete_Some in Hs as [_ Hs]. eauto.
Qed.

Lemma no_empty_set_insert k s m :
  s <> ∅ -> no_empty_set m -> no_empty_set (<[k := s]> m).
Proof.
  intros Hne Hm k' s' Hs. apply lookup_insert_Some in Hs as [[_ <-]|[_ Hs]]; eauto.
Qed.

Lemma queues_listed_once_frame w w' :
  sse_queues w' = sse_queues w -> next_queue w' = next_queue w ->
  queues_listed_once w -> queues_listed_once w'.
Proof. unfold queues_listed_once. by intros -> ->. Qed.

Lemma hub_inv_init : hub_inv init.
Proof. split; [|split]; intros k x Hk; simpl in Hk; by rewrite lookup_empty in Hk. Qed.

Lemma hub_inv_remove_ws_user u ws w : hub_inv w -> hub_inv (remove_ws_user u ws w).
Proof.
  intros (Hq & Hu & Hr). split; [|split].
  - revert Hq. apply queues_listed_once_frame; by hub_frame.
  - rewrite ws_by_user_remove. simpl. case_decide.
    + by apply no_empty_set_delete.
    + by apply no_empty_set_insert.
  - by rewrite ws_rooms_remove_ws_user.
Qed.

Lemma hub_inv_remove_ws_room r ws w : hub_inv w -> hub_inv (remove_ws_room r ws w).
Proof.
  intros (Hq & Hu & Hr). split; [|split].
  - revert Hq. apply queues_listed_once_frame; by hub_frame.
  - by rewrite ws_by_user_remove_ws_room.
  - rewrite ws_rooms_remove. simpl. case_decide.
    + by apply no_empty_set_delete.
    + by apply no_empty_set_insert.
Qed.

Lemma hub_inv_add_ws_user u ws w : hub_inv w -> hub_inv (add_ws_user u ws w).
Proof.
  intros (Hq & Hu & Hr). split; [|split].
  - revert Hq. apply queues_listed_once_frame; by hub_frame.
  - rewrite ws_by_user_add. apply no_empty_set_insert; [set_solver|done].
  - by rewrite ws_rooms_add_ws_user.
Qed.

Lemma hub_inv_add_ws_room r ws w : hub_inv w -> hub_inv (add_ws_room r ws w).
Proof.
  intros (Hq & Hu & Hr). split; [|split].
  - revert Hq. apply queues_listed_once_frame; by hub_frame.
  - by rewrite ws_by_user_add_ws_room.
  - rewrite ws_rooms_add. apply no_empty_set_insert; [set_solver|done].
Qed.

Lemma hub_inv_ws_send_text ws text w w' :
  ws_send_text ws text w = Some w' -> hub_inv w -> hub_inv w'.
Proof. intros [_ ->]%ws_send_text_Some. by apply hub_inv_frame. Qed.

Lemma list_remove_first_Some x l l' :
  list_remove_first x l = Some l' -> l ≡ₚ x :: l'.
Proof.
  revert l'. induction l as [|y l IH]; intros l'; simpl; [done|].
  destruct (decide (y = x)) as [->|Hne].
  - by intros [= ->].
  - destruct (list_remove_first x l) as [l0|]; simpl; [|done].
    intros [= <-]. rewrite (IH l0 eq_refl). apply Permutation_swap.
Qed.

Lemma sse_frame user_id w :
  ws_by_user (sse user_id w).2 = ws_by_user w /\
  ws_rooms (sse user_id w).2 = ws_rooms w.
Proof. unfold sse, dd_getitem. simpl. by case_match. Qed.

Lemma event_gen_finally_frame user_id q w :
  ws_by_user (event_gen_finally user_id q w) = ws_by_user w /\
  ws_rooms (event_gen_finally user_id q w) = ws_rooms w /\
  next_queue (event_gen_finally user_id q w) = next_queue w.
Proof. unfold event_gen_finally. by repeat case_match. Qed.

Lemma hub_inv_sse user_id w : hub_inv w -> hub_inv (sse user_id w).2.
Proof.
  intros (Hq & Hu & Hr). destruct (sse_frame user_id w) as [Hu' Hr'].
  split; [|by rewrite Hu', Hr'].
  unfold sse, dd_getitem. simpl.
  destruct (sse_queues w !! user_id) as [l|] eqn:Hl; simpl;
    intros u l' Hl'; simpl in *;
    apply lookup_insert_Some in Hl' as [[<- <-]|[Hne Hl']].
  - destruct (Hq _ _ Hl) as [Hnd Hlt]. split.
    + apply NoDup_app. repeat split; [done| |apply NoDup_singleton].
      intros q Hin ->%list_elem_of_singleton. apply Hlt in Hin. lia.
    + intros q [Hin| ->%list_elem_of_singleton]%elem_of_app; [|lia].
      apply Hlt in Hin. lia.
  - destruct (Hq _ _ Hl') as [Hnd Hlt]. split; [done|].
    intros q Hin. apply Hlt in Hin. lia.
  - split; [apply NoDup_singleton|].
    intros q ->%list_elem_of_singleton. lia.
  - rewrite lookup_insert_ne in Hl' by done.
    destruct (Hq _ _ Hl') as [Hnd Hlt]. split; [done|].
    intros q Hin. apply Hlt in Hin. lia.
Qed.

Lemma hub_inv_event_gen_finally user_id q w :
  hub_inv w -> hub_inv (event_gen_finally user_id q w).
Proof.
  intros (Hq & Hu & Hr).
  destruct (event_gen_finally_frame user_id q w) as (Hu' & Hr' & Hn').
  split; [|by rewrite Hu', Hr']. clear Hu' Hr' Hn'.
  unfold event_gen_finally.
  destruct (sse_queues w !! user_id) as [l|] eqn:Hl.
  - destruct (list_remove_first q l) as [l'|] eqn:Hrm; [|done].
    intros u l0 Hl0; simpl in *.
    apply lookup_insert_Some in Hl0 as [[<- <-]|[Hne Hl0]]; [|by apply (Hq u)].
    destruct (Hq _ _ Hl) as [Hnd Hlt].
    apply list_remove_first_Some in Hrm. split.
    + rewrite Hrm in Hnd. by apply NoDup_cons in Hnd as [_ ?].
    + intros q' Hin. apply Hlt. rewrite Hrm. by right.
  - intros u l0 Hl0; simpl in *.
    apply lookup_insert_Some in Hl0 as [[<- <-]|[Hne Hl0]]; [|by apply (Hq u)].
    split; [apply NoDup_nil_2|]. intros q' Hin. by apply elem_of_nil in Hin.
Qed.

Lemma foldl_invariant {A B : Type} (P : A -> Prop) (f : A -> B -> A) :
  (forall a b, P a -> P (f a b)) -> forall l a, P a -> P (foldl f a l).
Proof.
  intros Hf l. induction l as [|b l IH]; intros a Ha; simpl; [done|].
  by apply IH, Hf.
Qed.

Section RunFacts.
Context {codec : JsonLib}.

Lemma hub_inv_broadcast_to_user user_id payload w :
  hub_inv w -> hub_inv (broadcast_to_user user_id payload w).
Proof.
  intros Hw. unfold broadcast_to_user. apply foldl_invariant.
  - intros a q Ha. destruct (put_or_pass_frame payload a q)
      as (Hu & Hr & Hs & _ & _ & Hn & _). by apply (hub_inv_frame a).
  - apply foldl_invariant; [|done]. intros a ws Ha.
    destruct (send_or_drop_user_cases user_id payload a ws)
      as [[_ ->]|[_ ->]].
    + by apply (hub_inv_frame a).
    + by apply hub_inv_remove_ws_user.
Qed.

Lemma hub_inv_broadcast_room room_id payload sender w :
  hub_inv w -> hub_inv (broadcast_room room_id payload sender w).
Proof.
  intros Hw. unfold broadcast_room. apply foldl_invariant; [|done].
  intros a ws Ha.
  destruct (send_or_drop_room_cases room_id payload sender a ws)
    as [[_ ->]|[(_ & _ & ->)|(_ & _ & ->)]]; [done| |].
  - by apply (hub_inv_frame a).
  - by apply hub_inv_remove_ws_room.
Qed.

Lemma hub_inv_reply_chat user_id ws text w :
  hub_inv w -> hub_inv (world_of (reply_chat user_id ws text w)).
Proof.
  intros Hw. unfold reply_chat.
  destruct (ws_send_text ws text w) as [w'|] eqn:Hs; simpl.
  - by eapply hub_inv_ws_send_text.
  - by apply hub_inv_remove_ws_user.
Qed.

Lemma hub_inv_ws_chat_frame user_id ws raw now w :
  hub_inv w -> hub_inv (world_of (ws_chat_frame user_id ws raw now w)).
Proof.
  intros Hw. unfold ws_chat_frame.
  destruct (match json_loads raw with Some v => v | None => _ end);
    try (by apply hub_inv_remove_ws_user).
  destruct (py_eq_str _ "ping"); [by apply hub_inv_reply_chat|].
  destruct (py_eq_str _ "message"); [|by apply hub_inv_reply_chat].
  pose proof (hub_inv_reply_chat user_id ws
    (json_dumps false (JObj [("type", JStr "echo"); ("data", py_get "data" fields)]))
    w Hw) as Hw1.
  destruct (reply_chat _ _ _ _) as [w1|w1]; simpl in Hw1; [|done].
  destruct (if py_truthy _ then _ else _);
    try (by apply hub_inv_remove_ws_user).
  by apply hub_inv_broadcast_to_user.
Qed.

Lemma hub_inv_ws_signal_frame room_id ws raw now w :
  hub_inv w -> hub_inv (world_of (ws_signal_frame room_id ws raw now w)).
Proof.
  intros Hw. unfold ws_signal_frame.
  destruct (signal_payload raw); try (by apply hub_inv_remove_ws_room).
  by apply hub_inv_broadcast_room.
Qed.

Lemma hub_inv_post_message payload new_id now w :
  hub_inv w -> hub_inv (post_message payload new_id now w).2.
Proof.
  intros Hw. unfold post_message.
  destruct (role_of payload); [|done].
  destruct (_ || _); [done|]. simpl.
  apply hub_inv_broadcast_to_user. revert Hw. apply hub_inv_frame;
    unfold messages_append; by destruct (dd_getitem _ _ _).
Qed.

Lemma hub_inv_step w w' : step w w' -> hub_inv w -> hub_inv w'.
Proof.
  intros Hstep Hw. destruct Hstep.
  - unfold ws_chat_accept.
    destruct (ws_send_text _ _ _) as [w'|] eqn:Hs; simpl.
    + eapply hub_inv_ws_send_text; [done|]. by apply hub_inv_add_ws_user.
    + by apply hub_inv_add_ws_user.
  - by apply hub_inv_ws_chat_frame.
  - by apply hub_inv_remove_ws_user.
  - unfold ws_signal_accept.
    destruct (ws_send_text _ _ _) as [w'|] eqn:Hs; simpl.
    + eapply hub_inv_ws_send_text; [done|]. by apply hub_inv_add_ws_room.
    + by apply hub_inv_add_ws_room.
  - by apply hub_inv_ws_signal_frame.
  - by apply hub_inv_remove_ws_room.
  - by apply hub_inv_sse.
  - unfold event_gen_hello, put_nowait in Hhello.
    destruct (q_full _); [done|].
    injection Hhello as <-. by apply (hub_inv_frame w).
  - unfold event_gen_next in Hnext. destruct (q_items _); [done|].
    injection Hnext as _ <-. by apply (hub_inv_frame w).
  - by apply hub_inv_event_gen_finally.
  - by apply hub_inv_post_message.
  - by apply (hub_inv_frame w).
  - by apply (hub_inv_frame w).
Qed.

(** Every reachable state lists each queue once and binds no key of the
    two socket registries to an empty set. *)
Lemma reachable_hub_inv w : reachable w -> hub_inv w.
Proof.
  unfold reachable. revert w. apply rtc_ind_r; [apply hub_inv_init|].
  intros w w' _ Hstep Hw. by eapply hub_inv_step.
Qed.

Lemma reachable_queues_listed_once w user_id :
  reachable w -> NoDup (push_queues w user_id).
Proof.
  intros (Hq & _)%reachable_hub_inv. unfold push_queues.
  destruct (sse_queues w !! user_id) as [l|] eqn:Hl; [|apply NoDup_nil_2].
  by destruct (Hq _ _ Hl).
Qed.

(** C4. After a push stream of a user has been opened and closed, the
    user's key is still in [sse_queues], bound to the empty list: the
    [finally] block of [event_gen] removes the queue and leaves the key. *)
Theorem sse_close_leaves_empty_list user_id :
  let w := event_gen_finally user_id (sse user_id init).1 (sse user_id init).2 in
  reachable w /\ sse_queues w !! user_id = Some [] /\
  ~ no_empty_list (sse_queues w).
Proof.
  assert (sse_queues (event_gen_finally user_id (sse user_id init).1
                        (sse user_id init).2) !! user_id = Some []) as Hl.
  { unfold event_gen_finally, sse, dd_getitem. simpl.
    rewrite lookup_empty. simpl. rewrite lookup_insert_eq. simpl.
    by rewrite lookup_insert_eq. }
  split; [|split; [done|]].
  - eapply rtc_l; [apply (step_sse user_id)|].
    apply rtc_once, step_event_gen_finally.
  - intros Hne. by apply (Hne _ _ Hl).
Qed.

End RunFacts.

(** *** The lock *)

Lemma trace_add_ws_user u ws w :
  trace (add_ws_user u ws w) = trace w ++ [Mutate WsByUser true].
Proof. frame_hub. Qed.

Lemma trace_remove_ws_user u ws w :
  trace (remove_ws_user u ws w) = trace w ++ [Mutate WsByUser true].
Proof. frame_hub. Qed.

Lemma trace_add_ws_room r ws w :
  trace (add_ws_room r ws w) = trace w ++ [Mutate WsRooms true].
Proof. frame_hub. Qed.

Lemma trace_remove_ws_room r ws w :
  trace (remove_ws_room r ws w) = trace w ++ [Mutate WsRooms true].
Proof. frame_hub. Qed.

Lemma trace_ws_send_text ws text w w' :
  ws_send_text ws text w = Some w' ->
  trace w' = trace w ++ [Send ws (lock_held w)].
Proof. by intros [_ ->]%ws_send_text_Some. Qed.

Lemma lock_respected_nil : lock_respected [].
Proof. split; intros x b Hin; by apply elem_of_nil in Hin. Qed.

Lemma lock_respected_snoc_mutate t r :
  lock_respected t -> lock_respected (t ++ [Mutate r true]).
Proof.
  intros [Hm Hs]. split.
  - intros r' b [Hin|Hin%list_elem_of_singleton]%elem_of_app; [by eapply Hm|].
    by injection Hin as _ ->.
  - intros ws b [Hin|Hin%list_elem_of_singleton]%elem_of_app; [by eapply Hs|done].
Qed.

Lemma lock_respected_snoc_send t ws :
  lock_respected t -> lock_respected (t ++ [Send ws false]).
Proof.
  intros [Hm Hs]. split.
  - intros r' b [Hin|Hin%list_elem_of_singleton]%elem_of_app; [by eapply Hm|done].
  - intros ws' b [Hin|Hin%list_elem_of_singleton]%elem_of_app; [by eapply Hs|].
    by injection Hin as _ ->.
Qed.

Lemma extends_respecting_refl w : lock_held w = false -> extends_respecting w w.
Proof.
  intros Hl. split; [done|]. exists []. split; [by rewrite app_nil_r|].
  apply lock_respected_nil.
Qed.

Section LockFacts.
Context {codec : JsonLib}.

(** The sends of [broadcast_to_user] are made with the lock free, and
    the unregistration after a send that raised is made under it. *)
Lemma broadcast_to_user_lock user_id payload w :
  lock_held w = false ->
  extends_respecting w (broadcast_to_user user_id payload w).
Proof.
  intros Hl. unfold broadcast_to_user.
  apply (foldl_invariant (extends_respecting w)).
  - intros a q Ha. destruct (put_or_pass_frame payload a q)
      as (_ & _ & _ & Hlk & _ & _ & _ & _ & Ht).
    unfold extends_respecting. by rewrite Hlk, Ht.
  - apply (foldl_invariant (extends_respecting w));
      [|by apply extends_respecting_refl].
    intros a ws (Hla & t & Ht & Hr).
    destruct (send_or_drop_user_cases user_id payload a ws)
      as [[_ ->]|[_ ->]].
    + split; [done|]. exists (t ++ [Send ws false]). simpl.
      rewrite Ht, Hla, <- app_assoc. split; [done|].
      by apply lock_respected_snoc_send.
    + split; [apply lock_held_remove_ws_user|].
      exists (t ++ [Mutate WsByUser true]).
      rewrite trace_remove_ws_user, Ht, <- app_assoc. split; [done|].
      by apply lock_respected_snoc_mutate.
Qed.

Lemma broadcast_room_lock room_id payload sender w :
  lock_held w = false ->
  extends_respecting w (broadcast_room room_id payload sender w).
Proof.
  intros Hl. unfold broadcast_room.
  apply (foldl_invariant (extends_respecting w));
    [|by apply extends_respecting_refl].
  intros a ws (Hla & t & Ht & Hr).
  destruct (send_or_drop_room_cases room_id payload sender a ws)
    as [[_ ->]|[(_ & _ & ->)|(_ & _ & ->)]].
  - split; [done|]. by exists t.
  - split; [done|]. exists (t ++ [Send ws false]). simpl.
    rewrite Ht, Hla, <- app_assoc. split; [done|].
    by apply lock_respected_snoc_send.
  - split; [apply lock_held_remove_ws_room|].
    exists (t ++ [Mutate WsRooms true]).
    rewrite trace_remove_ws_room, Ht, <- app_assoc. split; [done|].
    by apply lock_respected_snoc_mutate.
Qed.

End LockFacts.

(** C9. [sse] appends the new queue to [hub.sse_queues] with the lock
    free, and so does the [finally] block of [event_gen] when it removes
    it: the trace of a stream that is opened and closed has two writes to
    the registry, none of them under the lock. *)
Theorem sse_mutates_without_lock user_id :
  let w1 := (sse user_id init).2 in
  let w2 := event_gen_finally user_id (sse user_id init).1 w1 in
  trace w1 = [Mutate SseQueues false] /\
  trace w2 = [Mutate SseQueues false; Mutate SseQueues false] /\
  ~ mutations_locked (trace w1) /\ ~ mutations_locked (trace w2).
Proof.
  assert (trace (sse user_id init).2 = [Mutate SseQueues false]) as H1.
  { unfold sse, dd_getitem. simpl. by rewrite lookup_empty. }
  assert (trace (event_gen_finally user_id (sse user_id init).1 (sse user_id init).2)
          = [Mutate SseQueues false; Mutate SseQueues false]) as H2.
  { unfold event_gen_finally, sse, dd_getitem. simpl.
    rewrite lookup_empty. simpl. by rewrite lookup_insert_eq. }
  cbv zeta. rewrite H1, H2. repeat split; try done.
  - intros Hl. specialize (Hl SseQueues false (list_elem_of_here _ _)). done.
  - intros Hl. specialize (Hl SseQueues false (list_elem_of_here _ _)). done.
Qed.

(** ** The scenes, run *)

Ltac by_compute := apply (bool_decide_unpack _); vm_compute; exact I.

Lemma broadcast_to_user_fanout_witness :
  NoDup (push_queues alice_world "alice") /\
  let w' := broadcast_to_user (codec := lite_json) "alice" hi alice_world in
  sent_to w' 1 = sent_to alice_world 1 ++ [lite_dumps hi] /\
  sent_to w' 2 = sent_to alice_world 2 ++ [lite_dumps hi] /\
  q_items (queue_of w' 0) = q_items (queue_of alice_world 0) ++ [hi] /\
  sent_to w' 3 = sent_to alice_world 3.
Proof.
  assert (NoDup (push_queues alice_world "alice")) as Hnd by by_compute.
  split; [exact Hnd|].
  destruct (broadcast_to_user_fanout (codec := lite_json) "alice" hi alice_world Hnd)
    as (Hws & Hq & Hother & _).
  cbv zeta. split; [|split; [|split]].
  - apply Hws; by_compute.
  - apply Hws; by_compute.
  - apply Hq; [by_compute|vm_compute; reflexivity].
  - apply Hother; by_compute.
Defined.

Lemma broadcast_room_excludes_sender_witness :
  let w' := broadcast_room (codec := lite_json) "r1" offer 1 room_world in
  sent_to w' 2 = sent_to room_world 2 ++ [lite_dumps offer] /\
  sent_to w' 1 = sent_to room_world 1 /\
  sent_to w' 3 = sent_to room_world 3.
Proof.
  destruct (broadcast_room_excludes_sender (codec := lite_json) "r1" offer 1 room_world)
    as (Hin & Hsender & Hout).
  cbv zeta. split; [|split].
  - apply Hin; [by_compute|lia|by_compute].
  - exact Hsender.
  - apply Hout; by_compute.
Defined.

Lemma broadcast_to_user_send_failure_witness :
  2 ∈ chat_handles alice_world_2_gone "alice" /\
  2 ∈ ws_closed alice_world_2_gone /\
  NoDup (push_queues alice_world_2_gone "alice") /\
  let w' := broadcast_to_user (codec := lite_json) "alice" hi alice_world_2_gone in
  (2 ∉ chat_handles w' "alice") /\
  1 ∈ chat_handles w' "alice" /\
  sent_to w' 1 = sent_to alice_world_2_gone 1 ++ [lite_dumps hi] /\
  ws_by_user w' !! "bob" = ws_by_user alice_world_2_gone !! "bob" /\
  q_items (queue_of w' 0) = q_items (queue_of alice_world_2_gone 0) ++ [hi].
Proof.
  assert (2 ∈ chat_handles alice_world_2_gone "alice") as Hin by by_compute.
  assert (2 ∈ ws_closed alice_world_2_gone) as Hc by by_compute.
  assert (NoDup (push_queues alice_world_2_gone "alice")) as Hnd by by_compute.
  split; [exact Hin|]. split; [exact Hc|]. split; [exact Hnd|].
  destruct (broadcast_to_user_send_failure (codec := lite_json)
              "alice" hi alice_world_2_gone 2 Hin Hc Hnd)
    as (Hgone & Hrest & Hother & Hq).
  split; [exact Hgone|].
  destruct (Hrest 1) as [H1 H1']; [by_compute|by_compute|].
  split; [exact H1|]. split; [exact H1'|]. split.
  - apply Hother. discriminate.
  - apply Hq; [by_compute|vm_compute; reflexivity].
Defined.

Lemma broadcast_to_user_queue_full_witness :
  NoDup (push_queues alice_world_full "alice") /\
  0 ∈ push_queues alice_world_full "alice" /\
  q_full (queue_of alice_world_full 0) = true /\
  let w' := broadcast_to_user (codec := lite_json) "alice" hi alice_world_full in
  sse_queues w' = sse_queues alice_world_full /\
  queue_of w' 0 = queue_of alice_world_full 0 /\
  q_items (queue_of w' 1) = q_items (queue_of alice_world_full 1) ++ [hi] /\
  sent_to w' 1 = sent_to alice_world_full 1 ++ [lite_dumps hi].
Proof.
  assert (NoDup (push_queues alice_world_full "alice")) as Hnd by by_compute.
  assert (0 ∈ push_queues alice_world_full "alice") as Hin by by_compute.
  assert (q_full (queue_of alice_world_full 0) = true) as Hf by (vm_compute; reflexivity).
  split; [exact Hnd|]. split; [exact Hin|]. split; [exact Hf|].
  destruct (broadcast_to_user_queue_full (codec := lite_json)
              "alice" hi alice_world_full 0 Hnd Hin Hf)
    as (Hreg & Hsame & Hq & Hws).
  split; [exact Hreg|]. split; [exact Hsame|]. split.
  - apply Hq; [by_compute|vm_compute; reflexivity].
  - apply Hws; by_compute.
Defined.

Lemma get_history_last_200_witness :
  200 < length (default [] (MESSAGES (store_of "alice" (numbered 201)) !! "alice")) /\
  MESSAGES (store_of "alice" (numbered 201)) !! "bob" = None /\
  length (history (store_of "alice" (numbered 201)) "alice") = 200 /\
  history (store_of "alice" (numbered 201)) "bob" = [].
Proof.
  assert (200 < length (default [] (MESSAGES (store_of "alice" (numbered 201)) !! "alice")))
    as Hlen by (vm_compute; lia).
  assert (MESSAGES (store_of "alice" (numbered 201)) !! "bob" = None)
    as Hbob by (vm_compute; reflexivity).
  split; [exact Hlen|]. split; [exact Hbob|]. split.
  - destruct (get_history_last_200 "alice" (store_of "alice" (numbered 201)))
      as (_ & _ & _ & Hbig & _). exact (Hbig Hlen).
  - destruct (get_history_last_200 "bob" (store_of "alice" (numbered 201)))
      as (_ & _ & _ & _ & Hnone & _). exact (Hnone Hbob).
Defined.

Lemma non_object_frame_ends_loop_witness :
  json_loads (JsonLib := lite_json) "123" = Some (JInt 123) /\
  (forall d, JInt 123 <> JObj d) /\
  ws_chat_frame (codec := lite_json) "alice" 1 "123" "t1" alice_world
    = Exit (remove_ws_user "alice" 1 alice_world) /\
  ws_signal_frame (codec := lite_json) "r1" 1 "123" "t1" room_world
    = Exit (remove_ws_room "r1" 1 room_world).
Proof.
  assert (json_loads (JsonLib := lite_json) "123" = Some (JInt 123)) as Hl
    by (vm_compute; reflexivity).
  assert (forall d, JInt 123 <> JObj d) as Hv by discriminate.
  split; [exact Hl|]. split; [exact Hv|]. split.
  - exact (proj1 (non_object_frame_ends_loop (codec := lite_json)
                    "alice" "r1" 1 "123" "t1" alice_world (JInt 123) Hl Hv)).
  - exact (proj2 (non_object_frame_ends_loop (codec := lite_json)
                    "alice" "r1" 1 "123" "t1" room_world (JInt 123) Hl Hv)).
Defined.

Lemma signal_frame_non_object_dropped_witness :
  json_loads (JsonLib := lite_json) "5" = Some (JInt 5) /\
  (forall d, JInt 5 <> JObj d) /\
  let w' := world_of (ws_signal_frame (codec := lite_json) "r1" 1 "5" "t1" room_world) in
  sent_to w' 2 = sent_to room_world 2 /\ (1 ∉ room_handles w' "r1").
Proof.
  assert (json_loads (JsonLib := lite_json) "5" = Some (JInt 5)) as Hl
    by (vm_compute; reflexivity).
  assert (forall d, JInt 5 <> JObj d) as Hv by discriminate.
  split; [exact Hl|]. split; [exact Hv|].
  destruct (signal_frame_non_object_dropped (codec := lite_json)
              "r1" 1 "5" "t1" room_world (JInt 5) Hl Hv) as [Hsent Hgone].
  split; [apply Hsent|exact Hgone].
Defined.

(** The relay on the offer of the end-to-end test: the other peer of the
    room gets the frame with a [ts] field added at the end, the sender
    gets nothing. *)
Example relay_offer :
  let raw := lite_dumps offer in
  let w' := world_of (ws_signal_frame (codec := lite_json) "r1" 1 raw "t1" room_world) in
  sent_to w' 2 = sent_to room_world 2 ++
    [lite_dumps (JObj [("type", JStr "offer"); ("sdp", JStr "x");
                       ("nonce", JStr "n1"); ("ts", JStr "t1")])] /\
  sent_to w' 1 = sent_to room_world 1.
Proof. by vm_compute. Qed.

Example post_hi :
  let body := [("user_id", JStr "alice"); ("text", JStr " hi "); ("role", JStr "user")] in
  let msg := JObj [("id", JStr "id1"); ("ts", JStr "t1"); ("user_id", JStr "alice");
                   ("role", JStr "user"); ("text", JStr "hi")] in
  let r := post_message (codec := lite_json) body "id1" "t1" alice_world in
  r.1 = Return (JObj [("ok", JBool true); ("message", msg)]) /\
  history r.2 "alice" = [msg] /\
  q_items (queue_of r.2 0) = [JObj [("type", JStr "message"); ("data", msg)]].
Proof. by vm_compute. Qed.

Example post_empty_text :
  post_message (codec := lite_json) [("user_id", JStr "alice"); ("text", JStr "  ")]
               "id1" "t1" alice_world
  = (HTTPException 400 "user_id and text are required", alice_world).
Proof. vm_compute. reflexivity. Qed.

(** * Further properties *)

(** ** The registries *)

(** X1. [add_ws_user] puts the socket in the user's set and leaves the
    sets of the other users alone; adding a socket that is already there
    changes nothing in the registry. *)
Theorem add_ws_user_registers user_id ws w :
  (forall u, chat_handles (add_ws_user user_id ws w) u =
     if decide (u = user_id) then {[ws]} ∪ chat_handles w user_id
     else chat_handles w u) /\
  ws_by_user (add_ws_user user_id ws (add_ws_user user_id ws w)) =
    ws_by_user (add_ws_user user_id ws w).
Proof.
  split.
  - intros u. unfold chat_handles at 1. rewrite ws_by_user_add.
    destruct (decide (u = user_id)) as [->|Hne].
    + by rewrite lookup_insert_eq.
    + by rewrite lookup_insert_ne.
  - rewrite !ws_by_user_add. unfold chat_handles at 1.
    rewrite ws_by_user_add, lookup_insert_eq, insert_insert_eq. simpl.
    f_equal. set_solver.
Qed.

(** X2. Unregistering a socket that is not in the user's set leaves the
    registry as it was: the key that reading the [defaultdict] may create
    is popped again.  No key of the registry is bound to an empty set, as
    in every state the server reaches. *)
Theorem remove_ws_user_absent user_id ws w :
  no_empty_set (ws_by_user w) -> ws ∉ chat_handles w user_id ->
  ws_by_user (remove_ws_user user_id ws w) = ws_by_user w.
Proof.
  intros Hne Hin. rewrite ws_by_user_remove. cbv zeta.
  assert (chat_handles w user_id ∖ {[ws]} = chat_handles w user_id) as ->
    by set_solver.
  unfold chat_handles in *.
  destruct (ws_by_user w !! user_id) as [s|] eqn:Hs; simpl.
  - rewrite decide_False by by eapply Hne. by apply insert_id.
  - rewrite decide_True by done. by apply delete_id.
Qed.

(** X3. Registering a new socket and unregistering it again gives the
    registry back, key for key. *)
Theorem add_remove_ws_user user_id ws w :
  no_empty_set (ws_by_user w) -> ws ∉ chat_handles w user_id ->
  ws_by_user (remove_ws_user user_id ws (add_ws_user user_id ws w)) =
    ws_by_user w.
Proof.
  intros Hne Hin. rewrite ws_by_user_remove. cbv zeta.
  assert (chat_handles (add_ws_user user_id ws w) user_id ∖ {[ws]}
          = chat_handles w user_id) as ->.
  { unfold chat_handles at 1. rewrite ws_by_user_add, lookup_insert_eq. simpl.
    set_solver. }
  rewrite ws_by_user_add, insert_insert_eq. unfold chat_handles in *.
  destruct (ws_by_user w !! user_id) as [s|] eqn:Hs; simpl.
  - rewrite decide_False by by eapply Hne. by apply insert_id.
  - rewrite decide_True by done. rewrite delete_insert_eq. by apply delete_id.
Qed.

(** X4. The room registry behaves the same way: unregistering a socket
    that is not in the room is a no-op, and so is registering a new socket
    and unregistering it. *)
Theorem add_remove_ws_room room_id ws w :
  no_empty_set (ws_rooms w) -> ws ∉ room_handles w room_id ->
  ws_rooms (remove_ws_room room_id ws w) = ws_rooms w /\
  ws_rooms (remove_ws_room room_id ws (add_ws_room room_id ws w)) = ws_rooms w.
Proof.
  intros Hne Hin. split.
  - rewrite ws_rooms_remove. cbv zeta.
    assert (room_handles w room_id ∖ {[ws]} = room_handles w room_id) as ->
      by set_solver.
    unfold room_handles in *.
    destruct (ws_rooms w !! room_id) as [s|] eqn:Hs; simpl.
    + rewrite decide_False by by eapply Hne. by apply insert_id.
    + rewrite decide_True by done. by apply delete_id.
  - rewrite ws_rooms_remove. cbv zeta.
    assert (room_handles (add_ws_room room_id ws w) room_id ∖ {[ws]}
            = room_handles w room_id) as ->.
    { unfold room_handles at 1. rewrite ws_rooms_add, lookup_insert_eq. simpl.
      set_solver. }
    rewrite ws_rooms_add, insert_insert_eq. unfold room_handles in *.
    destruct (ws_rooms w !! room_id) as [s|] eqn:Hs; simpl.
    + rewrite decide_False by by eapply Hne. by apply insert_id.
    + rewrite decide_True by done. rewrite delete_insert_eq. by apply delete_id.
Qed.

(** ** What holds along every run *)

Section SocketFrames.
Context {codec : JsonLib}.

Lemma reply_chat_frame user_id ws text w :
  let w' := world_of (reply_chat user_id ws text w) in
  sse_queues w' = sse_queues w /\ next_queue w' = next_queue w /\
  MESSAGES w' = MESSAGES w /\ ws_closed w' = ws_closed w /\
  queues w' = queues w /\ ws_rooms w' = ws_rooms w.
Proof.
  cbv zeta. unfold reply_chat.
  destruct (ws_send_text ws text w) as [w'|] eqn:Hs; cbn [world_of].
  - by apply ws_send_text_Some in Hs as [_ ->].
  - by hub_frame.
Qed.

Lemma ws_chat_frame_frame user_id ws raw now w :
  let w' := world_of (ws_chat_frame user_id ws raw now w) in
  sse_queues w' = sse_queues w /\ next_queue w' = next_queue w /\
  MESSAGES w' = MESSAGES w /\ ws_closed w' = ws_closed w /\
  ws_rooms w' = ws_rooms w.
Proof.
  cbv zeta. unfold ws_chat_frame.
  destruct (match json_loads raw with Some v => v | None => _ end);
    cbn [world_of]; try (by hub_frame).
  destruct (py_eq_str _ "ping").
  { destruct (reply_chat_frame user_id ws
      (json_dumps true (JObj [("type", JStr "pong"); ("ts", JStr now)])) w)
      as (? & ? & ? & ? & ? & ?). done. }
  destruct (py_eq_str _ "message").
  2:{ match goal with |- context [reply_chat user_id ws ?t w] =>
        destruct (reply_chat_frame user_id ws t w) as (? & ? & ? & ? & ? & ?) end.
      done. }
  match goal with |- context [reply_chat user_id ws ?t w] =>
    pose proof (reply_chat_frame user_id ws t w) as Hf;
    destruct (reply_chat user_id ws t w) as [w1|w1] end;
    cbv zeta in Hf; cbn [world_of] in Hf; destruct Hf as (Hs & Hn & Hm & Hc & Hq & Hr);
    [|done].
  destruct (if py_truthy _ then _ else _); cbn [world_of]; try (by hub_frame).
  match goal with |- context [broadcast_to_user user_id ?p w1] =>
    destruct (broadcast_to_user_frame user_id p w1) as (-> & -> & -> & -> & ->) end.
  done.
Qed.

Lemma broadcast_room_frame room_id payload sender w :
  let w' := broadcast_room room_id payload sender w in
  ws_closed w' = ws_closed w /\ queues w' = queues w /\
  sse_queues w' = sse_queues w /\ next_queue w' = next_queue w /\
  MESSAGES w' = MESSAGES w /\ ws_by_user w' = ws_by_user w.
Proof. apply room_loop_frame. Qed.

Lemma ws_signal_frame_frame room_id ws raw now w :
  let w' := world_of (ws_signal_frame room_id ws raw now w) in
  sse_queues w' = sse_queues w /\ next_queue w' = next_queue w /\
  MESSAGES w' = MESSAGES w /\ ws_closed w' = ws_closed w /\
  ws_by_user w' = ws_by_user w /\ queues w' = queues w.
Proof.
  cbv zeta. unfold ws_signal_frame.
  destruct (signal_payload raw); cbn [world_of]; try (by hub_frame).
  match goal with |- context [broadcast_room room_id ?p ws w] =>
    destruct (broadcast_room_frame room_id p ws w) as (-> & -> & -> & -> & -> & ->) end.
  done.
Qed.

Lemma ws_chat_accept_frame user_id ws now w :
  let w' := world_of (ws_chat_accept user_id ws now w) in
  sse_queues w' = sse_queues w /\ next_queue w' = next_queue w /\
  MESSAGES w' = MESSAGES w /\ ws_closed w' = ws_closed w /\
  queues w' = queues w /\ ws_rooms w' = ws_rooms w.
Proof.
  cbv zeta. unfold ws_chat_accept.
  destruct (ws_send_text _ _ _) as [w'|] eqn:Hs; cbn [world_of].
  - apply ws_send_text_Some in Hs as [_ ->]. cbn -[add_ws_user add_ws_room]. by hub_frame.
  - by hub_frame.
Qed.

Lemma ws_signal_accept_frame room_id ws now w :
  let w' := world_of (ws_signal_accept room_id ws now w) in
  sse_queues w' = sse_queues w /\ next_queue w' = next_queue w /\
  MESSAGES w' = MESSAGES w /\ ws_closed w' = ws_closed w /\
  queues w' = queues w /\ ws_by_user w' = ws_by_user w.
Proof.
  cbv zeta. unfold ws_signal_accept.
  destruct (ws_send_text _ _ _) as [w'|] eqn:Hs; cbn [world_of].
  - apply ws_send_text_Some in Hs as [_ ->]. cbn -[add_ws_user add_ws_room]. by hub_frame.
  - by hub_frame.
Qed.

End SocketFrames.

Section RunInvariants.
Context {codec : JsonLib}.

Lemma post_message_frame payload new_id now w :
  let w' := (post_message payload new_id now w).2 in
  sse_queues w' = sse_queues w /\ next_queue w' = next_queue w /\
  ws_closed w' = ws_closed w /\ ws_rooms w' = ws_rooms w.
Proof.
  cbv zeta. unfold post_message. destruct (role_of payload); [|done].
  destruct (_ || _); [done|]. cbn [snd].
  match goal with |- context [broadcast_to_user ?u ?p ?w1] =>
    destruct (broadcast_to_user_frame u p w1) as (-> & -> & -> & _ & ->) end.
  unfold messages_append. by destruct (dd_getitem _ _ _).
Qed.

(** A step leaves the queue registry alone, or is one of the two
    stretches of the push stream. *)
Lemma step_sse_queues w w' :
  step w w' ->
  (sse_queues w' = sse_queues w /\ next_queue w' = next_queue w)
  \/ (exists user_id, w' = (sse user_id w).2)
  \/ (exists user_id q, w' = event_gen_finally user_id q w).
Proof.
  intros Hstep. destruct Hstep.
  - left. by destruct (ws_chat_accept_frame user_id ws now w) as (-> & -> & _).
  - left. by destruct (ws_chat_frame_frame user_id ws raw now w) as (-> & -> & _).
  - left. unfold ws_chat_disconnect. by hub_frame.
  - left. by destruct (ws_signal_accept_frame room_id ws now w) as (-> & -> & _).
  - left. by destruct (ws_signal_frame_frame room_id ws raw now w) as (-> & -> & _).
  - left. unfold ws_signal_disconnect. by hub_frame.
  - right. left. by exists user_id.
  - left. unfold event_gen_hello, put_nowait in Hhello.
    destruct (q_full _); [done|]. by injection Hhello as <-.
  - left. unfold event_gen_next in Hnext. destruct (q_items _); [done|].
    by injection Hnext as _ <-.
  - right. right. by exists user_id, q.
  - left. by destruct (post_message_frame payload new_id now w) as (-> & -> & _).
  - by left.
  - by left.
Qed.

Lemma queues_one_owner_sse user_id w :
  queues_listed_once w -> queues_one_owner w ->
  queues_one_owner (sse user_id w).2.
Proof.
  intros Hq Ho. unfold sse, dd_getitem, queues_one_owner. simpl.
  assert (forall u l q, sse_queues w !! u = Some l -> q ∈ l -> q <> next_queue w)
    as Hfresh.
  { intros u l q Hl Hin ->. destruct (Hq _ _ Hl) as [_ Hlt].
    apply Hlt in Hin. lia. }
  destruct (sse_queues w !! user_id) as [l0|] eqn:Hl0; simpl;
    intros u u' l l' q Hl Hl' Hin Hin';
    apply lookup_insert_Some in Hl as [[<- <-]|[Hne Hl]];
    apply lookup_insert_Some in Hl' as [[<- <-]|[Hne' Hl']]; try done.
  - apply elem_of_app in Hin as [Hin|Hin%list_elem_of_singleton].
    + by apply (Ho user_id u' l0 l' q).
    + subst q. by destruct (Hfresh _ _ _ Hl' Hin').
  - apply elem_of_app in Hin' as [Hin'|Hin'%list_elem_of_singleton].
    + by apply (Ho u user_id l l0 q).
    + subst q. by destruct (Hfresh _ _ _ Hl Hin).
  - by apply (Ho u u' l l' q).
  - rewrite lookup_insert_ne in Hl' by done.
    apply list_elem_of_singleton in Hin as ->.
    by destruct (Hfresh _ _ _ Hl' Hin').
  - rewrite lookup_insert_ne in Hl by done.
    apply list_elem_of_singleton in Hin' as ->.
    by destruct (Hfresh _ _ _ Hl Hin).
  - rewrite lookup_insert_ne in Hl, Hl' by done.
    by apply (Ho u u' l l' q).
Qed.

Lemma queues_one_owner_event_gen_finally user_id q w :
  queues_one_owner w -> queues_one_owner (event_gen_finally user_id q w).
Proof.
  intros Ho. unfold event_gen_finally.
  destruct (sse_queues w !! user_id) as [l0|] eqn:Hl0.
  - destruct (list_remove_first q l0) as [l1|] eqn:Hrm; [|done].
    apply list_remove_first_Some in Hrm.
    assert (forall x, x ∈ l1 -> x ∈ l0) as Hsub.
    { intros x Hx. rewrite Hrm. by right. }
    intros u u' l l' q0 Hl Hl' Hin Hin'. simpl in Hl, Hl'.
    apply lookup_insert_Some in Hl as [[<- <-]|[Hne Hl]];
      apply lookup_insert_Some in Hl' as [[<- <-]|[Hne' Hl']]; try done.
    + apply (Ho user_id u' l0 l' q0); auto.
    + apply (Ho u user_id l l0 q0); auto.
    + by apply (Ho u u' l l' q0).
  - intros u u' l l' q0 Hl Hl' Hin Hin'. simpl in Hl, Hl'.
    apply lookup_insert_Some in Hl as [[<- <-]|[Hne Hl]];
      apply lookup_insert_Some in Hl' as [[<- <-]|[Hne' Hl']]; try done.
    + by apply elem_of_nil in Hin.
    + by apply elem_of_nil in Hin'.
    + by apply (Ho u u' l l' q0).
Qed.

Lemma reachable_queues_one_owner w : reachable w -> queues_one_owner w.
Proof.
  intros Hr.
  assert (hub_inv w /\ queues_one_owner w) as [_ ?]; [|done].
  revert w Hr. apply rtc_ind_r.
  - split; [apply hub_inv_init|]. intros u u' l l' q Hl. simpl in Hl.
    by rewrite lookup_empty in Hl.
  - intros w w' Hr Hstep [Hinv Ho]. split; [by eapply hub_inv_step|].
    destruct (step_sse_queues _ _ Hstep) as [[Hs Hn]|[[u ->]|(u & q & ->)]].
    + unfold queues_one_owner. by rewrite Hs.
    + apply queues_one_owner_sse; [apply Hinv|done].
    + by apply queues_one_owner_event_gen_finally.
Qed.

End RunInvariants.

(** *** The lock along a run *)

Lemma lock_inv_frame w w' :
  lock_held w' = lock_held w -> trace w' = trace w -> lock_inv w -> lock_inv w'.
Proof. unfold lock_inv. by intros -> ->. Qed.

Lemma lock_inv_snoc w w' e :
  lock_held w' = false -> trace w' = trace w ++ [e] ->
  keeps_lock_discipline e -> lock_inv w -> lock_inv w'.
Proof.
  intros Hl Ht He [_ Hw]. split; [done|]. rewrite Ht.
  apply Forall_app. split; [done|]. by apply Forall_singleton.
Qed.

Lemma lock_inv_extends w w' :
  extends_respecting w w' -> lock_inv w -> lock_inv w'.
Proof.
  intros (Hl & t & Ht & Hm & Hs) [_ Hw]. split; [done|]. rewrite Ht.
  apply Forall_app. split; [done|]. apply Forall_forall.
  intros [r b|ws b] Hin; simpl.
  - intros _. by eapply Hm.
  - by eapply Hs.
Qed.

Lemma lock_inv_ws_send_text ws text w w' :
  ws_send_text ws text w = Some w' -> lock_inv w -> lock_inv w'.
Proof.
  intros Hs Hw. pose proof Hw as [Hl _].
  apply (lock_inv_snoc w w' (Send ws false)); [| |done|done].
  - apply ws_send_text_Some in Hs as [_ ->]. done.
  - rewrite (trace_ws_send_text _ _ _ _ Hs). by rewrite Hl.
Qed.

Lemma lock_inv_add_ws_user u ws w : lock_inv w -> lock_inv (add_ws_user u ws w).
Proof.
  apply (lock_inv_snoc _ _ (Mutate WsByUser true));
    [apply lock_held_add_ws_user|apply trace_add_ws_user|done].
Qed.

Lemma lock_inv_remove_ws_user u ws w : lock_inv w -> lock_inv (remove_ws_user u ws w).
Proof.
  apply (lock_inv_snoc _ _ (Mutate WsByUser true));
    [apply lock_held_remove_ws_user|apply trace_remove_ws_user|done].
Qed.

Lemma lock_inv_add_ws_room r ws w : lock_inv w -> lock_inv (add_ws_room r ws w).
Proof.
  apply (lock_inv_snoc _ _ (Mutate WsRooms true));
    [apply lock_held_add_ws_room|apply trace_add_ws_room|done].
Qed.

Lemma lock_inv_remove_ws_room r ws w : lock_inv w -> lock_inv (remove_ws_room r ws w).
Proof.
  apply (lock_inv_snoc _ _ (Mutate WsRooms true));
    [apply lock_held_remove_ws_room|apply trace_remove_ws_room|done].
Qed.

Lemma lock_inv_sse user_id w : lock_inv w -> lock_inv (sse user_id w).2.
Proof.
  intros Hw. pose proof Hw as [Hl _].
  apply (lock_inv_snoc w _ (Mutate SseQueues false)); [| |by intros []|done];
    unfold sse, dd_getitem; simpl; destruct (sse_queues w !! user_id); simpl;
    by rewrite ?Hl.
Qed.

Lemma lock_inv_event_gen_finally user_id q w :
  lock_inv w -> lock_inv (event_gen_finally user_id q w).
Proof.
  intros Hw. pose proof Hw as [Hl _]. unfold event_gen_finally.
  destruct (sse_queues w !! user_id) as [l|].
  - destruct (list_remove_first q l); [|done].
    apply (lock_inv_snoc w _ (Mutate SseQueues false));
      [done|simpl; by rewrite Hl|by intros []|done].
  - apply (lock_inv_snoc w _ (Mutate SseQueues false));
      [done|simpl; by rewrite Hl|by intros []|done].
Qed.

Section LockRuns.
Context {codec : JsonLib}.

Lemma lock_inv_broadcast_to_user user_id payload w :
  lock_inv w -> lock_inv (broadcast_to_user user_id payload w).
Proof.
  intros Hw. apply (lock_inv_extends w); [|done].
  apply broadcast_to_user_lock, Hw.
Qed.

Lemma lock_inv_broadcast_room room_id payload sender w :
  lock_inv w -> lock_inv (broadcast_room room_id payload sender w).
Proof.
  intros Hw. apply (lock_inv_extends w); [|done].
  apply broadcast_room_lock, Hw.
Qed.

Lemma lock_inv_reply_chat user_id ws text w :
  lock_inv w -> lock_inv (world_of (reply_chat user_id ws text w)).
Proof.
  intros Hw. unfold reply_chat.
  destruct (ws_send_text ws text w) as [w'|] eqn:Hs; cbn [world_of].
  - by eapply lock_inv_ws_send_text.
  - by apply lock_inv_remove_ws_user.
Qed.

Lemma lock_inv_ws_chat_frame user_id ws raw now w :
  lock_inv w -> lock_inv (world_of (ws_chat_frame user_id ws raw now w)).
Proof.
  intros Hw. unfold ws_chat_frame.
  destruct (match json_loads raw with Some v => v | None => _ end);
    try (by apply lock_inv_remove_ws_user).
  destruct (py_eq_str _ "ping"); [by apply lock_inv_reply_chat|].
  destruct (py_eq_str _ "message"); [|by apply lock_inv_reply_chat].
  match goal with |- context [reply_chat user_id ws ?t w] =>
    pose proof (lock_inv_reply_chat user_id ws t w Hw) as Hw1;
    destruct (reply_chat user_id ws t w) as [w1|w1] end;
    cbn [world_of] in Hw1; [|done].
  destruct (if py_truthy _ then _ else _);
    try (by apply lock_inv_remove_ws_user).
  by apply lock_inv_broadcast_to_user.
Qed.

Lemma lock_inv_step w w' : step w w' -> lock_inv w -> lock_inv w'.
Proof.
  intros Hstep Hw. destruct Hstep.
  - unfold ws_chat_accept.
    destruct (ws_send_text _ _ _) as [w'|] eqn:Hs; cbn [world_of].
    + eapply lock_inv_ws_send_text; [done|]. by apply lock_inv_add_ws_user.
    + by apply lock_inv_add_ws_user.
  - by apply lock_inv_ws_chat_frame.
  - by apply lock_inv_remove_ws_user.
  - unfold ws_signal_accept.
    destruct (ws_send_text _ _ _) as [w'|] eqn:Hs; cbn [world_of].
    + eapply lock_inv_ws_send_text; [done|]. by apply lock_inv_add_ws_room.
    + by apply lock_inv_add_ws_room.
  - unfold ws_signal_frame.
    destruct (signal_payload raw); try (by apply lock_inv_remove_ws_room).
    by apply lock_inv_broadcast_room.
  - by apply lock_inv_remove_ws_room.
  - by apply lock_inv_sse.
  - unfold event_gen_hello, put_nowait in Hhello.
    destruct (q_full _); [done|]. injection Hhello as <-.
    by apply (lock_inv_frame w).
  - unfold event_gen_next in Hnext. destruct (q_items _); [done|].
    injection Hnext as _ <-. by apply (lock_inv_frame w).
  - by apply lock_inv_event_gen_finally.
  - unfold post_message. destruct (role_of payload); [|done].
    destruct (_ || _); [done|]. cbn [snd].
    apply lock_inv_broadcast_to_user. revert Hw. apply lock_inv_frame;
      unfold messages_append; by destruct (dd_getitem _ _ _).
  - by apply (lock_inv_frame w).
  - by apply (lock_inv_frame w).
Qed.

(** X5. In every state the server reaches, no key of [ws_by_user] or of
    [ws_rooms] is bound to an empty set, no queue is listed twice under a
    user, and no queue is listed under two users. *)
Theorem reachable_registry_shape w :
  reachable w ->
  no_empty_set (ws_by_user w) /\ no_empty_set (ws_rooms w) /\
  (forall user_id, NoDup (push_queues w user_id)) /\
  queues_one_owner w.
Proof.
  intros Hr. destruct (reachable_hub_inv w Hr) as (Hq & Hu & Hrm).
  split; [done|]. split; [done|]. split.
  - intros user_id. unfold push_queues.
    destruct (sse_queues w !! user_id) as [l|] eqn:Hl; [|apply NoDup_nil_2].
    by destruct (Hq _ _ Hl).
  - by apply reachable_queues_one_owner.
Qed.

(** X6. In a state the server reaches, a broadcast to one user leaves
    the queues of the push streams of every other user as they were. *)
Theorem broadcast_to_user_other_stream user_id payload w other q :
  reachable w -> other <> user_id -> q ∈ push_queues w other ->
  queue_of (broadcast_to_user user_id payload w) q = queue_of w q.
Proof.
  intros Hr Hne Hin.
  rewrite queue_of_broadcast_to_user by by apply reachable_queues_listed_once.
  rewrite decide_False; [done|]. intros [Hin' _].
  unfold push_queues in Hin, Hin'.
  destruct (sse_queues w !! other) as [l|] eqn:Hl;
    [|by apply elem_of_nil in Hin].
  destruct (sse_queues w !! user_id) as [l'|] eqn:Hl';
    [|by apply elem_of_nil in Hin'].
  apply Hne. by eapply (reachable_queues_one_owner w Hr other user_id l l' q).
Qed.

(** X7. In every state the server reaches the lock is free between two
    handler steps, every write to [ws_by_user] and [ws_rooms] made so far
    was made holding the lock, and every frame was written to its socket
    without holding it. *)
Theorem reachable_lock_discipline w :
  reachable w ->
  lock_held w = false /\
  (forall r locked, Mutate r locked ∈ trace w -> r <> SseQueues -> locked = true) /\
  sends_unlocked (trace w).
Proof.
  intros Hr. assert (lock_inv w) as [Hl Ht].
  { revert w Hr. apply rtc_ind_r; [by split|].
    intros w w' _ Hstep Hw. by eapply lock_inv_step. }
  split; [done|]. rewrite Forall_forall in Ht. split.
  - intros r locked Hin. apply (Ht _ Hin).
  - intros ws locked Hin. apply (Ht _ Hin).
Qed.

End LockRuns.

(** ** The push stream *)

Lemma sse_spec user_id w :
  queues_listed_once w ->
  let q := (sse user_id w).1 in
  let w' := (sse user_id w).2 in
  q = next_queue w /\
  (q ∉ push_queues w user_id) /\
  (forall u, push_queues w' u =
     if decide (u = user_id) then push_queues w user_id ++ [q]
     else push_queues w u) /\
  (forall q', queue_of w' q' =
     if decide (q' = q) then new_queue else queue_of w q') /\
  ws_by_user w' = ws_by_user w /\ ws_closed w' = ws_closed w /\
  ws_sent w' = ws_sent w.
Proof.
  intros Hq. cbv zeta. unfold sse, dd_getitem, push_queues, queue_of. simpl.
  split; [by destruct (sse_queues w !! user_id)|].
  split.
  { destruct (sse_queues w !! user_id) as [l|] eqn:Hl; simpl.
    - intros Hin. destruct (Hq _ _ Hl) as [_ Hlt]. apply Hlt in Hin. lia.
    - apply not_elem_of_nil. }
  split.
  { intros u. destruct (sse_queues w !! user_id) as [l|] eqn:Hl; simpl;
      destruct (decide (u = user_id)) as [->|Hne].
    - by rewrite lookup_insert_eq.
    - by rewrite lookup_insert_ne.
    - by rewrite lookup_insert_eq.
    - by rewrite !lookup_insert_ne. }
  split.
  { intros q'. destruct (sse_queues w !! user_id) as [l|] eqn:Hl; simpl;
      destruct (decide (q' = next_queue w)) as [->|Hne].
    - by rewrite lookup_insert_eq.
    - by rewrite lookup_insert_ne.
    - by rewrite lookup_insert_eq.
    - by rewrite lookup_insert_ne. }
  by destruct (sse_queues w !! user_id).
Qed.

Lemma list_remove_first_app_fresh q l :
  q ∉ l -> list_remove_first q (l ++ [q]) = Some l.
Proof.
  induction l as [|y l IH]; intros Hin; simpl.
  - by rewrite decide_True.
  - rewrite decide_False by set_solver. rewrite IH by set_solver. done.
Qed.

Lemma list_remove_first_None q l :
  q ∉ l -> list_remove_first q l = None.
Proof.
  induction l as [|y l IH]; intros Hin; simpl; [done|].
  rewrite decide_False by set_solver. by rewrite IH by set_solver.
Qed.

Section PushStream.
Context {codec : JsonLib}.

Lemma subscribe_then_broadcast_aux user_id payload w :
  reachable w ->
  let q := (sse user_id w).1 in
  let w1 := (sse user_id w).2 in
  q ∈ push_queues w1 user_id /\
  queue_of (broadcast_to_user user_id payload w1) q = mkQueue 0 [payload].
Proof.
  intros Hr. cbv zeta.
  pose proof (reachable_hub_inv w Hr) as Hinv.
  destruct (sse_spec user_id w (proj1 Hinv)) as (Hq & Hfresh & Hl & Hqu & _).
  cbv zeta in *. split.
  - rewrite Hl, decide_True by done. apply elem_of_app. right.
    by apply list_elem_of_singleton.
  - rewrite queue_of_broadcast_to_user.
    + rewrite decide_True; [by rewrite Hqu, decide_True by done|].
      split.
      * rewrite Hl, decide_True by done. apply elem_of_app. right.
        by apply list_elem_of_singleton.
      * by rewrite Hqu, decide_True by done.
    + pose proof (hub_inv_sse user_id w Hinv) as (Hq' & _).
      unfold push_queues.
      destruct (sse_queues _ !! user_id) as [l|] eqn:Hl'; [|apply NoDup_nil_2].
      by destruct (Hq' _ _ Hl').
Qed.

(** X8. Opening a push stream in a state the server reaches creates a
    queue that no list of the user held, appends it at the end of the
    user's list and leaves the lists of the other users alone; the queue
    is empty and unbounded, and the next broadcast to the user leaves
    exactly its payload in it. *)
Theorem subscribe_then_broadcast user_id payload w :
  reachable w ->
  let q := (sse user_id w).1 in
  let w1 := (sse user_id w).2 in
  (q ∉ push_queues w user_id) /\
  push_queues w1 user_id = push_queues w user_id ++ [q] /\
  (forall u, u <> user_id -> push_queues w1 u = push_queues w u) /\
  queue_of w1 q = new_queue /\
  queue_of (broadcast_to_user user_id payload w1) q = mkQueue 0 [payload].
Proof.
  intros Hr. cbv zeta.
  pose proof (reachable_hub_inv w Hr) as Hinv.
  destruct (sse_spec user_id w (proj1 Hinv)) as (_ & Hfresh & Hl & Hqu & _).
  destruct (subscribe_then_broadcast_aux user_id payload w Hr) as [_ Hb].
  cbv zeta in *. split; [done|]. split; [|split; [|split]].
  - by rewrite Hl, decide_True.
  - intros u Hne. by rewrite Hl, decide_False.
  - by rewrite Hqu, decide_True.
  - done.
Qed.

(** X9. Opening a push stream and closing it gives back every user's
    list of queues, as [sse_queues.get(user_id, [])] reads it, and does
    not touch the two socket registries. *)
Theorem subscribe_then_unsubscribe user_id w :
  reachable w ->
  let w' := event_gen_finally user_id (sse user_id w).1 (sse user_id w).2 in
  (forall u, push_queues w' u = push_queues w u) /\
  ws_by_user w' = ws_by_user w /\ ws_rooms w' = ws_rooms w.
Proof.
  intros Hr. cbv zeta.
  pose proof (reachable_hub_inv w Hr) as Hinv.
  destruct (sse_spec user_id w (proj1 Hinv)) as (Hq & Hfresh & Hl & _).
  cbv zeta in *.
  destruct (event_gen_finally_frame user_id (sse user_id w).1 (sse user_id w).2)
    as (Hu & Hrm & _).
  destruct (sse_frame user_id w) as [Hu' Hrm'].
  split; [|by rewrite Hu, Hrm, Hu', Hrm'].
  intros u. pose proof (Hl user_id) as Hlu. rewrite decide_True in Hlu by done.
  unfold event_gen_finally.
  unfold push_queues in Hlu at 1.
  destruct (sse_queues (sse user_id w).2 !! user_id) as [l|] eqn:Hl1.
  - simpl in Hlu. subst l.
    rewrite list_remove_first_app_fresh by done.
    unfold push_queues at 1. simpl.
    destruct (decide (u = user_id)) as [->|Hne].
    + by rewrite lookup_insert_eq.
    + rewrite lookup_insert_ne by done. fold (push_queues (sse user_id w).2 u).
      by rewrite Hl, decide_False.
  - simpl in Hlu. destruct (push_queues w user_id); simpl in Hlu; discriminate.
Qed.

End PushStream.

(** X10. The [finally] block of [event_gen] can run twice: when the
    user's list holds no queue twice, the second run finds the queue gone,
    the [ValueError] of [list.remove] is swallowed and the state is the one
    the first run left. *)
Theorem event_gen_finally_twice user_id q w :
  NoDup (push_queues w user_id) ->
  event_gen_finally user_id q (event_gen_finally user_id q w)
  = event_gen_finally user_id q w.
Proof.
  intros Hnd. unfold push_queues in Hnd. unfold event_gen_finally at 2 3.
  destruct (sse_queues w !! user_id) as [l|] eqn:Hl; simpl in Hnd.
  - destruct (list_remove_first q l) as [l'|] eqn:Hrm.
    + unfold event_gen_finally. simpl. rewrite lookup_insert_eq.
      rewrite list_remove_first_None; [done|].
      apply list_remove_first_Some in Hrm. rewrite Hrm in Hnd.
      by apply NoDup_cons in Hnd as [? _].
    + unfold event_gen_finally. by rewrite Hl, Hrm.
  - unfold event_gen_finally. simpl. by rewrite lookup_insert_eq.
Qed.

Lemma q_full_unbounded Q : q_maxsize Q = 0 -> q_full Q = false.
Proof. unfold q_full. by intros ->. Qed.

Lemma event_gen_next_spec q w :
  event_gen_next q w =
  match q_items (queue_of w q) with
  | [] => None
  | item :: rest =>
      Some (item, set_queues (<[q := mkQueue (q_maxsize (queue_of w q)) rest]>
                                (queues w)) w)
  end.
Proof. done. Qed.

Lemma queue_of_set_queues q Q w :
  queue_of (set_queues (<[q := Q]> (queues w)) w) q = Q.
Proof. unfold queue_of. simpl. by rewrite lookup_insert_eq. Qed.

Section StreamOrder.
Context {codec : JsonLib}.

Lemma push_queues_broadcast_to_user user_id payload w u :
  push_queues (broadcast_to_user user_id payload w) u = push_queues w u.
Proof.
  unfold push_queues.
  by destruct (broadcast_to_user_frame user_id payload w) as (_ & -> & _).
Qed.

(** X11. Two broadcasts to a user reach an unbounded queue of the user
    in the order they were made, behind what the queue already held; a
    stream whose queue was empty then yields the first payload, the second
    one, and has nothing more to yield. *)
Theorem broadcasts_arrive_in_order user_id p1 p2 w q :
  NoDup (push_queues w user_id) -> q ∈ push_queues w user_id ->
  q_maxsize (queue_of w q) = 0 ->
  let w2 := broadcast_to_user user_id p2 (broadcast_to_user user_id p1 w) in
  q_items (queue_of w2 q) = q_items (queue_of w q) ++ [p1; p2] /\
  (q_items (queue_of w q) = [] ->
   exists w3 w4,
     event_gen_next q w2 = Some (p1, w3) /\
     event_gen_next q w3 = Some (p2, w4) /\
     event_gen_next q w4 = None).
Proof.
  intros Hnd Hin Hmax. cbv zeta.
  assert (queue_of (broadcast_to_user user_id p1 w) q
          = mkQueue 0 (q_items (queue_of w q) ++ [p1])) as H1.
  { rewrite queue_of_broadcast_to_user by done.
    rewrite decide_True by (split; [done|by apply q_full_unbounded]).
    by rewrite Hmax. }
  assert (queue_of (broadcast_to_user user_id p2 (broadcast_to_user user_id p1 w)) q
          = mkQueue 0 (q_items (queue_of w q) ++ [p1; p2])) as H2.
  { rewrite queue_of_broadcast_to_user
      by by rewrite push_queues_broadcast_to_user.
    rewrite decide_True.
    - rewrite H1. simpl. by rewrite <- app_assoc.
    - split; [by rewrite push_queues_broadcast_to_user|]. by rewrite H1. }
  split; [by rewrite H2|].
  intros Hempty. rewrite Hempty in H2. simpl in H2.
  set (w2 := broadcast_to_user user_id p2 _) in *.
  set (w3 := set_queues (<[q := mkQueue 0 [p2]]> (queues w2)) w2).
  set (w4 := set_queues (<[q := mkQueue 0 []]> (queues w3)) w3).
  exists w3, w4. split; [|split].
  - by rewrite event_gen_next_spec, H2.
  - unfold w3 at 1. by rewrite event_gen_next_spec, queue_of_set_queues.
  - unfold w4. by rewrite event_gen_next_spec, queue_of_set_queues.
Qed.

(** X12. The greeting of a push stream is put on the queue when the
    generator first runs, not when [sse] registers the queue: with no
    broadcast in between the queue holds the greeting alone, and a
    broadcast to the user made in between is ahead of the greeting. *)
Theorem broadcast_before_hello user_id payload now w :
  reachable w ->
  let q := (sse user_id w).1 in
  let w1 := (sse user_id w).2 in
  (exists w2, event_gen_hello q now w1 = Some w2 /\
     q_items (queue_of w2 q) = [sse_hello now]) /\
  (exists w2, event_gen_hello q now (broadcast_to_user user_id payload w1) = Some w2 /\
     q_items (queue_of w2 q) = [payload; sse_hello now]).
Proof.
  intros Hr. cbv zeta.
  pose proof (reachable_hub_inv w Hr) as Hinv.
  destruct (sse_spec user_id w (proj1 Hinv)) as (_ & _ & _ & Hqu & _).
  cbv zeta in Hqu.
  destruct (subscribe_then_broadcast_aux user_id payload w Hr) as [_ Hb].
  split.
  - unfold event_gen_hello, put_nowait.
    rewrite Hqu, decide_True by done. simpl.
    eexists. split; [reflexivity|]. by rewrite queue_of_set_queues.
  - unfold event_gen_hello, put_nowait. rewrite Hb. simpl.
    eexists. split; [reflexivity|]. by rewrite queue_of_set_queues.
Qed.

End StreamOrder.

(** ** The REST endpoints *)

Lemma lstrip_empty s : lstrip s = EmptyString <-> all_space s.
Proof.
  unfold all_space. induction s as [|c s IH]; simpl.
  - split; [constructor|done].
  - destruct (is_space c) eqn:Hc.
    + rewrite IH. split; [by constructor|]. by inversion 1.
    + split; [done|]. inversion 1; congruence.
Qed.

Lemma lstrip_head s :
  lstrip s = EmptyString \/
  exists c r, lstrip s = String c r /\ is_space c = false.
Proof.
  induction s as [|c s IH]; simpl; [by left|].
  destruct (is_space c) eqn:Hc; [done|]. right. by exists c, s.
Qed.

Lemma list_ascii_rev_app s1 s2 :
  list_ascii_of_string (String.rev_app s1 s2) =
  rev (list_ascii_of_string s1) ++ list_ascii_of_string s2.
Proof.
  revert s2. induction s1 as [|c s1 IH]; intros s2; simpl; [done|].
  rewrite IH. simpl. by rewrite <- app_assoc.
Qed.

Lemma list_ascii_rev s :
  list_ascii_of_string (String.rev s) = rev (list_ascii_of_string s).
Proof. unfold String.rev. rewrite list_ascii_rev_app. simpl. by rewrite app_nil_r. Qed.

Lemma all_space_rev s : all_space (String.rev s) <-> all_space s.
Proof.
  unfold all_space. rewrite list_ascii_rev. split; intros Hs.
  - rewrite <- (rev_involutive (list_ascii_of_string s)). by apply List.Forall_rev.
  - by apply List.Forall_rev.
Qed.

Lemma string_rev_empty s : String.rev s = EmptyString <-> s = EmptyString.
Proof.
  split; [|by intros ->]. intros Hr.
  apply (f_equal list_ascii_of_string) in Hr. rewrite list_ascii_rev in Hr.
  simpl in Hr. destruct s as [|c s]; [done|]. simpl in Hr.
  by destruct (rev (list_ascii_of_string s)).
Qed.

(** [strip] gives the empty string on the strings made of white space,
    and only on them. *)
Lemma strip_empty s : strip s = EmptyString <-> all_space s.
Proof.
  unfold strip, rstrip. split.
  - intros H%string_rev_empty%lstrip_empty.
    apply (proj1 (all_space_rev _)) in H.
    destruct (lstrip_head s) as [He|(c & r & Hs & Hc)]; [by apply lstrip_empty|].
    rewrite Hs in H. unfold all_space in H. simpl in H.
    apply Forall_cons in H as [Hc' _]. congruence.
  - intros H%lstrip_empty. by rewrite H.
Qed.

Section RestRuns.
Context {codec : JsonLib}.

(** X13. For a body whose [user_id] and [text] are strings and whose
    [role] is absent, falsy or a string, [post_message] answers 400
    "user_id and text are required" exactly when [user_id] or [text] is
    made of white space only (the empty string included), and returns a
    body exactly when neither is. *)
Theorem post_message_validation payload new_id now w role u t :
  role_of payload = Some role ->
  dict_get "user_id" payload = Some (JStr u) ->
  dict_get "text" payload = Some (JStr t) ->
  ((post_message payload new_id now w).1
     = HTTPException 400 "user_id and text are required"
   <-> all_space u \/ all_space t) /\
  ((exists body, (post_message payload new_id now w).1 = Return body)
   <-> ~ all_space u /\ ~ all_space t).
Proof.
  intros Hr Hu Ht. unfold post_message, py_get_default. rewrite Hr, Hu, Ht.
  simpl.
  assert (bool_decide (strip u = EmptyString) || bool_decide (strip t = EmptyString)
          = true <-> all_space u \/ all_space t) as Hb.
  { rewrite orb_true_iff, !bool_decide_eq_true. by rewrite !strip_empty. }
  destruct (_ || _); simpl.
  - split.
    + split; [intros _; by apply Hb|done].
    + split; [by intros [body [=]]|]. intros [Hnu Hnt].
      destruct (proj1 Hb eq_refl); done.
  - split.
    + split; [by intros [=]|]. intros Hs. apply Hb in Hs. done.
    + split; [|by eauto]. intros _.
      split; intros Hs; [assert (all_space u \/ all_space t) as Hs' by by left
                        |assert (all_space u \/ all_space t) as Hs' by by right];
        apply Hb in Hs'; done.
Qed.

Lemma history_snoc user_id stored msg w :
  default [] (MESSAGES w !! user_id) = stored ++ [msg] ->
  last (history w user_id) = Some msg /\
  length (history w user_id) = min 200 (S (length stored)).
Proof.
  intros Hs. unfold history. rewrite Hs. split.
  - unfold last_n. rewrite drop_app_le by (rewrite length_app; cbn [length]; lia).
    apply last_snoc.
  - rewrite last_n_length, length_app. cbn [length]. lia.
Qed.

Lemma MESSAGES_broadcast_to_user user_id payload w :
  MESSAGES (broadcast_to_user user_id payload w) = MESSAGES w.
Proof. by destruct (broadcast_to_user_frame user_id payload w) as (_ & _ & _ & -> & _). Qed.

(** X14. An accepted [post_message] returns [{ok: true, message: msg}],
    puts [msg] at the end of the log of its user, so that [msg] is the
    last message of the history of that user, and leaves the history of
    every other user as it was. *)
Theorem post_message_then_history payload new_id now w role :
  role_of payload = Some role ->
  let user_id := strip (py_str (py_get_default "user_id" (JStr EmptyString) payload)) in
  let text := strip (py_str (py_get_default "text" (JStr EmptyString) payload)) in
  let msg := JObj [("id", JStr new_id); ("ts", JStr now);
                   ("user_id", JStr user_id); ("role", JStr role);
                   ("text", JStr text)] in
  let r := post_message payload new_id now w in
  user_id <> EmptyString -> text <> EmptyString ->
  r.1 = Return (JObj [("ok", JBool true); ("message", msg)]) /\
  default [] (MESSAGES r.2 !! user_id) = default [] (MESSAGES w !! user_id) ++ [msg] /\
  last (history r.2 user_id) = Some msg /\
  (forall u, u <> user_id -> history r.2 u = history w u).
Proof.
  intros Hr user_id text msg r Hu Ht. subst r.
  rewrite (post_message_accepts payload new_id now w role Hr Hu Ht).
  fold user_id text msg. cbn [fst snd].
  assert (default [] (MESSAGES (broadcast_to_user user_id
            (JObj [("type", JStr "message"); ("data", msg)])
            (messages_append user_id msg w)) !! user_id)
          = default [] (MESSAGES w !! user_id) ++ [msg]) as Hs.
  { rewrite MESSAGES_broadcast_to_user. apply messages_append_log. }
  split; [done|]. split; [done|]. split.
  - by apply (history_snoc _ _ _ _ Hs).
  - intros u Hne. unfold history.
    by rewrite MESSAGES_broadcast_to_user, messages_append_other.
Qed.

(** X15. After [dev_reset] the history of every user is empty and the
    next accepted [post_message] makes the history of its user the single
    message posted; the reset leaves the registries of sockets and queues
    and the queues themselves as they were. *)
Theorem dev_reset_then_post payload new_id now w role :
  role_of payload = Some role ->
  let user_id := strip (py_str (py_get_default "user_id" (JStr EmptyString) payload)) in
  let text := strip (py_str (py_get_default "text" (JStr EmptyString) payload)) in
  let msg := JObj [("id", JStr new_id); ("ts", JStr now);
                   ("user_id", JStr user_id); ("role", JStr role);
                   ("text", JStr text)] in
  user_id <> EmptyString -> text <> EmptyString ->
  (forall u, history (dev_reset w) u = []) /\
  history (post_message payload new_id now (dev_reset w)).2 user_id = [msg] /\
  ws_by_user (dev_reset w) = ws_by_user w /\
  ws_rooms (dev_reset w) = ws_rooms w /\
  sse_queues (dev_reset w) = sse_queues w /\
  queues (dev_reset w) = queues w.
Proof.
  intros Hr user_id text msg Hu Ht.
  split; [intros u; unfold history, dev_reset; simpl; by rewrite lookup_empty|].
  split; [|done].
  rewrite (post_message_accepts payload new_id now (dev_reset w) role Hr Hu Ht).
  fold user_id text msg. cbn [snd]. unfold history.
  rewrite MESSAGES_broadcast_to_user, messages_append_log.
  unfold dev_reset. simpl. by rewrite lookup_empty.
Qed.

End RestRuns.

(** ** The socket endpoints *)

Lemma dict_get_set (k1 k2 : string) (v : json) (d : dict) :
  dict_get k1 (dict_set k2 v d) =
  if decide (k1 = k2) then Some v else dict_get k1 d.
Proof.
  induction d as [|[k0 v0] d IH]; simpl.
  - destruct (decide (k1 = k2)) as [->|Hne].
    + by rewrite decide_True.
    + by rewrite decide_False.
  - destruct (decide (k0 = k2)) as [->|Hne]; simpl.
    + destruct (decide (k1 = k2)) as [->|Hne].
      * by rewrite decide_True.
      * by rewrite !decide_False.
    + rewrite IH. destruct (decide (k0 = k1)) as [->|]; [|done].
      by rewrite decide_False.
Qed.

Section SocketRuns.
Context {codec : JsonLib}.

Lemma reply_chat_cases user_id ws text w :
  ((ws ∉ ws_closed w) /\
   reply_chat user_id ws text w =
     Continue (set_ws_sent (<[ws := sent_to w ws ++ [text]]> (ws_sent w))
                 (log (Send ws (lock_held w)) w)))
  \/ ((ws ∈ ws_closed w) /\
      reply_chat user_id ws text w = Exit (remove_ws_user user_id ws w)).
Proof.
  unfold reply_chat. destruct (ws_send_text ws text w) as [w'|] eqn:Hs.
  - left. by apply ws_send_text_Some in Hs as [? ->].
  - right. by apply ws_send_text_None in Hs.
Qed.

Lemma sent_to_reply_chat user_id ws text w h :
  sent_to (world_of (reply_chat user_id ws text w)) h =
  if decide (h = ws /\ ws ∉ ws_closed w)
  then sent_to w h ++ [text] else sent_to w h.
Proof.
  destruct (reply_chat_cases user_id ws text w) as [[Hc ->]|[Hc ->]];
    cbn [world_of].
  - unfold sent_to at 1. simpl. destruct (decide (h = ws)) as [->|Hne].
    + rewrite lookup_insert_eq. by rewrite decide_True.
    + rewrite lookup_insert_ne by done. rewrite decide_False; [done|tauto].
  - rewrite sent_to_remove_ws_user. rewrite decide_False; [done|tauto].
Qed.

(** X16. A chat frame that is not an object of type [message] (a ping,
    another type, a text that is not JSON, a document that is not an
    object) writes to no socket but the sender's, to no queue and not to
    the message store. *)
Theorem chat_frame_without_fanout user_id ws raw now w :
  (forall d, json_loads raw = Some (JObj d) ->
     py_eq_str (py_get "type" d) "message" = false) ->
  let w' := world_of (ws_chat_frame user_id ws raw now w) in
  (forall h, h <> ws -> sent_to w' h = sent_to w h) /\
  queues w' = queues w /\ MESSAGES w' = MESSAGES w.
Proof.
  intros Hty. cbv zeta. unfold ws_chat_frame.
  assert (forall t h, h <> ws ->
            sent_to (world_of (reply_chat user_id ws t w)) h = sent_to w h) as Hrep.
  { intros t h Hne. rewrite sent_to_reply_chat. rewrite decide_False; [done|tauto]. }
  destruct (json_loads raw) as [v|] eqn:Hl.
  - destruct v; cbn [world_of];
      try (split; [intros h _; apply sent_to_remove_ws_user|by hub_frame]).
    rewrite (Hty fields eq_refl).
    destruct (py_eq_str _ "ping");
      match goal with |- context [reply_chat user_id ws ?t w] =>
        destruct (reply_chat_frame user_id ws t w) as (_ & _ & ? & _ & ? & _) end;
      (split; [intros h Hne; by apply Hrep|done]).
  - cbn [py_get dict_get]. simpl.
    match goal with |- context [reply_chat user_id ws ?t w] =>
      destruct (reply_chat_frame user_id ws t w) as (_ & _ & ? & _ & ? & _) end.
    split; [intros h Hne; by apply Hrep|done].
Qed.

(** X17. A [ping] frame on an open socket is answered on that socket
    by the single frame [{type: pong, ts: now}]; the loop goes on, no other
    socket gets anything, and the registry and the queues are as before. *)
Theorem chat_ping_pong user_id ws raw now w d :
  json_loads raw = Some (JObj d) -> dict_get "type" d = Some (JStr "ping") ->
  ws ∉ ws_closed w ->
  exists w', ws_chat_frame user_id ws raw now w = Continue w' /\
    sent_to w' ws = sent_to w ws ++
      [json_dumps true (JObj [("type", JStr "pong"); ("ts", JStr now)])] /\
    (forall h, h <> ws -> sent_to w' h = sent_to w h) /\
    ws_by_user w' = ws_by_user w /\ queues w' = queues w.
Proof.
  intros Hl Hty Hc. unfold ws_chat_frame, py_get. rewrite Hl, Hty. simpl.
  destruct (reply_chat_cases user_id ws
    (json_dumps true (JObj [("type", JStr "pong"); ("ts", JStr now)])) w)
    as [[_ ->]|[Hc' _]]; [|done].
  eexists. split; [done|]. split; [|split; [|done]].
  - unfold sent_to at 1. simpl. by rewrite lookup_insert_eq.
  - intros h Hne. unfold sent_to at 1. simpl. by rewrite lookup_insert_ne.
Qed.

(** What the chat loop broadcasts for a [message] frame whose [data]
    unpacks to [fields]. *)
Lemma chat_message_after_echo user_id ws raw now w d fields :
  json_loads raw = Some (JObj d) -> dict_get "type" d = Some (JStr "message") ->
  (if py_truthy (py_get "data" d) then py_get "data" d else JObj []) = JObj fields ->
  ws ∉ ws_closed w ->
  ws_chat_frame user_id ws raw now w =
    Continue (broadcast_to_user user_id
      (JObj [("type", JStr "message");
             ("data", JObj (dict_set "ts" (JStr now)
                              (dict_set "echoed" (JBool true) fields)))])
      (set_ws_sent (<[ws := sent_to w ws ++
                       [json_dumps false (JObj [("type", JStr "echo");
                                                ("data", py_get "data" d)])]]>
                      (ws_sent w))
         (log (Send ws (lock_held w)) w))).
Proof.
  intros Hl Hty Hdata Hc. unfold ws_chat_frame. rewrite Hl.
  unfold py_get at 1 2. rewrite Hty. simpl.
  destruct (reply_chat_cases user_id ws
    (json_dumps false (JObj [("type", JStr "echo"); ("data", py_get "data" d)])) w)
    as [[_ ->]|[Hc' _]]; [|done].
  by rewrite Hdata.
Qed.

(** X18. A [message] frame on an open, registered socket: the sender
    gets the echo and then the broadcast frame, every other open socket of
    the user gets the broadcast frame alone; the data broadcast is the data
    of the frame with [echoed] set to true and [ts] set to the current
    time, every other key keeping its value. *)
Theorem chat_message_echo_then_broadcast user_id ws raw now w d fields :
  json_loads raw = Some (JObj d) -> dict_get "type" d = Some (JStr "message") ->
  (if py_truthy (py_get "data" d) then py_get "data" d else JObj []) = JObj fields ->
  ws ∈ chat_handles w user_id -> ws ∉ ws_closed w ->
  let data := dict_set "ts" (JStr now) (dict_set "echoed" (JBool true) fields) in
  let echo := json_dumps false (JObj [("type", JStr "echo");
                                      ("data", py_get "data" d)]) in
  let frame := json_dumps false (JObj [("type", JStr "message");
                                       ("data", JObj data)]) in
  exists w', ws_chat_frame user_id ws raw now w = Continue w' /\
    sent_to w' ws = sent_to w ws ++ [echo; frame] /\
    (forall h, h ∈ chat_handles w user_id -> h <> ws -> h ∉ ws_closed w ->
       sent_to w' h = sent_to w h ++ [frame]) /\
    dict_get "echoed" data = Some (JBool true) /\
    dict_get "ts" data = Some (JStr now) /\
    (forall k, k <> "echoed" -> k <> "ts" -> dict_get k data = dict_get k fields).
Proof.
  intros Hl Hty Hdata Hin Hc. cbv zeta.
  rewrite (chat_message_after_echo _ _ _ _ _ _ _ Hl Hty Hdata Hc).
  eexists. split; [done|]. split; [|split; [|split; [|split]]].
  - rewrite sent_to_broadcast_to_user. rewrite decide_True by done.
    unfold sent_to at 1. simpl. rewrite lookup_insert_eq. simpl.
    by rewrite <- app_assoc.
  - intros h Hh Hne Hhc. rewrite sent_to_broadcast_to_user.
    rewrite decide_True by done.
    unfold sent_to at 1. simpl. by rewrite lookup_insert_ne.
  - rewrite !dict_get_set. rewrite decide_False by done. by rewrite decide_True.
  - rewrite dict_get_set. by rewrite decide_True.
  - intros k Hk1 Hk2. rewrite !dict_get_set. by rewrite !decide_False.
Qed.

(** X19. A [message] frame whose [data] is truthy and not an object (a
    string, a number, a list): the echo is sent, then unpacking [data]
    raises; the socket is unregistered, the loop ends, and no other socket
    and no queue got anything. *)
Theorem chat_message_bad_data user_id ws raw now w d :
  json_loads raw = Some (JObj d) -> dict_get "type" d = Some (JStr "message") ->
  py_truthy (py_get "data" d) = true -> (forall fields, py_get "data" d <> JObj fields) ->
  ws ∉ ws_closed w ->
  let echo := json_dumps false (JObj [("type", JStr "echo");
                                      ("data", py_get "data" d)]) in
  exists w', ws_chat_frame user_id ws raw now w = Exit w' /\
    sent_to w' ws = sent_to w ws ++ [echo] /\
    (ws ∉ chat_handles w' user_id) /\
    (forall h, h <> ws -> sent_to w' h = sent_to w h) /\
    queues w' = queues w.
Proof.
  intros Hl Hty Htr Hno Hc. cbv zeta. unfold ws_chat_frame. rewrite Hl.
  unfold py_get at 1 2. rewrite Hty. simpl.
  destruct (reply_chat_cases user_id ws
    (json_dumps false (JObj [("type", JStr "echo"); ("data", py_get "data" d)])) w)
    as [[_ ->]|[Hc' _]]; [|done].
  rewrite Htr. destruct (py_get "data" d) eqn:Hd;
    try (by destruct (Hno fields));
    (eexists; split; [done|]; split; [|split; [|split]];
     [ rewrite sent_to_remove_ws_user; unfold sent_to at 1; simpl;
       by rewrite lookup_insert_eq
     | rewrite chat_handles_remove, decide_True by done; set_solver
     | intros h Hne; rewrite sent_to_remove_ws_user; unfold sent_to at 1; simpl;
       by rewrite lookup_insert_ne
     | by hub_frame ]).
Qed.

(** X20. No step of the two socket endpoints (accepting a connection,
    handling a frame, a disconnection) changes the history of any user:
    what goes through the sockets is not stored. *)
Theorem socket_traffic_not_stored user_id room_id ws raw now w :
  (forall u, history (world_of (ws_chat_accept user_id ws now w)) u = history w u) /\
  (forall u, history (world_of (ws_chat_frame user_id ws raw now w)) u = history w u) /\
  (forall u, history (ws_chat_disconnect user_id ws w) u = history w u) /\
  (forall u, history (world_of (ws_signal_accept room_id ws now w)) u = history w u) /\
  (forall u, history (world_of (ws_signal_frame room_id ws raw now w)) u = history w u) /\
  (forall u, history (ws_signal_disconnect room_id ws w) u = history w u).
Proof.
  unfold history.
  destruct (ws_chat_accept_frame user_id ws now w) as (_ & _ & -> & _).
  destruct (ws_chat_frame_frame user_id ws raw now w) as (_ & _ & -> & _).
  destruct (ws_signal_accept_frame room_id ws now w) as (_ & _ & -> & _).
  destruct (ws_signal_frame_frame room_id ws raw now w) as (_ & _ & -> & _).
  unfold ws_chat_disconnect, ws_signal_disconnect. by hub_frame.
Qed.

(** X21. When the greeting of [ws_chat] cannot be sent the handler
    ends with the socket still registered, the send being outside the
    [try] block; the next broadcast to the user unregisters it. *)
Theorem failed_greeting_leaves_socket user_id ws now payload w :
  ws ∈ ws_closed w ->
  let w1 := add_ws_user user_id ws w in
  ws_chat_accept user_id ws now w = Exit w1 /\
  ws ∈ chat_handles w1 user_id /\
  (ws ∉ chat_handles (broadcast_to_user user_id payload w1) user_id).
Proof.
  intros Hc. cbv zeta. split; [|split].
  - unfold ws_chat_accept.
    destruct (ws_send_text _ _ _) as [w'|] eqn:Hs; [|done].
    apply ws_send_text_Some in Hs as [Hn _].
    by rewrite ws_closed_add_ws_user in Hn.
  - unfold chat_handles. rewrite ws_by_user_add, lookup_insert_eq. simpl.
    set_solver.
  - rewrite chat_handles_broadcast_to_user, decide_True by done.
    rewrite ws_closed_add_ws_user. set_solver.
Qed.

(** X22. A broadcast to a user that has no key in [ws_by_user] and none
    in [sse_queues] changes nothing at all: the two reads with [.get]
    create no key, nothing is sent and nothing is logged. *)
Theorem broadcast_to_nobody user_id payload w :
  ws_by_user w !! user_id = None -> sse_queues w !! user_id = None ->
  broadcast_to_user user_id payload w = w.
Proof.
  intros Hu Hq. unfold broadcast_to_user, chat_handles.
  rewrite Hu. simpl. rewrite elements_empty. simpl.
  unfold push_queues. by rewrite Hq.
Qed.

Lemma room_loop_only_sender room_id payload sender l w :
  (forall x, x ∈ l -> x = sender) ->
  foldl (send_or_drop_room room_id payload sender) w l = w.
Proof.
  induction l as [|a l IH]; intros Hl; simpl; [done|].
  unfold send_or_drop_room at 2. rewrite decide_True by (apply Hl; by left).
  apply IH. intros x Hx. apply Hl. by right.
Qed.

(** X23. A relay in a room that holds no socket besides the sender
    changes nothing at all. *)
Theorem broadcast_room_alone room_id payload sender w :
  room_handles w room_id ⊆ {[sender]} ->
  broadcast_room room_id payload sender w = w.
Proof.
  intros Hsub. unfold broadcast_room. apply room_loop_only_sender.
  intros x Hx%elem_of_elements. set_solver.
Qed.

(** X24. A signaling frame that decodes to an object is relayed as
    that object with a [ts] field added at the end when it has none, and
    unchanged when it has one; every other key keeps its value; every
    other open socket of the room gets exactly that one frame, the sender
    gets none, and the loop goes on. *)
Theorem signal_relay_stamps_once room_id ws raw now w d :
  json_loads raw = Some (JObj d) ->
  let d' := dict_setdefault "ts" (JStr now) d in
  let w' := world_of (ws_signal_frame room_id ws raw now w) in
  ws_signal_frame room_id ws raw now w =
    Continue (broadcast_room room_id (JObj d') ws w) /\
  (d' = d \/ d' = d ++ [("ts", JStr now)]) /\
  dict_get "ts" d' = Some (default (JStr now) (dict_get "ts" d)) /\
  (forall k, k <> "ts" -> dict_get k d' = dict_get k d) /\
  (forall h, h ∈ room_handles w room_id -> h <> ws -> h ∉ ws_closed w ->
     sent_to w' h = sent_to w h ++ [json_dumps false (JObj d')]) /\
  sent_to w' ws = sent_to w ws.
Proof.
  intros Hl. cbv zeta.
  assert (ws_signal_frame room_id ws raw now w =
          Continue (broadcast_room room_id
                      (JObj (dict_setdefault "ts" (JStr now) d)) ws w)) as Heq.
  { unfold ws_signal_frame, signal_payload. by rewrite Hl. }
  rewrite Heq. cbn [world_of]. split; [done|]. split; [|split; [|split; [|split]]].
  - unfold dict_setdefault. destruct (dict_get "ts" d); [by left|by right].
  - rewrite dict_get_setdefault. destruct (dict_get "ts" d); [done|].
    by rewrite decide_True.
  - intros k Hk. rewrite dict_get_setdefault. destruct (dict_get k d); [done|].
    by rewrite decide_False.
  - intros h Hin Hne Hc. unfold broadcast_room.
    rewrite room_loop_sent by apply NoDup_elements.
    rewrite decide_True; [done|]. set_solver.
  - unfold broadcast_room. rewrite room_loop_sent by apply NoDup_elements.
    rewrite decide_False; [done|]. tauto.
Qed.

(** X25. A frame that is not JSON ends neither loop: the relay sends
    [{type: raw, data: <the text>, ts: now}] to the other open sockets of
    the room; the chat socket gets one [ack] frame that wraps the text,
    and stays registered. *)
Theorem undecodable_frame_goes_on user_id room_id ws raw now w :
  json_loads raw = None ->
  let wrapped := JObj [("type", JStr "raw"); ("data", JStr raw); ("ts", JStr now)] in
  let ack := json_dumps false
               (JObj [("type", JStr "ack");
                      ("data", JObj [("type", JStr "text");
                                     ("data", JObj [("text", JStr raw)])]);
                      ("ts", JStr now)]) in
  (exists w', ws_signal_frame room_id ws raw now w = Continue w' /\
     (forall h, h ∈ room_handles w room_id -> h <> ws -> h ∉ ws_closed w ->
        sent_to w' h = sent_to w h ++ [json_dumps false wrapped])) /\
  (ws ∉ ws_closed w ->
   exists w', ws_chat_frame user_id ws raw now w = Continue w' /\
     sent_to w' ws = sent_to w ws ++ [ack] /\
     ws_by_user w' = ws_by_user w).
Proof.
  intros Hl. cbv zeta.
  destruct (undecodable_frame_wrapped user_id room_id ws raw now w Hl) as [Hc Hs].
  split.
  - rewrite Hs. eexists. split; [done|].
    intros h Hin Hne Hcl. unfold broadcast_room.
    rewrite room_loop_sent by apply NoDup_elements.
    rewrite decide_True; [done|]. set_solver.
  - intros Hcl. rewrite Hc.
    match goal with |- context [reply_chat user_id ws ?t w] =>
      destruct (reply_chat_cases user_id ws t w) as [[_ ->]|[Hc' _]] end; [|done].
    eexists. split; [done|]. split; [|done].
    unfold sent_to at 1. simpl. by rewrite lookup_insert_eq.
Qed.

End SocketRuns.

(** ** The stream as the test client reads it *)

Lemma lines_of_line s rest :
  no_newline s ->
  lines_of (s +:+ String newline rest) =
  (s +:+ String newline EmptyString) :: lines_of rest.
Proof.
  unfold no_newline. induction s as [|c s IH]; simpl; intros Hs; [done|].
  apply Forall_cons in Hs as [Hc Hs]. rewrite decide_False by done.
  by rewrite IH.
Qed.

Lemma rstrip_newline_line s :
  no_newline s -> rstrip_newline (s +:+ String newline EmptyString) = s.
Proof.
  unfold no_newline. induction s as [|c s IH]; simpl; intros Hs; [done|].
  apply Forall_cons in Hs as [Hc Hs]. rewrite IH by done.
  destruct s; [|done]. by rewrite decide_False.
Qed.

Lemma no_newline_app s t : no_newline s -> no_newline t -> no_newline (s +:+ t).
Proof.
  unfold no_newline. induction s as [|c s IH]; simpl; intros Hs Ht; [done|].
  apply Forall_cons in Hs as [Hc Hs]. apply Forall_cons. split; [done|].
  by apply IH.
Qed.

Lemma string_app_cons (x : ascii) (a b : string) :
  String x a +:+ b = String x (a +:+ b).
Proof. reflexivity. Qed.

Lemma string_app_nil (b : string) : EmptyString +:+ b = b.
Proof. reflexivity. Qed.

Lemma string_app_assoc (a b c : string) : (a +:+ b) +:+ c = a +:+ (b +:+ c).
Proof.
  induction a as [|x a IH]; [done|].
  rewrite !string_app_cons. by f_equal.
Qed.

Section ClientFacts.
Context {codec : JsonLib}.

Lemma listener_blank_line st :
  sse_listener_line st (String newline EmptyString) =
  match buffer_lines st with
  | [] => st
  | buffer => mkListener [] (received st ++ dispatch buffer)
  end.
Proof. reflexivity. Qed.

Lemma listener_data_line st d :
  no_newline d ->
  sse_listener_line st (("data: " +:+ d) +:+ String newline EmptyString) =
  mkListener (buffer_lines st ++ ["data: " +:+ d]) (received st).
Proof.
  intros Hnl.
  assert (no_newline ("data: " +:+ d)) as Hnl'.
  { apply no_newline_app; [|done]. unfold no_newline. simpl.
    repeat (apply Forall_cons; split; [done|]). constructor. }
  unfold sse_listener_line. rewrite (rstrip_newline_line _ Hnl').
  rewrite !string_app_cons, string_app_nil. by rewrite decide_False by done.
Qed.

Lemma listener_comment_line st s :
  no_newline s ->
  sse_listener_line st ((":" +:+ s) +:+ String newline EmptyString) = st.
Proof.
  intros Hnl.
  assert (no_newline (":" +:+ s)) as Hnl'.
  { apply no_newline_app; [|done]. unfold no_newline. simpl.
    repeat (apply Forall_cons; split; [done|]). constructor. }
  unfold sse_listener_line. rewrite (rstrip_newline_line _ Hnl').
  rewrite !string_app_cons, string_app_nil. rewrite decide_False by done.
  simpl. by destruct s.
Qed.

Lemma dispatch_data_line d item :
  lstrip d = d -> json_loads d = Some item ->
  dispatch ["data: " +:+ d] = [("event", item)].
Proof.
  intros Hls Hload. unfold dispatch.
  rewrite !string_app_cons, string_app_nil. simpl. by rewrite Hls, Hload.
Qed.

Lemma listener_data_event st d item :
  no_newline d -> lstrip d = d -> json_loads d = Some item ->
  buffer_lines st = [] ->
  foldl sse_listener_line st
    (lines_of ("data: " +:+ d +:+ String newline (String newline EmptyString)))
  = mkListener [] (received st ++ [("event", item)]).
Proof.
  intros Hnl Hls Hload Hbuf.
  assert (no_newline ("data: " +:+ d)) as Hnl'.
  { apply no_newline_app; [|done]. unfold no_newline. simpl.
    repeat (apply Forall_cons; split; [done|]). constructor. }
  rewrite <- string_app_assoc.
  rewrite (lines_of_line _ _ Hnl').
  change (lines_of (String newline EmptyString)) with [String newline EmptyString].
  cbn [foldl]. rewrite (listener_data_line _ _ Hnl), listener_blank_line.
  rewrite Hbuf. cbn [app buffer_lines received].
  by rewrite (dispatch_data_line _ _ Hls Hload).
Qed.

(** X26. An item taken from the queue of a push stream is yielded as
    the text [data: <json>] and an empty line; the listener of the
    end-to-end test, reading that text line by line with an empty buffer,
    puts the single entry [("event", item)] on its queue and ends with an
    empty buffer, provided [json.dumps] gives one line with no leading
    white space that [json.loads] reads back as the item. *)
Theorem stream_item_reaches_client q now w w' st item :
  event_gen_next q w = Some (item, w') ->
  no_newline (json_dumps false item) ->
  lstrip (json_dumps false item) = json_dumps false item ->
  json_loads (json_dumps false item) = Some item ->
  buffer_lines st = [] ->
  (event_gen_turn q now w).2 = w' /\
  foldl sse_listener_line st (lines_of (event_gen_turn q now w).1)
  = mkListener [] (received st ++ [("event", item)]).
Proof.
  intros Hnext Hnl Hls Hload Hbuf. unfold event_gen_turn. rewrite Hnext.
  split; [done|]. cbn [fst]. unfold sse_data_event.
  by apply listener_data_event.
Qed.

(** X27. When its queue is empty the generator yields a keep-alive
    comment and leaves the state as it was; the listener of the end-to-end
    test, reading it with an empty buffer, puts nothing on its queue. *)
Theorem keepalive_is_skipped q now w st :
  event_gen_next q w = None -> no_newline now -> buffer_lines st = [] ->
  (event_gen_turn q now w).2 = w /\
  foldl sse_listener_line st (lines_of (event_gen_turn q now w).1) = st.
Proof.
  intros Hnext Hnl Hbuf. unfold event_gen_turn. rewrite Hnext.
  split; [done|]. cbn [fst]. unfold sse_keepalive.
  assert (no_newline (" keepalive " +:+ now)) as Hnl'.
  { apply no_newline_app; [|done]. unfold no_newline. simpl.
    repeat (apply Forall_cons; split; [done|]). constructor. }
  assert (no_newline (":" +:+ " keepalive " +:+ now)) as Hnl''.
  { apply no_newline_app; [|done]. unfold no_newline. simpl.
    repeat (apply Forall_cons; split; [done|]). constructor. }
  change (": keepalive " +:+ now +:+ String newline (String newline EmptyString))
    with ((":" +:+ (" keepalive " +:+ now)) +:+ String newline (String newline EmptyString)).
  rewrite (lines_of_line _ _ Hnl'').
  change (lines_of (String newline EmptyString)) with [String newline EmptyString].
  cbn [foldl].
  rewrite (listener_comment_line _ _ Hnl'), listener_blank_line.
  by rewrite Hbuf.
Qed.

End ClientFacts.

(** ** The checks of the end-to-end test *)

Lemma messages_append_frame user_id msg w :
  let w' := messages_append user_id msg w in
  ws_by_user w' = ws_by_user w /\ ws_closed w' = ws_closed w /\
  ws_sent w' = ws_sent w /\ sse_queues w' = sse_queues w /\
  queues w' = queues w.
Proof. cbv zeta. unfold messages_append. by destruct (dd_getitem _ _ _). Qed.

Section EndToEnd.
Context {codec : JsonLib}.

(** X28. An accepted [post_message] makes the event
    [{type: message, data: msg}] the last frame of every open socket of
    the user and the last item of every queue of the user that is not
    full; [is_message_with_text] of the end-to-end test accepts, for the
    stripped text, both what [ws_reader] makes of the frame and the item
    of the push stream. *)
Theorem posted_message_is_recognised payload new_id now w role h q :
  role_of payload = Some role ->
  let user_id := strip (py_str (py_get_default "user_id" (JStr EmptyString) payload)) in
  let text := strip (py_str (py_get_default "text" (JStr EmptyString) payload)) in
  let msg := JObj [("id", JStr new_id); ("ts", JStr now);
                   ("user_id", JStr user_id); ("role", JStr role);
                   ("text", JStr text)] in
  let event := JObj [("type", JStr "message"); ("data", msg)] in
  let w' := (post_message payload new_id now w).2 in
  user_id <> EmptyString -> text <> EmptyString ->
  h ∈ chat_handles w user_id -> h ∉ ws_closed w ->
  NoDup (push_queues w user_id) -> q ∈ push_queues w user_id ->
  q_full (queue_of w q) = false ->
  json_loads (json_dumps false event) = Some event ->
  last (sent_to w' h) = Some (json_dumps false event) /\
  is_message_with_text (ws_reader (json_dumps false event)) text = true /\
  last (q_items (queue_of w' q)) = Some event /\
  is_message_with_text ("event", event) text = true.
Proof.
  intros Hr user_id text msg event w' Hu Ht Hin Hc Hnd Hq Hfull Hload.
  subst w'. rewrite (post_message_accepts payload new_id now w role Hr Hu Ht).
  fold user_id text msg event. cbn [snd].
  destruct (messages_append_frame user_id msg w) as (Hwu & Hwc & Hws & Hwq & Hwqs).
  cbv zeta in *.
  assert (is_message_with_text ("event", event) text = true) as Hrec.
  { simpl. by rewrite bool_decide_eq_true_2. }
  split; [|split; [|split]].
  - rewrite sent_to_broadcast_to_user. rewrite decide_True.
    + apply last_snoc.
    + unfold chat_handles. by rewrite Hwu, Hwc.
  - unfold ws_reader. rewrite Hload. simpl. by rewrite bool_decide_eq_true_2.
  - rewrite queue_of_broadcast_to_user
      by (unfold push_queues; by rewrite Hwq).
    rewrite decide_True.
    + simpl. apply last_snoc.
    + unfold push_queues, queue_of. by rewrite Hwq, Hwqs.
  - done.
Qed.

End EndToEnd.

Lemma wait_for_queue_match_Some predicate arrivals item rest :
  wait_for_queue_match predicate arrivals = Some (item, rest) ->
  predicate item = true /\
  exists skipped, arrivals = skipped ++ item :: rest /\
    Forall (fun x => predicate x = false) skipped.
Proof.
  revert item rest. induction arrivals as [|a l IH]; intros item rest; simpl; [done|].
  destruct (predicate a) eqn:Ha.
  - intros [= <- <-]. split; [done|]. by exists [].
  - intros (Hp & skipped & -> & Hsk)%IH. split; [done|].
    exists (a :: skipped). split; [done|]. by constructor.
Qed.

Lemma wait_for_queue_match_finds predicate arrivals x :
  x ∈ arrivals -> predicate x = true ->
  exists item rest, wait_for_queue_match predicate arrivals = Some (item, rest).
Proof.
  induction arrivals as [|a l IH]; intros Hin Hp; [by apply elem_of_nil in Hin|].
  simpl. destruct (predicate a) eqn:Ha; [by eauto|].
  apply elem_of_cons in Hin as [->|Hin]; [congruence|]. by apply IH.
Qed.

Section Checks.
Context {codec : JsonLib}.

(** X29. The second check of the end-to-end test: after a [message]
    frame with data [{text: t, ...}] sent on an open socket, the wait for
    an echo with text [t] on the sender's queue and the wait for a message
    with text [t] on the queue of another open socket of the user both
    return an item, whatever part of the earlier frames the client has
    already read; a wait for an echo on the other socket, everything
    earlier being read, times out. *)
Theorem chat_check_passes user_id ws other raw now w d fields text n m :
  json_loads raw = Some (JObj d) -> dict_get "type" d = Some (JStr "message") ->
  dict_get "data" d = Some (JObj fields) ->
  dict_get "text" fields = Some (JStr text) ->
  ws ∈ chat_handles w user_id -> ws ∉ ws_closed w ->
  other ∈ chat_handles w user_id -> other <> ws -> other ∉ ws_closed w ->
  let echo := JObj [("type", JStr "echo"); ("data", JObj fields)] in
  let event := JObj [("type", JStr "message");
                     ("data", JObj (dict_set "ts" (JStr now)
                                     (dict_set "echoed" (JBool true) fields)))] in
  let w' := world_of (ws_chat_frame user_id ws raw now w) in
  json_loads (json_dumps false echo) = Some echo ->
  json_loads (json_dumps false event) = Some event ->
  n <= length (sent_to w ws) -> m <= length (sent_to w other) ->
  (exists item rest,
     wait_for_queue_match (fun it => is_echo_with_text it text)
       (List.map ws_reader (drop n (sent_to w' ws))) = Some (item, rest) /\
     is_echo_with_text item text = true) /\
  (exists item rest,
     wait_for_queue_match (fun it => is_message_with_text it text)
       (List.map ws_reader (drop m (sent_to w' other))) = Some (item, rest) /\
     is_message_with_text item text = true) /\
  wait_for_queue_match (fun it => is_echo_with_text it text)
    (List.map ws_reader (drop (length (sent_to w other)) (sent_to w' other))) = None.
Proof.
  intros Hl Hty Hdata Htext Hin Hc Hoin Hone Hoc echo event w' Hle Hlv Hn Hm.
  assert (py_get "data" d = JObj fields) as Hpd by (unfold py_get; by rewrite Hdata).
  assert (fields <> []) as Hne by (by intros ->).
  assert ((if py_truthy (py_get "data" d) then py_get "data" d else JObj [])
          = JObj fields) as Hfields.
  { rewrite Hpd. simpl. by destruct fields. }
  assert (sent_to w' ws
          = sent_to w ws ++ [json_dumps false echo; json_dumps false event]) as Hws.
  { subst w'. rewrite (chat_message_after_echo _ _ _ _ _ _ _ Hl Hty Hfields Hc).
    rewrite Hpd. fold echo event. cbn [world_of].
    rewrite sent_to_broadcast_to_user. rewrite decide_True by done.
    unfold sent_to at 1. simpl. rewrite lookup_insert_eq. simpl.
    by rewrite <- app_assoc. }
  assert (sent_to w' other = sent_to w other ++ [json_dumps false event]) as Hother.
  { subst w'. rewrite (chat_message_after_echo _ _ _ _ _ _ _ Hl Hty Hfields Hc).
    rewrite Hpd. fold echo event. cbn [world_of].
    rewrite sent_to_broadcast_to_user. rewrite decide_True by done.
    unfold sent_to at 1. simpl. by rewrite lookup_insert_ne. }
  assert (is_echo_with_text (ws_reader (json_dumps false echo)) text = true) as Hecho.
  { unfold ws_reader. rewrite Hle. simpl. unfold py_get. rewrite Htext. simpl.
    by rewrite bool_decide_eq_true_2. }
  assert (is_message_with_text (ws_reader (json_dumps false event)) text = true)
    as Hmsg.
  { unfold ws_reader. rewrite Hlv. simpl. unfold py_get.
    rewrite !dict_get_set. rewrite !decide_False by done. rewrite Htext. simpl.
    by rewrite bool_decide_eq_true_2. }
  split; [|split].
  - destruct (wait_for_queue_match_finds (fun it => is_echo_with_text it text)
                (List.map ws_reader (drop n (sent_to w' ws)))
                (ws_reader (json_dumps false echo))) as (item & rest & Hw);
      [|done|].
    + apply list_elem_of_fmap_2. rewrite Hws, drop_app_le by done.
      apply elem_of_app. right. by left.
    + exists item, rest. split; [done|].
      by apply wait_for_queue_match_Some in Hw as [? _].
  - destruct (wait_for_queue_match_finds (fun it => is_message_with_text it text)
                (List.map ws_reader (drop m (sent_to w' other)))
                (ws_reader (json_dumps false event))) as (item & rest & Hw);
      [|done|].
    + apply list_elem_of_fmap_2. rewrite Hother, drop_app_le by done.
      apply elem_of_app. right. by left.
    + exists item, rest. split; [done|].
      by apply wait_for_queue_match_Some in Hw as [? _].
  - rewrite Hother, drop_app_length. simpl.
    unfold ws_reader. rewrite Hlv. simpl. done.
Qed.

End Checks.

Section SignalCheck.
Context {codec : JsonLib}.

(** X30. The third check of the end-to-end test: after a signaling
    frame that is an object with a [type] and a [nonce], the wait on the
    queue of another open socket of the room for a frame with that type
    and that nonce returns an item, whatever part of the earlier frames
    the client has already read; the same wait on the sender's own queue,
    all earlier frames being read, times out. *)
Theorem signal_check_passes room_id ws other raw now w d kind nonce n :
  json_loads raw = Some (JObj d) ->
  dict_get "type" d = Some (JStr kind) -> dict_get "nonce" d = Some (JStr nonce) ->
  other ∈ room_handles w room_id -> other <> ws -> other ∉ ws_closed w ->
  let relayed := JObj (dict_setdefault "ts" (JStr now) d) in
  let w' := world_of (ws_signal_frame room_id ws raw now w) in
  json_loads (json_dumps false relayed) = Some relayed ->
  n <= length (sent_to w other) ->
  (exists item rest,
     wait_for_queue_match (is_signal_with_nonce kind nonce)
       (List.map ws_reader (drop n (sent_to w' other))) = Some (item, rest) /\
     is_signal_with_nonce kind nonce item = true) /\
  wait_for_queue_match (is_signal_with_nonce kind nonce)
    (List.map ws_reader (drop (length (sent_to w ws)) (sent_to w' ws))) = None.
Proof.
  intros Hl Hty Hnonce Hin Hne Hc relayed w' Hload Hn.
  assert (w' = broadcast_room room_id relayed ws w) as Hw'.
  { subst w'. unfold ws_signal_frame, signal_payload. by rewrite Hl. }
  assert (sent_to w' other = sent_to w other ++ [json_dumps false relayed]) as Hother.
  { rewrite Hw'. unfold broadcast_room.
    rewrite room_loop_sent by apply NoDup_elements.
    rewrite decide_True; [done|]. set_solver. }
  assert (sent_to w' ws = sent_to w ws) as Hws.
  { rewrite Hw'. unfold broadcast_room.
    rewrite room_loop_sent by apply NoDup_elements.
    rewrite decide_False; [done|]. tauto. }
  assert (is_signal_with_nonce kind nonce (ws_reader (json_dumps false relayed)) = true)
    as Hok.
  { unfold ws_reader. rewrite Hload. unfold relayed. simpl. unfold py_get.
    rewrite !dict_get_setdefault, Hty, Hnonce. simpl.
    by rewrite !bool_decide_eq_true_2. }
  split.
  - destruct (wait_for_queue_match_finds (is_signal_with_nonce kind nonce)
                (List.map ws_reader (drop n (sent_to w' other)))
                (ws_reader (json_dumps false relayed))) as (item & rest & Hw);
      [|done|].
    + apply list_elem_of_fmap_2. rewrite Hother, drop_app_le by done.
      apply elem_of_app. right. by left.
    + exists item, rest. split; [done|].
      by apply wait_for_queue_match_Some in Hw as [? _].
  - by rewrite Hws, drop_all.
Qed.

End SignalCheck.

(** ** The further scenes, run *)

Lemma alice_world_reachable : reachable (codec := lite_json) alice_world.
Proof.
  unfold alice_world, reachable.
  eapply rtc_r; [|apply (step_chat_accept (codec := lite_json) "bob" 3 "t0")].
  eapply rtc_r; [|apply (step_sse (codec := lite_json) "alice")].
  eapply rtc_r; [|apply (step_chat_accept (codec := lite_json) "alice" 2 "t0")].
  apply rtc_once, (step_chat_accept (codec := lite_json) "alice" 1 "t0").
Qed.

Lemma two_users_world_reachable : reachable (codec := lite_json) two_users_world.
Proof.
  eapply rtc_r; [apply alice_world_reachable|apply (step_sse (codec := lite_json) "bob")].
Qed.

Lemma room_world_reachable : reachable (codec := lite_json) room_world.
Proof.
  unfold room_world, reachable.
  eapply rtc_r; [|apply (step_signal_accept (codec := lite_json) "r2" 3 "t0")].
  eapply rtc_r; [|apply (step_signal_accept (codec := lite_json) "r1" 2 "t0")].
  apply rtc_once, (step_signal_accept (codec := lite_json) "r1" 1 "t0").
Qed.

Lemma remove_ws_user_absent_witness :
  no_empty_set (ws_by_user alice_world) /\
  (7 ∉ chat_handles alice_world "alice") /\
  ws_by_user (remove_ws_user "alice" 7 alice_world) = ws_by_user alice_world.
Proof.
  assert (no_empty_set (ws_by_user alice_world)) as H1
    by apply (reachable_hub_inv (codec := lite_json) _ alice_world_reachable).
  assert (7 ∉ chat_handles alice_world "alice") as H2 by by_compute.
  split; [exact H1|]. split; [exact H2|].
  exact (remove_ws_user_absent "alice" 7 alice_world H1 H2).
Defined.

Lemma add_remove_ws_user_witness :
  no_empty_set (ws_by_user alice_world) /\
  (7 ∉ chat_handles alice_world "carol") /\
  ws_by_user (remove_ws_user "carol" 7 (add_ws_user "carol" 7 alice_world))
  = ws_by_user alice_world.
Proof.
  assert (no_empty_set (ws_by_user alice_world)) as H1
    by apply (reachable_hub_inv (codec := lite_json) _ alice_world_reachable).
  assert (7 ∉ chat_handles alice_world "carol") as H2 by by_compute.
  split; [exact H1|]. split; [exact H2|].
  exact (add_remove_ws_user "carol" 7 alice_world H1 H2).
Defined.

Lemma add_remove_ws_room_witness :
  no_empty_set (ws_rooms room_world) /\
  (7 ∉ room_handles room_world "r1") /\
  ws_rooms (remove_ws_room "r1" 7 room_world) = ws_rooms room_world /\
  ws_rooms (remove_ws_room "r1" 7 (add_ws_room "r1" 7 room_world))
  = ws_rooms room_world.
Proof.
  assert (no_empty_set (ws_rooms room_world)) as H1
    by apply (reachable_hub_inv (codec := lite_json) _ room_world_reachable).
  assert (7 ∉ room_handles room_world "r1") as H2 by by_compute.
  split; [exact H1|]. split; [exact H2|].
  exact (add_remove_ws_room "r1" 7 room_world H1 H2).
Defined.

Lemma reachable_registry_shape_witness :
  reachable (codec := lite_json) alice_world /\
  no_empty_set (ws_by_user alice_world) /\ no_empty_set (ws_rooms alice_world) /\
  (forall user_id, NoDup (push_queues alice_world user_id)) /\
  queues_one_owner alice_world.
Proof.
  split; [exact alice_world_reachable|].
  exact (reachable_registry_shape (codec := lite_json) alice_world alice_world_reachable).
Defined.

Lemma broadcast_to_user_other_stream_witness :
  reachable (codec := lite_json) two_users_world /\ "bob" <> "alice" /\
  1 ∈ push_queues two_users_world "bob" /\
  queue_of (broadcast_to_user (codec := lite_json) "alice" hi two_users_world) 1
  = queue_of two_users_world 1.
Proof.
  assert ("bob" <> "alice") as H1 by discriminate.
  assert (1 ∈ push_queues two_users_world "bob") as H2 by by_compute.
  split; [exact two_users_world_reachable|]. split; [exact H1|]. split; [exact H2|].
  exact (broadcast_to_user_other_stream (codec := lite_json) "alice" hi
           two_users_world "bob" 1 two_users_world_reachable H1 H2).
Defined.

Lemma reachable_lock_discipline_witness :
  reachable (codec := lite_json) alice_world /\
  lock_held alice_world = false /\
  (forall r locked, Mutate r locked ∈ trace alice_world ->
     r <> SseQueues -> locked = true) /\
  sends_unlocked (trace alice_world).
Proof.
  split; [exact alice_world_reachable|].
  exact (reachable_lock_discipline (codec := lite_json) alice_world alice_world_reachable).
Defined.

Lemma subscribe_then_broadcast_witness :
  reachable (codec := lite_json) alice_world /\
  push_queues (sse "bob" alice_world).2 "bob" = [(sse "bob" alice_world).1] /\
  queue_of (broadcast_to_user (codec := lite_json) "bob" hi (sse "bob" alice_world).2)
           (sse "bob" alice_world).1
  = mkQueue 0 [hi].
Proof.
  split; [exact alice_world_reachable|].
  destruct (subscribe_then_broadcast (codec := lite_json) "bob" hi alice_world
              alice_world_reachable) as (_ & Hl & _ & _ & Hb).
  split; [exact Hl|exact Hb].
Defined.

Lemma subscribe_then_unsubscribe_witness :
  reachable (codec := lite_json) alice_world /\
  push_queues (event_gen_finally "alice" (sse "alice" alice_world).1
                 (sse "alice" alice_world).2) "alice"
  = push_queues alice_world "alice".
Proof.
  split; [exact alice_world_reachable|].
  exact (proj1 (subscribe_then_unsubscribe (codec := lite_json) "alice" alice_world
                  alice_world_reachable) "alice").
Defined.

Lemma event_gen_finally_twice_witness :
  NoDup (push_queues alice_world "alice") /\
  event_gen_finally "alice" 0 (event_gen_finally "alice" 0 alice_world)
  = event_gen_finally "alice" 0 alice_world.
Proof.
  assert (NoDup (push_queues alice_world "alice")) as H1 by by_compute.
  split; [exact H1|]. exact (event_gen_finally_twice "alice" 0 alice_world H1).
Defined.

Lemma broadcasts_arrive_in_order_witness :
  NoDup (push_queues alice_world "alice") /\ 0 ∈ push_queues alice_world "alice" /\
  q_maxsize (queue_of alice_world 0) = 0 /\
  q_items (queue_of (broadcast_to_user (codec := lite_json) "alice" offer
                       (broadcast_to_user (codec := lite_json) "alice" hi alice_world)) 0)
  = q_items (queue_of alice_world 0) ++ [hi; offer].
Proof.
  assert (NoDup (push_queues alice_world "alice")) as H1 by by_compute.
  assert (0 ∈ push_queues alice_world "alice") as H2 by by_compute.
  assert (q_maxsize (queue_of alice_world 0) = 0) as H3 by (vm_compute; reflexivity).
  split; [exact H1|]. split; [exact H2|]. split; [exact H3|].
  exact (proj1 (broadcasts_arrive_in_order (codec := lite_json) "alice" hi offer
                  alice_world 0 H1 H2 H3)).
Defined.

Lemma broadcast_before_hello_witness :
  reachable (codec := lite_json) alice_world /\
  exists w2,
    event_gen_hello (sse "bob" alice_world).1 "t1"
      (broadcast_to_user (codec := lite_json) "bob" hi (sse "bob" alice_world).2)
    = Some w2 /\
    q_items (queue_of w2 (sse "bob" alice_world).1) = [hi; sse_hello "t1"].
Proof.
  split; [exact alice_world_reachable|].
  exact (proj2 (broadcast_before_hello (codec := lite_json) "bob" hi "t1" alice_world
                  alice_world_reachable)).
Defined.

Lemma post_message_validation_witness :
  role_of blank_body = Some "user" /\
  dict_get "user_id" blank_body = Some (JStr "alice") /\
  dict_get "text" blank_body = Some (JStr "  ") /\
  all_space "  " /\
  (post_message (codec := lite_json) blank_body "id1" "t1" alice_world).1
  = HTTPException 400 "user_id and text are required".
Proof.
  assert (role_of blank_body = Some "user") as H1 by (vm_compute; reflexivity).
  assert (dict_get "user_id" blank_body = Some (JStr "alice")) as H2 by reflexivity.
  assert (dict_get "text" blank_body = Some (JStr "  ")) as H3 by reflexivity.
  assert (all_space "  ") as H4 by by_compute.
  split; [exact H1|]. split; [exact H2|]. split; [exact H3|]. split; [exact H4|].
  exact (proj2 (proj1 (post_message_validation (codec := lite_json) blank_body
                         "id1" "t1" alice_world "user" "alice" "  " H1 H2 H3))
               (or_intror H4)).
Defined.

Lemma post_message_then_history_witness :
  role_of hi_body = Some "user" /\
  strip (py_str (codec := lite_json)
           (py_get_default "user_id" (JStr EmptyString) hi_body)) <> EmptyString /\
  strip (py_str (codec := lite_json)
           (py_get_default "text" (JStr EmptyString) hi_body)) <> EmptyString /\
  last (history (post_message (codec := lite_json) hi_body "id1" "t1" alice_world).2
                "alice")
  = Some (JObj [("id", JStr "id1"); ("ts", JStr "t1"); ("user_id", JStr "alice");
                ("role", JStr "user"); ("text", JStr "hi")]).
Proof.
  assert (role_of hi_body = Some "user") as H1 by (vm_compute; reflexivity).
  assert (strip (py_str (codec := lite_json)
            (py_get_default "user_id" (JStr EmptyString) hi_body)) <> EmptyString)
    as H2 by (vm_compute; discriminate).
  assert (strip (py_str (codec := lite_json)
            (py_get_default "text" (JStr EmptyString) hi_body)) <> EmptyString)
    as H3 by (vm_compute; discriminate).
  split; [exact H1|]. split; [exact H2|]. split; [exact H3|].
  exact (proj1 (proj2 (proj2 (post_message_then_history (codec := lite_json) hi_body
                                "id1" "t1" alice_world "user" H1 H2 H3)))).
Defined.

Lemma dev_reset_then_post_witness :
  role_of hi_body = Some "user" /\
  history (post_message (codec := lite_json) hi_body "id1" "t1"
             (dev_reset (store_of "alice" (numbered 3)))).2 "alice"
  = [JObj [("id", JStr "id1"); ("ts", JStr "t1"); ("user_id", JStr "alice");
           ("role", JStr "user"); ("text", JStr "hi")]].
Proof.
  assert (role_of hi_body = Some "user") as H1 by (vm_compute; reflexivity).
  assert (strip (py_str (codec := lite_json)
            (py_get_default "user_id" (JStr EmptyString) hi_body)) <> EmptyString)
    as H2 by (vm_compute; discriminate).
  assert (strip (py_str (codec := lite_json)
            (py_get_default "text" (JStr EmptyString) hi_body)) <> EmptyString)
    as H3 by (vm_compute; discriminate).
  split; [exact H1|].
  exact (proj1 (proj2 (dev_reset_then_post (codec := lite_json) hi_body "id1" "t1"
                         (store_of "alice" (numbered 3)) "user" H1 H2 H3))).
Defined.

Lemma chat_frame_without_fanout_witness :
  (forall d, json_loads (JsonLib := lite_json) ping_frame = Some (JObj d) ->
     py_eq_str (py_get "type" d) "message" = false) /\
  sent_to (world_of (ws_chat_frame (codec := lite_json) "alice" 1 ping_frame "t1"
                       alice_world)) 2
  = sent_to alice_world 2.
Proof.
  assert (forall d, json_loads (JsonLib := lite_json) ping_frame = Some (JObj d) ->
            py_eq_str (py_get "type" d) "message" = false) as H1.
  { intros d Hd. vm_compute in Hd. injection Hd as <-. reflexivity. }
  split; [exact H1|].
  apply (proj1 (chat_frame_without_fanout (codec := lite_json) "alice" 1 ping_frame
                  "t1" alice_world H1)).
  lia.
Defined.

Lemma chat_ping_pong_witness :
  json_loads (JsonLib := lite_json) ping_frame = Some (JObj [("type", JStr "ping")]) /\
  (1 ∉ ws_closed alice_world) /\
  exists w', ws_chat_frame (codec := lite_json) "alice" 1 ping_frame "t1" alice_world
             = Continue w' /\
    sent_to w' 1 = sent_to alice_world 1 ++
      [lite_dumps (JObj [("type", JStr "pong"); ("ts", JStr "t1")])].
Proof.
  assert (json_loads (JsonLib := lite_json) ping_frame
          = Some (JObj [("type", JStr "ping")])) as H1 by (vm_compute; reflexivity).
  assert (1 ∉ ws_closed alice_world) as H2 by by_compute.
  split; [exact H1|]. split; [exact H2|].
  destruct (chat_ping_pong (codec := lite_json) "alice" 1 ping_frame "t1" alice_world
              [("type", JStr "ping")] H1 eq_refl H2) as (w' & Hc & Hs & _).
  exists w'. split; [exact Hc|exact Hs].
Defined.

Lemma chat_message_echo_then_broadcast_witness :
  json_loads (JsonLib := lite_json) yo_frame
  = Some (JObj [("type", JStr "message"); ("data", JObj [("text", JStr "yo")])]) /\
  1 ∈ chat_handles alice_world "alice" /\ (1 ∉ ws_closed alice_world) /\
  exists w', ws_chat_frame (codec := lite_json) "alice" 1 yo_frame "t1" alice_world
             = Continue w' /\
    sent_to w' 1 = sent_to alice_world 1 ++
      [lite_dumps (JObj [("type", JStr "echo"); ("data", JObj [("text", JStr "yo")])]);
       lite_dumps (JObj [("type", JStr "message");
                         ("data", JObj [("text", JStr "yo"); ("echoed", JBool true);
                                        ("ts", JStr "t1")])])].
Proof.
  assert (json_loads (JsonLib := lite_json) yo_frame
          = Some (JObj [("type", JStr "message");
                        ("data", JObj [("text", JStr "yo")])])) as H1
    by (vm_compute; reflexivity).
  assert (1 ∈ chat_handles alice_world "alice") as H2 by by_compute.
  assert (1 ∉ ws_closed alice_world) as H3 by by_compute.
  split; [exact H1|]. split; [exact H2|]. split; [exact H3|].
  destruct (chat_message_echo_then_broadcast (codec := lite_json) "alice" 1 yo_frame
              "t1" alice_world _ [("text", JStr "yo")] H1 eq_refl eq_refl H2 H3)
    as (w' & Hc & Hs & _).
  exists w'. split; [exact Hc|exact Hs].
Defined.

Lemma chat_message_bad_data_witness :
  json_loads (JsonLib := lite_json) bad_data_frame
  = Some (JObj [("type", JStr "message"); ("data", JStr "yo")]) /\
  (1 ∉ ws_closed alice_world) /\
  exists w', ws_chat_frame (codec := lite_json) "alice" 1 bad_data_frame "t1" alice_world
             = Exit w' /\
    sent_to w' 1 = sent_to alice_world 1 ++
      [lite_dumps (JObj [("type", JStr "echo"); ("data", JStr "yo")])] /\
    (1 ∉ chat_handles w' "alice").
Proof.
  assert (json_loads (JsonLib := lite_json) bad_data_frame
          = Some (JObj [("type", JStr "message"); ("data", JStr "yo")])) as H1
    by (vm_compute; reflexivity).
  assert (1 ∉ ws_closed alice_world) as H2 by by_compute.
  split; [exact H1|]. split; [exact H2|].
  destruct (chat_message_bad_data (codec := lite_json) "alice" 1 bad_data_frame
              "t1" alice_world _ H1 eq_refl eq_refl
              (fun fields => ltac:(discriminate)) H2)
    as (w' & Hc & Hs & Hg & _).
  exists w'. split; [exact Hc|]. split; [exact Hs|exact Hg].
Defined.

Lemma failed_greeting_leaves_socket_witness :
  9 ∈ ws_closed (ws_drop 9 init) /\
  ws_chat_accept (codec := lite_json) "alice" 9 "t0" (ws_drop 9 init)
  = Exit (add_ws_user "alice" 9 (ws_drop 9 init)) /\
  9 ∈ chat_handles (add_ws_user "alice" 9 (ws_drop 9 init)) "alice" /\
  (9 ∉ chat_handles (broadcast_to_user (codec := lite_json) "alice" hi
                       (add_ws_user "alice" 9 (ws_drop 9 init))) "alice").
Proof.
  assert (9 ∈ ws_closed (ws_drop 9 init)) as H1 by by_compute.
  split; [exact H1|].
  exact (failed_greeting_leaves_socket (codec := lite_json) "alice" 9 "t0" hi
           (ws_drop 9 init) H1).
Defined.

Lemma broadcast_to_nobody_witness :
  ws_by_user alice_world !! "carol" = None /\
  sse_queues alice_world !! "carol" = None /\
  broadcast_to_user (codec := lite_json) "carol" hi alice_world = alice_world.
Proof.
  assert (ws_by_user alice_world !! "carol" = None) as H1 by (vm_compute; reflexivity).
  assert (sse_queues alice_world !! "carol" = None) as H2 by (vm_compute; reflexivity).
  split; [exact H1|]. split; [exact H2|].
  exact (broadcast_to_nobody (codec := lite_json) "carol" hi alice_world H1 H2).
Defined.

Lemma broadcast_room_alone_witness :
  room_handles lone_room_world "r1" ⊆ {[1]} /\
  broadcast_room (codec := lite_json) "r1" offer 1 lone_room_world = lone_room_world.
Proof.
  assert (room_handles lone_room_world "r1" ⊆ {[1]}) as H1 by by_compute.
  split; [exact H1|].
  exact (broadcast_room_alone (codec := lite_json) "r1" offer 1 lone_room_world H1).
Defined.

Lemma signal_relay_stamps_once_witness :
  json_loads (JsonLib := lite_json) (lite_dumps offer)
  = Some (JObj [("type", JStr "offer"); ("sdp", JStr "x"); ("nonce", JStr "n1")]) /\
  ws_signal_frame (codec := lite_json) "r1" 1 (lite_dumps offer) "t1" room_world
  = Continue (broadcast_room (codec := lite_json) "r1"
                (JObj (dict_setdefault "ts" (JStr "t1")
                         [("type", JStr "offer"); ("sdp", JStr "x");
                          ("nonce", JStr "n1")]))
                1 room_world).
Proof.
  assert (json_loads (JsonLib := lite_json) (lite_dumps offer)
          = Some (JObj [("type", JStr "offer"); ("sdp", JStr "x");
                        ("nonce", JStr "n1")])) as H1 by (vm_compute; reflexivity).
  split; [exact H1|].
  exact (proj1 (signal_relay_stamps_once (codec := lite_json) "r1" 1 (lite_dumps offer)
                  "t1" room_world _ H1)).
Defined.

Lemma undecodable_frame_goes_on_witness :
  json_loads (JsonLib := lite_json) "hello" = None /\
  exists w', ws_signal_frame (codec := lite_json) "r1" 1 "hello" "t1" room_world
             = Continue w'.
Proof.
  assert (json_loads (JsonLib := lite_json) "hello" = None) as H1
    by (vm_compute; reflexivity).
  split; [exact H1|].
  destruct (proj1 (undecodable_frame_goes_on (codec := lite_json) "alice" "r1" 1
                     "hello" "t1" room_world H1)) as (w' & Hc & _).
  exists w'. exact Hc.
Defined.

Lemma stream_item_reaches_client_witness :
  event_gen_next 0 alice_after_hi = Some (hi, alice_after_next) /\
  no_newline (lite_dumps hi) /\ lstrip (lite_dumps hi) = lite_dumps hi /\
  json_loads (JsonLib := lite_json) (lite_dumps hi) = Some hi /\
  foldl (sse_listener_line (codec := lite_json)) (mkListener [] [])
        (lines_of (event_gen_turn (codec := lite_json) 0 "t1" alice_after_hi).1)
  = mkListener [] [("event", hi)].
Proof.
  assert (event_gen_next 0 alice_after_hi = Some (hi, alice_after_next)) as H1
    by (vm_compute; reflexivity).
  assert (no_newline (lite_dumps hi)) as H2 by by_compute.
  assert (lstrip (lite_dumps hi) = lite_dumps hi) as H3 by (vm_compute; reflexivity).
  assert (json_loads (JsonLib := lite_json) (lite_dumps hi) = Some hi) as H4
    by (vm_compute; reflexivity).
  split; [exact H1|]. split; [exact H2|]. split; [exact H3|]. split; [exact H4|].
  exact (proj2 (stream_item_reaches_client (codec := lite_json) 0 "t1" alice_after_hi
                  alice_after_next (mkListener [] []) hi H1 H2 H3 H4 eq_refl)).
Defined.

Lemma keepalive_is_skipped_witness :
  event_gen_next 0 alice_world = None /\ no_newline "t1" /\
  foldl (sse_listener_line (codec := lite_json)) (mkListener [] [])
        (lines_of (event_gen_turn (codec := lite_json) 0 "t1" alice_world).1)
  = mkListener [] [].
Proof.
  assert (event_gen_next 0 alice_world = None) as H1 by (vm_compute; reflexivity).
  assert (no_newline "t1") as H2 by by_compute.
  split; [exact H1|]. split; [exact H2|].
  exact (proj2 (keepalive_is_skipped (codec := lite_json) 0 "t1" alice_world
                  (mkListener [] []) H1 H2 eq_refl)).
Defined.

Lemma posted_message_is_recognised_witness :
  role_of hi_body = Some "user" /\
  1 ∈ chat_handles alice_world "alice" /\ (1 ∉ ws_closed alice_world) /\
  0 ∈ push_queues alice_world "alice" /\
  json_loads (JsonLib := lite_json) (lite_dumps hi_event) = Some hi_event /\
  is_message_with_text (ws_reader (codec := lite_json) (lite_dumps hi_event)) "hi"
  = true /\
  last (q_items (queue_of (post_message (codec := lite_json) hi_body "id1" "t1"
                             alice_world).2 0))
  = Some hi_event.
Proof.
  assert (role_of hi_body = Some "user") as H1 by (vm_compute; reflexivity).
  assert (strip (py_str (codec := lite_json)
            (py_get_default "user_id" (JStr EmptyString) hi_body)) <> EmptyString)
    as H2 by (vm_compute; discriminate).
  assert (strip (py_str (codec := lite_json)
            (py_get_default "text" (JStr EmptyString) hi_body)) <> EmptyString)
    as H3 by (vm_compute; discriminate).
  assert (1 ∈ chat_handles alice_world "alice") as H4 by by_compute.
  assert (1 ∉ ws_closed alice_world) as H5 by by_compute.
  assert (NoDup (push_queues alice_world "alice")) as H6 by by_compute.
  assert (0 ∈ push_queues alice_world "alice") as H7 by by_compute.
  assert (q_full (queue_of alice_world 0) = false) as H8 by (vm_compute; reflexivity).
  assert (json_loads (JsonLib := lite_json) (lite_dumps hi_event) = Some hi_event)
    as H9 by (vm_compute; reflexivity).
  split; [exact H1|]. split; [exact H4|]. split; [exact H5|]. split; [exact H7|].
  split; [exact H9|].
  destruct (posted_message_is_recognised (codec := lite_json) hi_body "id1" "t1"
              alice_world "user" 1 0 H1 H2 H3 H4 H5 H6 H7 H8 H9)
    as (_ & Hr & Hq & _).
  split; [exact Hr|exact Hq].
Defined.

Lemma chat_check_passes_witness :
  json_loads (JsonLib := lite_json) yo_frame
  = Some (JObj [("type", JStr "message"); ("data", JObj [("text", JStr "yo")])]) /\
  1 ∈ chat_handles alice_world "alice" /\ 2 ∈ chat_handles alice_world "alice" /\
  1 <= length (sent_to alice_world 1) /\
  (exists item rest,
     wait_for_queue_match (fun it => is_echo_with_text it "yo")
       (List.map (ws_reader (codec := lite_json))
          (drop 1 (sent_to (world_of (ws_chat_frame (codec := lite_json) "alice" 1
                                        yo_frame "t1" alice_world)) 1)))
     = Some (item, rest) /\
     is_echo_with_text item "yo" = true).
Proof.
  assert (json_loads (JsonLib := lite_json) yo_frame
          = Some (JObj [("type", JStr "message");
                        ("data", JObj [("text", JStr "yo")])])) as H1
    by (vm_compute; reflexivity).
  assert (1 ∈ chat_handles alice_world "alice") as H2 by by_compute.
  assert (1 ∉ ws_closed alice_world) as H3 by by_compute.
  assert (2 ∈ chat_handles alice_world "alice") as H4 by by_compute.
  assert (2 ∉ ws_closed alice_world) as H5 by by_compute.
  assert (json_loads (JsonLib := lite_json)
            (lite_dumps (JObj [("type", JStr "echo");
                               ("data", JObj [("text", JStr "yo")])]))
          = Some (JObj [("type", JStr "echo"); ("data", JObj [("text", JStr "yo")])]))
    as H6 by (vm_compute; reflexivity).
  assert (json_loads (JsonLib := lite_json) (lite_dumps yo_event) = Some yo_event)
    as H7 by (vm_compute; reflexivity).
  assert (1 <= length (sent_to alice_world 1)) as H8 by (vm_compute; lia).
  assert (0 <= length (sent_to alice_world 2)) as H9 by lia.
  split; [exact H1|]. split; [exact H2|]. split; [exact H4|]. split; [exact H8|].
  exact (proj1 (chat_check_passes (codec := lite_json) "alice" 1 2 yo_frame "t1"
                  alice_world _ [("text", JStr "yo")] "yo" 1 0 H1 eq_refl eq_refl
                  eq_refl H2 H3 H4 ltac:(discriminate) H5 H6 H7 H8 H9)).
Defined.

Lemma signal_check_passes_witness :
  json_loads (JsonLib := lite_json) (lite_dumps offer)
  = Some (JObj [("type", JStr "offer"); ("sdp", JStr "x"); ("nonce", JStr "n1")]) /\
  2 ∈ room_handles room_world "r1" /\ (2 ∉ ws_closed room_world) /\
  1 <= length (sent_to room_world 2) /\
  exists item rest,
    wait_for_queue_match (is_signal_with_nonce "offer" "n1")
      (List.map (ws_reader (codec := lite_json))
         (drop 1 (sent_to (world_of (ws_signal_frame (codec := lite_json) "r1" 1
                                       (lite_dumps offer) "t1" room_world)) 2)))
    = Some (item, rest) /\
    is_signal_with_nonce "offer" "n1" item = true.
Proof.
  assert (json_loads (JsonLib := lite_json) (lite_dumps offer)
          = Some (JObj [("type", JStr "offer"); ("sdp", JStr "x");
                        ("nonce", JStr "n1")])) as H1 by (vm_compute; reflexivity).
  assert (2 ∈ room_handles room_world "r1") as H2 by by_compute.
  assert (2 ∉ ws_closed room_world) as H3 by by_compute.
  assert (json_loads (JsonLib := lite_json)
            (lite_dumps (JObj (dict_setdefault "ts" (JStr "t1")
                                 [("type", JStr "offer"); ("sdp", JStr "x");
                                  ("nonce", JStr "n1")])))
          = Some (JObj (dict_setdefault "ts" (JStr "t1")
                          [("type", JStr "offer"); ("sdp", JStr "x");
                           ("nonce", JStr "n1")]))) as H4
    by (vm_compute; reflexivity).
  assert (1 <= length (sent_to room_world 2)) as H5 by (vm_compute; lia).
  split; [exact H1|]. split; [exact H2|]. split; [exact H3|]. split; [exact H5|].
  exact (proj1 (signal_check_passes (codec := lite_json) "r1" 1 2 (lite_dumps offer)
                  "t1" room_world _ "offer" "n1" 1 H1 eq_refl eq_refl H2
                  ltac:(discriminate) H3 H4 H5)).
Defined.
